(** * Retry helpers of the Saros SDK examples

    A shallow embedding of the retrying submitters and the small arithmetic
    helpers of the example scripts and of the troubleshooting guide:

    - [executeSwapWithRetry]      (examples/basic-swap.ts, class AdvancedSwapExample)
    - [calculatePositionParams]   (examples/basic-swap.ts, class DLMMPositionManager)
    - [sendAndConfirmWithRetry]   (troubleshooting guide, "Transaction Fails Silently")
    - [calculateDynamicSlippage]  (troubleshooting guide, "Slippage Exceeded")
    - [swapWithRetry]             (troubleshooting guide, "Slippage Exceeded")

    Modelling conventions.

    - An [async] function is a function whose result is the settlement of its
      promise, [Resolved v] or [Rejected e], together with the chronological
      list of effects it performed (console lines, calls into the SDK, timer
      delays).  [await] on a rejected promise is a [throw]; [try]/[catch] is a
      match on the settlement.
    - The SDK and the network are not part of the repository.  A call into
      them is answered by an oracle: a function from the number of calls
      already made during this run, and the arguments of the call, to the
      settlement of the call.  Quantifying over the oracle quantifies over
      every sequence of outcomes.
    - JavaScript numbers that count things (attempts, basis points, bin ids,
      milliseconds) are integers of [Z]; the percentages of the guide, which
      are fractional, are exact rationals of [Q], so that rounding of doubles
      is left out.
    - Console lines are kept as structured values, one constructor per
      [console.log] of the source.
    - A default argument ([maxRetries = 3]) is the argument its caller
      leaves out; the functions below take the argument itself. *)

From Stdlib Require Import ZArith QArith Qminmax List String DecimalString Bool Lia Lqa.
From Stdlib Require Import Qabs Sorted Permutation.
From Equations Require Import Equations.
Import ListNotations.

Local Open Scope string_scope.
Local Open Scope list_scope.
Local Open Scope Z_scope.

(** ** Values shared by the scripts *)

(** Base58 addresses and key pairs are opaque to the helpers. *)
Definition PublicKey := string.
Definition Keypair := string.
Definition TxSignature := string.

(** A JavaScript [Error]: only its [message] is ever read. *)
Record Error : Type := mkError { message : string }.

(** Settlement of a promise. *)
Inductive outcome (A : Type) : Type :=
| Resolved (v : A)
| Rejected (e : Error).
Arguments Resolved {A} v.
Arguments Rejected {A} e.

Definition is_rejected {A} (o : outcome A) : bool :=
  match o with Resolved _ => false | Rejected _ => true end.

Definition rejection {A} (o : outcome A) : option Error :=
  match o with Resolved _ => None | Rejected e => Some e end.

(** [lastError?.message] inside a template literal: a missing error prints
    as the text of [undefined]. *)
Definition optional_message (lastError : option Error) : string :=
  match lastError with
  | Some e => message e
  | None => "undefined"
  end.

(** One line per [console.log] of the helpers. *)
Inductive log_line : Type :=
| LogSwapAttempt (attempt maxRetries : Z)
| LogAttemptFailed (attempt : Z) (msg : string)
| LogWaitingBeforeRetry
| LogRetryWithSlippage (slippage : Q).

(** Effects of a run, parameterised by the description of an SDK call. *)
Inductive event (call : Type) : Type :=
| EvCall (c : call) (failure : option Error)
| EvLog (line : log_line)
| EvDelay (ms : Z).
Arguments EvCall {call} c failure.
Arguments EvLog {call} line.
Arguments EvDelay {call} ms.

Section Traces.
Context {call : Type}.

Definition is_call (ev : event call) : bool :=
  match ev with EvCall _ _ => true | _ => false end.

Definition is_failed_call (ev : event call) : bool :=
  match ev with EvCall _ (Some _) => true | _ => false end.

Definition is_successful_call (ev : event call) : bool :=
  match ev with EvCall _ None => true | _ => false end.

Definition is_delay (ev : event call) : bool :=
  match ev with EvDelay _ => true | _ => false end.

(** Number of invocations of the underlying operation. *)
Definition calls (tr : list (event call)) : nat :=
  List.length (filter is_call tr).

Definition failures (tr : list (event call)) : nat :=
  List.length (filter is_failed_call tr).

Definition successes (tr : list (event call)) : nat :=
  List.length (filter is_successful_call tr).

(** Number of timer delays. *)
Definition delays (tr : list (event call)) : nat :=
  List.length (filter is_delay tr).

(** The arguments handed to the underlying operation, in order. *)
Fixpoint arguments (tr : list (event call)) : list call :=
  match tr with
  | [] => []
  | EvCall c _ :: tr' => c :: arguments tr'
  | _ :: tr' => arguments tr'
  end.

(** The durations of the timer delays, in order. *)
Fixpoint delay_durations (tr : list (event call)) : list Z :=
  match tr with
  | [] => []
  | EvDelay ms :: tr' => ms :: delay_durations tr'
  | _ :: tr' => delay_durations tr'
  end.

(** What happened after the last call of the run. *)
Fixpoint after_last_call (tr : list (event call)) : list (event call) :=
  match tr with
  | [] => []
  | ev :: tr' =>
      if existsb is_call tr' then after_last_call tr'
      else if is_call ev then tr' else ev :: tr'
  end.

(** The value of a [lastError] variable after the run, [previous] being
    its value before. *)
Fixpoint last_error (previous : option Error) (tr : list (event call))
  : option Error :=
  match tr with
  | [] => previous
  | EvCall _ (Some e) :: tr' => last_error (Some e) tr'
  | _ :: tr' => last_error previous tr'
  end.

(** Where a run stands with respect to calls and delays. *)
Inductive phase : Type :=
| NoCallYet
| AfterCall (failed : bool)
| AfterDelay.

(** Delays sit strictly between attempts: a delay comes only after a
    failed call, a call comes only first or after a delay, and the run
    does not end on a delay.  Console lines are transparent. *)
Fixpoint delays_between_attempts (p : phase) (tr : list (event call)) : bool :=
  match tr with
  | [] => match p with AfterDelay => false | _ => true end
  | EvLog _ :: tr' => delays_between_attempts p tr'
  | EvCall _ failure :: tr' =>
      match p with
      | AfterCall _ => false
      | _ => delays_between_attempts
               (AfterCall (match failure with Some _ => true | None => false end)) tr'
      end
  | EvDelay _ :: tr' =>
      match p with
      | AfterCall true => delays_between_attempts AfterDelay tr'
      | _ => false
      end
  end.

(** Failed attempts that are not the final permitted one: the failed
    calls whose 1-based position in the run is below [maxAttempts].
    [ordinal] is the position of the next call of [tr]. *)
Fixpoint failed_nonfinal (maxAttempts ordinal : Z) (tr : list (event call)) : nat :=
  match tr with
  | [] => 0%nat
  | EvCall _ failure :: tr' =>
      Nat.add
        match failure with
        | Some _ => if ordinal <? maxAttempts then 1%nat else 0%nat
        | None => 0%nat
        end
        (failed_nonfinal maxAttempts (ordinal + 1) tr')
  | _ :: tr' => failed_nonfinal maxAttempts ordinal tr'
  end.
End Traces.

(** ** examples/basic-swap.ts: [AdvancedSwapExample.executeSwapWithRetry] *)

Module BasicSwap.

(** Arguments of one [this.executeSwap(...)] call. *)
Record SwapCall : Type := mkSwapCall {
  call_inputMint : PublicKey;
  call_outputMint : PublicKey;
  call_amount : Z;
  call_wallet : Keypair;
  call_slippageBps : Z
}.

(** The tolerances handed to [executeSwap], in basis points, in order. *)
Definition tolerances (tr : list (event SwapCall)) : list Z :=
  map call_slippageBps (arguments tr).

Section ExecuteSwapWithRetry.
(** Conversion of a number inside a template literal. *)
Variable number_to_string : Z -> string.
(** [BasicSwapExample.executeSwap], the underlying operation: its
    settlement given the number of submissions made before it. *)
Variable executeSwap : Z -> SwapCall -> outcome TxSignature.

Variables (inputMint outputMint : PublicKey) (amount : Z) (wallet : Keypair).
Variable maxRetries : Z.

(** [50 + (attempt - 1) * 25] *)
Definition slippageBps_of_attempt (attempt : Z) : Z :=
  50 + (attempt - 1) * 25.

(** The error built after the loop. *)
Definition all_attempts_failed (lastError : option Error) : Error :=
  mkError ("All " ++ number_to_string maxRetries
           ++ " attempts failed. Last error: " ++ optional_message lastError)%string.

(** The [for] loop from its test [attempt <= maxRetries] on, followed by
    the final [throw].  [submitted] counts the submissions already made. *)
Equations? retry_loop (attempt : Z) (lastError : option Error) (submitted : Z)
  : outcome TxSignature * list (event SwapCall)
  by wf (Z.to_nat (maxRetries + 1 - attempt)) lt :=
retry_loop attempt lastError submitted with Z_le_gt_dec attempt maxRetries := {
  | right _ := (Rejected (all_attempts_failed lastError), []);
  | left _ with executeSwap submitted
                  (mkSwapCall inputMint outputMint amount wallet
                              (slippageBps_of_attempt attempt)) := {
    | Resolved signature :=
        (Resolved signature,
         [EvLog (LogSwapAttempt attempt maxRetries);
          EvCall (mkSwapCall inputMint outputMint amount wallet
                             (slippageBps_of_attempt attempt)) None]);
    | Rejected error :=
        let rest := retry_loop (attempt + 1) (Some error) (submitted + 1) in
        (fst rest,
         [EvLog (LogSwapAttempt attempt maxRetries);
          EvCall (mkSwapCall inputMint outputMint amount wallet
                             (slippageBps_of_attempt attempt)) (Some error);
          EvLog (LogAttemptFailed attempt (message error))]
         ++ (if attempt <? maxRetries
             then [EvLog LogWaitingBeforeRetry; EvDelay 2000]
             else [])
         ++ snd rest) } }.
Proof. lia. Qed.

Definition executeSwapWithRetry
  : outcome TxSignature * list (event SwapCall) :=
  retry_loop 1 None 0.

(** The effects of one failed iteration, from the loop test to the next,
    named for the proofs. *)
Definition failed_iteration (attempt : Z) (error : Error)
  : list (event SwapCall) :=
  [EvLog (LogSwapAttempt attempt maxRetries);
   EvCall (mkSwapCall inputMint outputMint amount wallet
                      (slippageBps_of_attempt attempt)) (Some error);
   EvLog (LogAttemptFailed attempt (message error))]
  ++ (if attempt <? maxRetries
      then [EvLog LogWaitingBeforeRetry; EvDelay 2000]
      else []).
End ExecuteSwapWithRetry.

Arguments slippageBps_of_attempt : simpl never.

End BasicSwap.

(** ** Troubleshooting guide: confirmation and slippage helpers *)

Module Troubleshooting.

Definition Connection := string.
Definition Transaction := string.

(** Arguments of one [sendAndConfirmTransaction(...)] call. *)
Record SendCall : Type := mkSendCall {
  send_connection : Connection;
  send_transaction : Transaction;
  send_signers : list Keypair;
  send_commitment : string;
  send_maxRetries : Z
}.

Section SendAndConfirmWithRetry.
(** [sendAndConfirmTransaction] of the web3 client: its settlement given
    the number of submissions made before it. *)
Variable sendAndConfirmTransaction : Z -> SendCall -> outcome TxSignature.

Variables (connection : Connection) (transaction : Transaction)
          (signers : list Keypair).
Variable maxRetries : Z.

Definition send_call : SendCall :=
  mkSendCall connection transaction signers "confirmed" 5.

(** The [while] loop from its test [attempt < maxRetries] on.  Falling
    out of the loop returns [undefined], here [Resolved None]. *)
Equations? confirm_loop (attempt : Z) (submitted : Z)
  : outcome (option TxSignature) * list (event SendCall)
  by wf (Z.to_nat (maxRetries - attempt)) lt :=
confirm_loop attempt submitted with Z_lt_ge_dec attempt maxRetries := {
  | right _ := (Resolved None, []);
  | left _ with sendAndConfirmTransaction submitted send_call := {
    | Resolved signature :=
        (Resolved (Some signature), [EvCall send_call None]);
    | Rejected error with Z_lt_ge_dec (attempt + 1) maxRetries := {
      | left _ :=
          let rest := confirm_loop (attempt + 1) (submitted + 1) in
          (fst rest,
           [EvCall send_call (Some error);
            EvLog (LogAttemptFailed (attempt + 1) (message error));
            EvDelay 2000]
           ++ snd rest);
      | right _ :=
          (Rejected error,
           [EvCall send_call (Some error);
            EvLog (LogAttemptFailed (attempt + 1) (message error))]) } } }.
Proof. lia. Qed.

Definition sendAndConfirmWithRetry
  : outcome (option TxSignature) * list (event SendCall) :=
  confirm_loop 0 0.
End SendAndConfirmWithRetry.

(** [x > y] on numbers. *)
Definition Qgt_bool (x y : Q) : bool :=
  match (x ?= y)%Q with Gt => true | _ => false end.

Definition calculateDynamicSlippage (priceImpact volatility : Q) : Q :=
  let slippage := 0.5%Q in
  let slippage := if Qgt_bool priceImpact 2 then (slippage + 0.5)%Q else slippage in
  let slippage := if Qgt_bool priceImpact 5 then (slippage + 1.0)%Q else slippage in
  let slippage := (slippage + volatility * 0.1)%Q in
  Qmin slippage 5.0%Q.

(** [s.includes(sub)] *)
Definition includes (s sub : string) : bool :=
  match String.index 0 sub s with
  | Some _ => true
  | None => false
  end.

Section SwapWithRetry.
Variables SwapParams Quote : Type.

(** The two SDK calls made inside the [try] block. *)
Inductive SdkCall : Type :=
| CallGetSwapQuote (params : SwapParams) (slippageBps : Q)
| CallSwap (quote : Quote).

(** [sdk.getSwapQuote] and [sdk.swap]: their settlements given the
    number of SDK calls made before. *)
Variable getSwapQuote : Z -> SwapParams -> Q -> outcome Quote.
Variable swap : Z -> Quote -> outcome TxSignature.

Variable params : SwapParams.
Variable maxRetries : Z.

(** The body of the [try] block: its settlement, its effects and the
    number of SDK calls made after it. *)
Definition try_swap (slippage : Q) (submitted : Z)
  : outcome TxSignature * list (event SdkCall) * Z :=
  let slippageBps := (slippage * 100)%Q in
  match getSwapQuote submitted params slippageBps with
  | Rejected error =>
      (Rejected error,
       [EvCall (CallGetSwapQuote params slippageBps) (Some error)],
       submitted + 1)
  | Resolved quote =>
      match swap (submitted + 1) quote with
      | Rejected error =>
          (Rejected error,
           [EvCall (CallGetSwapQuote params slippageBps) None;
            EvCall (CallSwap quote) (Some error)],
           submitted + 2)
      | Resolved signature =>
          (Resolved signature,
           [EvCall (CallGetSwapQuote params slippageBps) None;
            EvCall (CallSwap quote) None],
           submitted + 2)
      end
  end.

(** The [for] loop from its test [i < maxRetries] on.  Falling out of
    the loop returns [undefined], here [Resolved None]. *)
Equations? swap_loop (i : Z) (slippage : Q) (submitted : Z)
  : outcome (option TxSignature) * list (event SdkCall)
  by wf (Z.to_nat (maxRetries - i)) lt :=
swap_loop i slippage submitted with Z_lt_ge_dec i maxRetries := {
  | right _ := (Resolved None, []);
  | left _ with try_swap slippage submitted := {
    | (Resolved signature, effects, _) := (Resolved (Some signature), effects);
    | (Rejected error, effects, submitted') with includes (message error) "slippage" := {
      | true :=
          let rest := swap_loop (i + 1) (slippage + 0.5)%Q submitted' in
          (fst rest,
           effects ++ [EvLog (LogRetryWithSlippage (slippage + 0.5)%Q)] ++ snd rest);
      | false := (Rejected error, effects) } } }.
Proof. lia. Qed.

Definition swapWithRetry : outcome (option TxSignature) * list (event SdkCall) :=
  swap_loop 0 0.5%Q 0.
End SwapWithRetry.

Arguments CallGetSwapQuote {SwapParams Quote} params slippageBps.
Arguments CallSwap {SwapParams Quote} quote.

(** The tolerances handed to [sdk.getSwapQuote], in basis points, in order. *)
Fixpoint quote_tolerances {SwapParams Quote}
  (cs : list (SdkCall SwapParams Quote)) : list Q :=
  match cs with
  | [] => []
  | CallGetSwapQuote _ bps :: cs' => bps :: quote_tolerances cs'
  | CallSwap _ :: cs' => quote_tolerances cs'
  end.

(** Consecutive tolerances differ by exactly [step]. *)
Fixpoint increases_by (step : Q) (l : list Q) : bool :=
  match l with
  | a :: (b :: _) as l' => Qeq_bool (b - a) step && increases_by step l'
  | _ => true
  end.

End Troubleshooting.

(** ** examples: [DLMMPositionManager.calculatePositionParams] *)

Module Dlmm.

Inductive Strategy : Type := tight | medium | wide.

(** The [ranges] table. *)
Definition ranges (strategy : Strategy) : Z :=
  match strategy with
  | tight => 5
  | medium => 10
  | wide => 20
  end.

Record BinRange : Type := mkBinRange { lowerBin : Z; upperBin : Z }.

(** A missing [strategy] argument takes the default ['medium']. *)
Definition calculatePositionParams
  (activeBin binStep : Z) (strategy : option Strategy) : BinRange :=
  let strategy := match strategy with Some s => s | None => medium end in
  let range := ranges strategy in
  {| lowerBin := activeBin - range; upperBin := activeBin + range |}.

End Dlmm.

(** ** Oracles used in the worked examples *)

(** Decimal rendering of an integer, as a template literal prints a small
    integral number. *)
Definition decimal (n : Z) : string :=
  NilZero.string_of_int (Z.to_int n).

(** Devnet mints of examples/basic-swap.ts. *)
Definition SOL : PublicKey := "So11111111111111111111111111111111111111112".
Definition USDC : PublicKey := "EPjFWdd5AufqSSqeM2qN1xzybapC8G4wEGGkZwyTDt1v".

(** A swap that fails on every submission, each time with its own text. *)
Definition swap_always_fails (submitted : Z) (c : BasicSwap.SwapCall)
  : outcome TxSignature :=
  Rejected (mkError ("Transaction " ++ decimal (submitted + 1)
                     ++ " was not confirmed in 60.00 seconds")%string).

(** A swap that fails on its first [n] submissions and then goes through. *)
Definition swap_fails_first (n : Z) (submitted : Z) (c : BasicSwap.SwapCall)
  : outcome TxSignature :=
  if submitted <? n
  then Rejected (mkError "Slippage tolerance exceeded")
  else Resolved ("signature-" ++ decimal (submitted + 1))%string.

(** A confirmation that fails on its first [n] submissions. *)
Definition send_fails_first (n : Z) (submitted : Z) (c : Troubleshooting.SendCall)
  : outcome TxSignature :=
  if submitted <? n
  then Rejected (mkError ("Transaction " ++ decimal (submitted + 1)
                          ++ " was not confirmed in 60.00 seconds")%string)
  else Resolved ("signature-" ++ decimal (submitted + 1))%string.

(** An RPC endpoint that cannot be reached. *)
Definition quote_rpc_down (submitted : Z) (params : unit) (slippageBps : Q)
  : outcome unit :=
  Rejected (mkError "Failed to connect to RPC endpoint").

(** A pool that rejects every quote for its slippage. *)
Definition quote_slippage_exceeded (submitted : Z) (params : unit) (slippageBps : Q)
  : outcome unit :=
  Rejected (mkError "Quote rejected: slippage tolerance exceeded").

Definition swap_goes_through (submitted : Z) (quote : unit) : outcome TxSignature :=
  Resolved "signature".

(** ** Sequential asynchronous code

    The remaining functions of the scripts are straight-line [async] code:
    a sequence of awaited calls, console lines and timer delays, inside a
    [try]/[catch].  They are written in a small monad: a computation takes
    the number of external calls already made and gives its settlement, the
    effects it performed in order, and the new number of calls. *)

Module Async.

Inductive effect (C L : Type) : Type :=
| Call (c : C) (failure : option Error)
| Print (line : L)
| Sleep (ms : Z).
Arguments Call {C L} c failure.
Arguments Print {C L} line.
Arguments Sleep {C L} ms.

Definition M (C L A : Type) : Type :=
  Z -> outcome A * list (effect C L) * Z.

Section Monad.
Context {C L : Type}.

(** [return a] *)
Definition ret {A} (a : A) : M C L A :=
  fun n => (Resolved a, [], n).

(** [throw e] *)
Definition throw {A} (e : Error) : M C L A :=
  fun n => (Rejected e, [], n).

(** [m] followed, if it resolves, by [k]. *)
Definition bind {A B} (m : M C L A) (k : A -> M C L B) : M C L B :=
  fun n =>
    match m n with
    | (Resolved a, effects, n') =>
        let '(r, effects', n'') := k a n' in (r, effects ++ effects', n'')
    | (Rejected e, effects, n') => (Rejected e, effects, n')
    end.

(** [try { m } catch (error) { handler error }] *)
Definition try_catch {A} (m : M C L A) (handler : Error -> M C L A) : M C L A :=
  fun n =>
    match m n with
    | (Resolved a, effects, n') => (Resolved a, effects, n')
    | (Rejected e, effects, n') =>
        let '(r, effects', n'') := handler e n' in (r, effects ++ effects', n'')
    end.

(** [await] of an external call described by [c], answered by [answer]. *)
Definition call {A} (c : C) (answer : Z -> outcome A) : M C L A :=
  fun n => (answer n, [Call c (rejection (answer n))], n + 1).

(** [console.log], [console.warn] or [console.error] of one line. *)
Definition print (line : L) : M C L unit :=
  fun n => (Resolved tt, [Print line], n).

(** [await new Promise(resolve => setTimeout(resolve, ms))] *)
Definition sleep (ms : Z) : M C L unit :=
  fun n => (Resolved tt, [Sleep ms], n).

(** [lines.forEach(line => console.log(line))] *)
Fixpoint print_each (lines : list L) : M C L unit :=
  match lines with
  | [] => ret tt
  | line :: lines' => bind (print line) (fun _ => print_each lines')
  end.

(** The external calls of a run, in order. *)
Fixpoint requests (effects : list (effect C L)) : list C :=
  match effects with
  | [] => []
  | Call c _ :: effects' => c :: requests effects'
  | _ :: effects' => requests effects'
  end.

(** The console lines of a run, in order. *)
Fixpoint printed (effects : list (effect C L)) : list L :=
  match effects with
  | [] => []
  | Print line :: effects' => line :: printed effects'
  | _ :: effects' => printed effects'
  end.

(** The timer delays of a run, in order. *)
Fixpoint sleeps (effects : list (effect C L)) : list Z :=
  match effects with
  | [] => []
  | Sleep ms :: effects' => ms :: sleeps effects'
  | _ :: effects' => sleeps effects'
  end.

(** How each external call of a run ended, in order: [None] for a call
    that resolved, the error for a call that was rejected. *)
Fixpoint answers (effects : list (effect C L)) : list (option Error) :=
  match effects with
  | [] => []
  | Call _ failure :: effects' => failure :: answers effects'
  | _ :: effects' => answers effects'
  end.
End Monad.

(** Settlement and effects of a computation started after [n] calls. *)
Definition settlement {C L A} (m : M C L A) (n : Z) : outcome A := fst (fst (m n)).
Definition effects_of {C L A} (m : M C L A) (n : Z) : list (effect C L) := snd (fst (m n)).

End Async.

Declare Scope async_scope.
Delimit Scope async_scope with async.
Notation "x <- m ;; k" := (Async.bind m (fun x => k))
  (at level 61, m at next level, right associativity) : async_scope.
Notation "m ;;; k" := (Async.bind m (fun _ => k))
  (at level 61, right associativity) : async_scope.

(** ** examples/basic-swap.ts: [BasicSwapExample] and the multi-hop swap *)

Module SwapExample.

(** The fields of an SDK quote that the example reads. *)
Record Quote : Type := mkQuote {
  inAmount : Z;
  outAmount : Z;
  priceImpactPct : Q;
  routePlan : list string
}.

Definition Transaction := string.

Inductive SdkCall : Type :=
| SdkGetSwapQuote (inputMint outputMint : PublicKey) (amount slippageBps : Z)
| SdkSwap (quote : Quote) (userPublicKey : PublicKey) (wrapUnwrapSOL : bool)
| SendAndConfirmTransaction (transaction : Transaction) (signers : list Keypair)
    (commitment : string) (maxRetries : Z).

Inductive Line : Type :=
| LogGettingQuote
| LogQuoteDetails
| LogQuoteInput (inAmount : Z)
| LogQuoteOutput (outAmount : Z)
| LogQuotePriceImpact (priceImpactPct : Q)
| LogQuoteRoute (labels : list string)
| ErrFailedToGetQuote (error : Error)
| WarnHighPriceImpact (priceImpactPct : Q)
| LogConsiderReducing
| LogBuildingSwap
| LogSendingTransaction
| LogSwapSuccessful
| LogTransactionUrl (signature : TxSignature)
| ErrSwapFailed (error : Error).

(** The SDK, the connection and the wallet library behind the example. *)
Record Sdk : Type := mkSdk {
  sdk_getSwapQuote : Z -> PublicKey -> PublicKey -> Z -> Z -> outcome Quote;
  sdk_swap : Z -> Quote -> PublicKey -> bool -> outcome Transaction;
  sendAndConfirmTransaction :
    Z -> Transaction -> list Keypair -> string -> Z -> outcome TxSignature;
  sign : Transaction -> list Keypair -> Transaction;
  publicKey : Keypair -> PublicKey
}.

Section BasicSwapExample.
Variable sdk : Sdk.
Local Open Scope async_scope.

Definition getSwapQuote (inputMint outputMint : PublicKey) (amount slippageBps : Z)
  : Async.M SdkCall Line Quote :=
  Async.try_catch
    (Async.print LogGettingQuote ;;;
     quote <- Async.call (SdkGetSwapQuote inputMint outputMint amount slippageBps)
                (fun n => sdk_getSwapQuote sdk n inputMint outputMint amount slippageBps) ;;
     Async.print LogQuoteDetails ;;;
     Async.print (LogQuoteInput (inAmount quote)) ;;;
     Async.print (LogQuoteOutput (outAmount quote)) ;;;
     Async.print (LogQuotePriceImpact (priceImpactPct quote)) ;;;
     Async.print (LogQuoteRoute (routePlan quote)) ;;;
     Async.ret quote)
    (fun error =>
       Async.print (ErrFailedToGetQuote error) ;;;
       Async.throw error).

Definition executeSwap (inputMint outputMint : PublicKey) (amount : Z)
  (wallet : Keypair) (slippageBps : Z) : Async.M SdkCall Line TxSignature :=
  Async.try_catch
    (quote <- getSwapQuote inputMint outputMint amount slippageBps ;;
     (if Troubleshooting.Qgt_bool (priceImpactPct quote) 5
      then Async.print (WarnHighPriceImpact (priceImpactPct quote)) ;;;
           Async.print LogConsiderReducing
      else Async.ret tt) ;;;
     Async.print LogBuildingSwap ;;;
     swapTransaction <- Async.call (SdkSwap quote (publicKey sdk wallet) true)
                          (fun n => sdk_swap sdk n quote (publicKey sdk wallet) true) ;;
     let signed := sign sdk swapTransaction [wallet] in
     Async.print LogSendingTransaction ;;;
     signature <- Async.call
                    (SendAndConfirmTransaction signed [wallet] "confirmed" 3)
                    (fun n => sendAndConfirmTransaction sdk n signed [wallet]
                                "confirmed" 3) ;;
     Async.print LogSwapSuccessful ;;;
     Async.print (LogTransactionUrl signature) ;;;
     Async.ret signature)
    (fun error =>
       Async.print (ErrSwapFailed error) ;;;
       Async.throw error).
End BasicSwapExample.

End SwapExample.

(** *** [AdvancedSwapExample.multiHopSwapExample] *)

Module MultiHop.

Definition USDT : PublicKey := "Es9vMFrzaCERmJfrF4H2FYD4KCoNkY11McCe8BenwNYB".

(** The fields of a token balance that the example reads. *)
Record TokenBalance : Type := mkTokenBalance {
  amount : string;
  uiAmount : option Q
}.

Inductive HopCall : Type :=
| HopExecuteSwap (c : BasicSwap.SwapCall)
| HopGetTokenAccountsByOwner (owner mint : PublicKey)
| HopGetTokenAccountBalance (account : PublicKey).

Inductive HopLine : Type :=
| RetryLine (line : log_line)
| LogMultiHop
| LogFirstHop
| LogUsdcReceived (uiAmount : option Q)
| LogSecondHop
| LogMultiHopCompleted
| ErrMultiHopFailed (error : Error).

(** The effects of [executeSwapWithRetry] seen from its caller. *)
Definition lift_event (ev : event BasicSwap.SwapCall)
  : Async.effect HopCall HopLine :=
  match ev with
  | EvCall c failure => Async.Call (HopExecuteSwap c) failure
  | EvLog line => Async.Print (RetryLine line)
  | EvDelay ms => Async.Sleep ms
  end.

Section MultiHopSwapExample.
Variable number_to_string : Z -> string.
(** [parseInt] on the decimal text of a token amount. *)
Variable parseInt : string -> Z.
Variable publicKey : Keypair -> PublicKey.
(** [this.executeSwap], as for [executeSwapWithRetry]: its settlement given
    the number of external calls made before it. *)
Variable executeSwap : Z -> BasicSwap.SwapCall -> outcome TxSignature.
(** The token accounts of an owner for a mint, by address. *)
Variable getTokenAccountsByOwner : Z -> PublicKey -> PublicKey -> outcome (list PublicKey).
Variable getTokenAccountBalance : Z -> PublicKey -> outcome TokenBalance.
Local Open Scope async_scope.

(** [await this.executeSwapWithRetry(...)]: the run of [executeSwapWithRetry]
    against the calls that follow the ones already made. *)
Definition executeSwapWithRetry (inputMint outputMint : PublicKey) (swapAmount : Z)
  (wallet : Keypair) (maxRetries : Z) : Async.M HopCall HopLine TxSignature :=
  fun n =>
    let run := BasicSwap.executeSwapWithRetry number_to_string
                 (fun submitted => executeSwap (n + submitted))
                 inputMint outputMint swapAmount wallet maxRetries in
    (fst run, map lift_event (snd run), n + Z.of_nat (calls (snd run))).

(** [swapAmount] is [0.05 * LAMPORTS_PER_SOL]; a missing [maxRetries] is 3. *)
Definition multiHopSwapExample (wallet : Keypair) : Async.M HopCall HopLine unit :=
  Async.try_catch
    (Async.print LogMultiHop ;;;
     let swapAmount := 50000000 in
     Async.print LogFirstHop ;;;
     executeSwapWithRetry SOL USDC swapAmount wallet 3 ;;;
     Async.sleep 3000 ;;;
     tokenAccounts <- Async.call (HopGetTokenAccountsByOwner (publicKey wallet) USDC)
                        (fun n => getTokenAccountsByOwner n (publicKey wallet) USDC) ;;
     match tokenAccounts with
     | [] => Async.throw (mkError "No USDC token account found")
     | first :: _ =>
         usdcBalance <- Async.call (HopGetTokenAccountBalance first)
                          (fun n => getTokenAccountBalance n first) ;;
         let usdcAmount := amount usdcBalance in
         Async.print (LogUsdcReceived (uiAmount usdcBalance)) ;;;
         Async.print LogSecondHop ;;;
         executeSwapWithRetry USDC USDT (parseInt usdcAmount) wallet 3 ;;;
         Async.print LogMultiHopCompleted
     end)
    (fun error => Async.print (ErrMultiHopFailed error)).
End MultiHopSwapExample.

(** The swaps among the external calls of a run, in order. *)
Fixpoint swaps (cs : list HopCall) : list BasicSwap.SwapCall :=
  match cs with
  | [] => []
  | HopExecuteSwap c :: cs' => c :: swaps cs'
  | _ :: cs' => swaps cs'
  end.

End MultiHop.

(** ** examples/basic-swap.ts: [DLMMPositionManager] and [DLMMStrategies] *)

Module PositionManager.

Definition Transaction := string.

Record BinLiquidity : Type := mkBinLiquidity {
  liquidityX : Q;
  liquidityY : Q
}.

(** The fields of an SDK position that the manager reads.  [binLiquidity]
    lists the entries of the object in the order [Object.keys] enumerates
    them. *)
Record Position : Type := mkPosition {
  address : PublicKey;
  poolAddress : PublicKey;
  lowerBin : Z;
  upperBin : Z;
  position_liquidityX : Q;
  position_liquidityY : Q;
  feesX : Q;
  feesY : Q;
  feesValue : Q;
  totalValue : Q;
  inRange : bool;
  binLiquidity : list (Z * BinLiquidity);
  totalLiquidityX : Q;
  totalLiquidityY : Q
}.

(** The fields of an SDK pool that the manager reads. *)
Record Pool : Type := mkPool {
  tokenX_symbol : string;
  tokenY_symbol : string;
  activeBin : Z;
  binStep : Z
}.

(** The fields of an SDK bin that [optimizeForYield] reads. *)
Record Bin : Type := mkBin {
  binId : Z;
  feeRate : Q;
  volume24h : Q
}.

Inductive DistributionType : Type := uniform | curve | spot.

Record DLMMPositionParams : Type := mkParams {
  params_poolAddress : PublicKey;
  params_lowerBin : Z;
  params_upperBin : Z;
  amountX : Q;
  amountY : Q;
  distributionType : DistributionType
}.

(** One entry of the [liquidityToRemove] array. *)
Record Removal : Type := mkRemoval {
  removal_binId : Z;
  removal_liquidityX : Q;
  removal_liquidityY : Q
}.

(** The object returned by [monitorPosition].  [feeYield] is [None] where
    the division by a zero [totalValue] gives no finite number. *)
Record HealthCheck : Type := mkHealthCheck {
  check_inRange : bool;
  distanceFromActive : Z;
  feeYield : option Q;
  shouldRebalance : bool;
  shouldClaimFees : bool
}.

(** One entry of the [feeAnalysis] array. *)
Record FeeAnalysis : Type := mkFeeAnalysis {
  analysis_binId : Z;
  analysis_feeRate : Q;
  volume : Q;
  expectedYield : Q;
  analysis_distanceFromActive : Z
}.

(** [position.binLiquidity[binId]] *)
Fixpoint bin_lookup (bins : list (Z * BinLiquidity)) (id : Z) : option BinLiquidity :=
  match bins with
  | [] => None
  | (k, b) :: bins' => if k =? id then Some b else bin_lookup bins' id
  end.

(** [Object.keys(position.binLiquidity).map(Number)] *)
Definition bin_keys (bins : list (Z * BinLiquidity)) : list Z := map fst bins.

(** [array.sort((a, b) => b.expectedYield - a.expectedYield)]: the sort is
    stable, so that the result is the one of inserting each element, from
    the last to the first, in front of the elements that do not have to
    come before it. *)
Fixpoint insert_by_yield (a : FeeAnalysis) (sorted : list FeeAnalysis)
  : list FeeAnalysis :=
  match sorted with
  | [] => [a]
  | b :: sorted' =>
      if Troubleshooting.Qgt_bool (expectedYield b) (expectedYield a)
      then b :: insert_by_yield a sorted'
      else a :: sorted
  end.

Definition sort_by_yield (l : list FeeAnalysis) : list FeeAnalysis :=
  fold_right insert_by_yield [] l.

(** [b] does not have to come before [a]. *)
Definition yields_at_least (a b : FeeAnalysis) : Prop :=
  (expectedYield b <= expectedYield a)%Q.

(** The expected yield of a bin, [feeRate * volume24h]. *)
Definition bin_yield (bin : Bin) : Q := (feeRate bin * volume24h bin)%Q.

(** The bin that an entry of the [feeAnalysis] array describes. *)
Definition bin_of (a : FeeAnalysis) : Bin :=
  {| binId := analysis_binId a; feeRate := analysis_feeRate a; volume24h := volume a |}.

(** The pairs of [array.forEach((element, index) => ...)], from [index]. *)
Fixpoint indexed {A} (index : Z) (l : list A) : list (Z * A) :=
  match l with
  | [] => []
  | a :: l' => (index, a) :: indexed (index + 1) l'
  end.

Section Manager.
(** One entry of an SDK liquidity distribution. *)
Variable LiquidityShare : Type.

Inductive DlmmCall : Type :=
| DlmmGetPosition (positionAddress : PublicKey)
| DlmmGetPool (pool : PublicKey)
| DlmmGetBinArrays (pool : PublicKey)
| DlmmCalculateLiquidityDistribution (lower upper : Z) (x y : Q)
    (distribution : DistributionType) (active : Z)
| DlmmCreatePosition (pool : PublicKey) (lower upper : Z)
    (liquidityDistribution : list LiquidityShare) (userPublicKey : PublicKey)
| DlmmRemoveLiquidity (positionAddress : PublicKey)
    (liquidityToRemove : list Removal) (userPublicKey : PublicKey)
| DlmmClaimFees (positionAddress userPublicKey : PublicKey)
| DlmmGetUserPositions (userPublicKey pool : PublicKey)
| DlmmGetAllUserPositions (userPublicKey : PublicKey)
| SendAndConfirmTransaction (transaction : Transaction) (signers : list Keypair)
    (commitment : string).

Inductive Line : Type :=
| LogCreatingPosition
| LogPositionParameters
| LogParamsPool (symbolX symbolY : string)
| LogParamsRange (lower upper : Z)
| LogParamsAmountX (x : Q)
| LogParamsAmountY (y : Q)
| LogParamsDistribution (distribution : DistributionType)
| LogParamsPriceRange (lowerPrice upperPrice : Q)
| LogBinsToPopulate (count : nat)
| LogPositionCreated
| LogTransactionUrl (signature : TxSignature)
| ErrFailedToCreatePosition (error : Error)
| LogFetchingPositions
| LogNoPositionsFound
| LogFoundPositions (count : nat)
| LogPositionHeader (number : Z)
| LogPositionAddress (a : PublicKey)
| LogPositionPool (a : PublicKey)
| LogPositionRange (lower upper : Z)
| LogPositionLiquidityX (x : Q)
| LogPositionLiquidityY (y : Q)
| LogPositionFeesX (x : Q)
| LogPositionFeesY (y : Q)
| LogPositionTotalValue (value : Q)
| LogPositionInRange (b : bool)
| LogPositionActiveBins (count : nat)
| ErrFailedToGetPositions (error : Error)
| LogRemovingLiquidity
| LogRemovingPercentage (percentage : Q) (bins : nat)
| LogLiquidityRemoved
| ErrFailedToRemoveLiquidity (error : Error)
| LogClaimingFees
| LogClaimableFees
| LogFeesTokenX (x : Q)
| LogFeesTokenY (y : Q)
| LogFeesTotalValue (value : Q)
| LogNoFeesToClaim
| LogFeesClaimed
| ErrFailedToClaimFees (error : Error)
| LogHealthCheck
| LogHealthPosition (a : PublicKey)
| LogHealthInRange (b : bool)
| LogHealthCurrentBin (active : Z)
| LogHealthRange (lower upper : Z)
| LogHealthDistance (distance : Z)
| LogHealthFeeYield (yield : option Q)
| WarnOutOfRange
| WarnFarFromActive
| InfoSignificantFees
| ErrFailedToMonitor (error : Error)
| LogRebalancingTriggered
| LogRebalancingCompleted
| LogWithinAcceptableRange
| LogTopYieldingBins
| LogTopBin (number : Z) (id : Z) (yield : Q) (distance : Z).

(** The DLMM SDK, the connection and the wallet library behind the manager. *)
Record Sdk : Type := mkSdk {
  getPosition : Z -> PublicKey -> outcome Position;
  getPool : Z -> PublicKey -> outcome Pool;
  getBinArrays : Z -> PublicKey -> outcome (list Bin);
  binIdToPrice : Z -> Z -> Q;
  calculateLiquidityDistribution :
    Z -> Z -> Z -> Q -> Q -> DistributionType -> Z -> outcome (list LiquidityShare);
  dlmm_createPosition :
    Z -> PublicKey -> Z -> Z -> list LiquidityShare -> PublicKey -> outcome Transaction;
  dlmm_removeLiquidity :
    Z -> PublicKey -> list Removal -> PublicKey -> outcome Transaction;
  dlmm_claimFees : Z -> PublicKey -> PublicKey -> outcome Transaction;
  dlmm_getUserPositions : Z -> PublicKey -> PublicKey -> outcome (list Position);
  getAllUserPositions : Z -> PublicKey -> outcome (list Position);
  sendAndConfirmTransaction :
    Z -> Transaction -> list Keypair -> string -> outcome TxSignature;
  sign : Transaction -> list Keypair -> Transaction;
  publicKey : Keypair -> PublicKey
}.

Variable sdk : Sdk.
Local Open Scope async_scope.
Local Abbreviation Task := (Async.M DlmmCall Line).

Definition createPosition (params : DLMMPositionParams) (wallet : Keypair)
  : Task TxSignature :=
  Async.try_catch
    (Async.print LogCreatingPosition ;;;
     pool <- Async.call (DlmmGetPool (params_poolAddress params))
               (fun n => getPool sdk n (params_poolAddress params)) ;;
     Async.print LogPositionParameters ;;;
     Async.print (LogParamsPool (tokenX_symbol pool) (tokenY_symbol pool)) ;;;
     Async.print (LogParamsRange (params_lowerBin params) (params_upperBin params)) ;;;
     Async.print (LogParamsAmountX (amountX params)) ;;;
     Async.print (LogParamsAmountY (amountY params)) ;;;
     Async.print (LogParamsDistribution (distributionType params)) ;;;
     let lowerPrice := binIdToPrice sdk (params_lowerBin params) (binStep pool) in
     let upperPrice := binIdToPrice sdk (params_upperBin params) (binStep pool) in
     Async.print (LogParamsPriceRange lowerPrice upperPrice) ;;;
     distribution <-
       Async.call
         (DlmmCalculateLiquidityDistribution
            (params_lowerBin params) (params_upperBin params)
            (amountX params) (amountY params) (distributionType params)
            (activeBin pool))
         (fun n => calculateLiquidityDistribution sdk n
                     (params_lowerBin params) (params_upperBin params)
                     (amountX params) (amountY params) (distributionType params)
                     (activeBin pool)) ;;
     Async.print (LogBinsToPopulate (List.length distribution)) ;;;
     transaction <-
       Async.call
         (DlmmCreatePosition (params_poolAddress params)
            (params_lowerBin params) (params_upperBin params)
            distribution (publicKey sdk wallet))
         (fun n => dlmm_createPosition sdk n (params_poolAddress params)
                     (params_lowerBin params) (params_upperBin params)
                     distribution (publicKey sdk wallet)) ;;
     let signed := sign sdk transaction [wallet] in
     signature <- Async.call (SendAndConfirmTransaction signed [wallet] "confirmed")
                    (fun n => sendAndConfirmTransaction sdk n signed [wallet]
                                "confirmed") ;;
     Async.print LogPositionCreated ;;;
     Async.print (LogTransactionUrl signature) ;;;
     Async.ret signature)
    (fun error =>
       Async.print (ErrFailedToCreatePosition error) ;;;
       Async.throw error).

(** The console lines of one position in [getUserPositions]. *)
Definition position_lines (entry : Z * Position) : list Line :=
  let (index, position) := entry in
  [LogPositionHeader (index + 1);
   LogPositionAddress (address position);
   LogPositionPool (poolAddress position);
   LogPositionRange (lowerBin position) (upperBin position);
   LogPositionLiquidityX (position_liquidityX position);
   LogPositionLiquidityY (position_liquidityY position);
   LogPositionFeesX (feesX position);
   LogPositionFeesY (feesY position);
   LogPositionTotalValue (totalValue position);
   LogPositionInRange (inRange position);
   LogPositionActiveBins (List.length (binLiquidity position))].

Definition getUserPositions (userPublicKey : PublicKey) (pool : option PublicKey)
  : Task (list Position) :=
  Async.try_catch
    (Async.print LogFetchingPositions ;;;
     positions <-
       match pool with
       | Some pool =>
           Async.call (DlmmGetUserPositions userPublicKey pool)
             (fun n => dlmm_getUserPositions sdk n userPublicKey pool)
       | None =>
           Async.call (DlmmGetAllUserPositions userPublicKey)
             (fun n => getAllUserPositions sdk n userPublicKey)
       end ;;
     match positions with
     | [] =>
         Async.print LogNoPositionsFound ;;;
         Async.ret []
     | _ :: _ =>
         Async.print (LogFoundPositions (List.length positions)) ;;;
         Async.print_each (flat_map position_lines (indexed 0 positions)) ;;;
         Async.ret positions
     end)
    (fun error =>
       Async.print (ErrFailedToGetPositions error) ;;;
       Async.ret []).

(** The [liquidityToRemove] array of [removeLiquidity]; a bin that the
    position does not hold counts for 0. *)
Definition liquidity_to_remove (position : Position) (binIds : list Z)
  (percentageToRemove : Q) : list Removal :=
  map (fun id =>
         let held := bin_lookup (binLiquidity position) id in
         {| removal_binId := id;
            removal_liquidityX :=
              (match held with Some b => liquidityX b | None => 0 end
               * (percentageToRemove / 100))%Q;
            removal_liquidityY :=
              (match held with Some b => liquidityY b | None => 0 end
               * (percentageToRemove / 100))%Q |})
      binIds.

Definition removeLiquidity (positionAddress : PublicKey) (binIds : list Z)
  (percentageToRemove : Q) (wallet : Keypair) : Task TxSignature :=
  Async.try_catch
    (Async.print LogRemovingLiquidity ;;;
     position <- Async.call (DlmmGetPosition positionAddress)
                   (fun n => getPosition sdk n positionAddress) ;;
     Async.print (LogRemovingPercentage percentageToRemove (List.length binIds)) ;;;
     let liquidityToRemove := liquidity_to_remove position binIds percentageToRemove in
     transaction <-
       Async.call
         (DlmmRemoveLiquidity positionAddress liquidityToRemove (publicKey sdk wallet))
         (fun n => dlmm_removeLiquidity sdk n positionAddress liquidityToRemove
                     (publicKey sdk wallet)) ;;
     let signed := sign sdk transaction [wallet] in
     signature <- Async.call (SendAndConfirmTransaction signed [wallet] "confirmed")
                    (fun n => sendAndConfirmTransaction sdk n signed [wallet]
                                "confirmed") ;;
     Async.print LogLiquidityRemoved ;;;
     Async.print (LogTransactionUrl signature) ;;;
     Async.ret signature)
    (fun error =>
       Async.print (ErrFailedToRemoveLiquidity error) ;;;
       Async.throw error).

(** [claimFees] returns [null], here [None], when there is nothing to claim. *)
Definition claimFees (positionAddress : PublicKey) (wallet : Keypair)
  : Task (option TxSignature) :=
  Async.try_catch
    (Async.print LogClaimingFees ;;;
     position <- Async.call (DlmmGetPosition positionAddress)
                   (fun n => getPosition sdk n positionAddress) ;;
     Async.print LogClaimableFees ;;;
     Async.print (LogFeesTokenX (feesX position)) ;;;
     Async.print (LogFeesTokenY (feesY position)) ;;;
     Async.print (LogFeesTotalValue (feesValue position)) ;;;
     if Qeq_bool (feesX position) 0 && Qeq_bool (feesY position) 0
     then Async.print LogNoFeesToClaim ;;;
          Async.ret None
     else
       transaction <- Async.call (DlmmClaimFees positionAddress (publicKey sdk wallet))
                        (fun n => dlmm_claimFees sdk n positionAddress
                                    (publicKey sdk wallet)) ;;
       let signed := sign sdk transaction [wallet] in
       signature <- Async.call (SendAndConfirmTransaction signed [wallet] "confirmed")
                      (fun n => sendAndConfirmTransaction sdk n signed [wallet]
                                  "confirmed") ;;
       Async.print LogFeesClaimed ;;;
       Async.print (LogTransactionUrl signature) ;;;
       Async.ret (Some signature))
    (fun error =>
       Async.print (ErrFailedToClaimFees error) ;;;
       Async.throw error).

(** [Math.floor((position.lowerBin + position.upperBin) / 2)] *)
Definition center_bin (position : Position) : Z :=
  (lowerBin position + upperBin position) / 2.

(** The object that [monitorPosition] returns for a position and its pool. *)
Definition health_check (position : Position) (pool : Pool) : HealthCheck :=
  let centerBin := center_bin position in
  let distanceFromActive := Z.abs (activeBin pool - centerBin) in
  {| check_inRange := inRange position;
     distanceFromActive := distanceFromActive;
     feeYield :=
       if Qeq_bool (totalValue position) 0 then None
       else Some (feesValue position / totalValue position * 100)%Q;
     shouldRebalance := 20 <? distanceFromActive;
     shouldClaimFees :=
       Troubleshooting.Qgt_bool (feesValue position) (totalValue position * 0.01)%Q |}.

Definition monitorPosition (positionAddress : PublicKey) : Task HealthCheck :=
  Async.try_catch
    (position <- Async.call (DlmmGetPosition positionAddress)
                   (fun n => getPosition sdk n positionAddress) ;;
     pool <- Async.call (DlmmGetPool (poolAddress position))
               (fun n => getPool sdk n (poolAddress position)) ;;
     let report := health_check position pool in
     Async.print LogHealthCheck ;;;
     Async.print (LogHealthPosition positionAddress) ;;;
     Async.print (LogHealthInRange (inRange position)) ;;;
     Async.print (LogHealthCurrentBin (activeBin pool)) ;;;
     Async.print (LogHealthRange (lowerBin position) (upperBin position)) ;;;
     Async.print (LogHealthDistance (distanceFromActive report)) ;;;
     Async.print (LogHealthFeeYield (feeYield report)) ;;;
     (if negb (inRange position)
      then Async.print WarnOutOfRange else Async.ret tt) ;;;
     (if shouldRebalance report
      then Async.print WarnFarFromActive else Async.ret tt) ;;;
     (if shouldClaimFees report
      then Async.print InfoSignificantFees else Async.ret tt) ;;;
     Async.ret report)
    (fun error =>
       Async.print (ErrFailedToMonitor error) ;;;
       Async.throw error).

(** [DLMMStrategies.autoRebalance] *)
Definition autoRebalance (positionAddress : PublicKey) (wallet : Keypair)
  (rebalanceThreshold : Z) : Task unit :=
  position <- Async.call (DlmmGetPosition positionAddress)
                (fun n => getPosition sdk n positionAddress) ;;
  pool <- Async.call (DlmmGetPool (poolAddress position))
            (fun n => getPool sdk n (poolAddress position)) ;;
  let centerBin := center_bin position in
  let distanceFromActive := Z.abs (activeBin pool - centerBin) in
  if rebalanceThreshold <? distanceFromActive
  then
    Async.print LogRebalancingTriggered ;;;
    let allBins := bin_keys (binLiquidity position) in
    removeLiquidity positionAddress allBins 100 wallet ;;;
    let newRange :=
      Dlmm.calculatePositionParams (activeBin pool) (binStep pool) (Some Dlmm.medium) in
    let newParams :=
      {| params_poolAddress := poolAddress position;
         params_lowerBin := Dlmm.lowerBin newRange;
         params_upperBin := Dlmm.upperBin newRange;
         amountX := totalLiquidityX position;
         amountY := totalLiquidityY position;
         distributionType := curve |} in
    createPosition newParams wallet ;;;
    Async.print LogRebalancingCompleted
  else Async.print LogWithinAcceptableRange.

(** [bin => bin.volume24h > 0] *)
Definition traded (bin : Bin) : bool := Troubleshooting.Qgt_bool (volume24h bin) 0.

(** The entry of the [feeAnalysis] array for a bin. *)
Definition analyse (pool : Pool) (bin : Bin) : FeeAnalysis :=
  {| analysis_binId := binId bin;
     analysis_feeRate := feeRate bin;
     volume := volume24h bin;
     expectedYield := (feeRate bin * volume24h bin)%Q;
     analysis_distanceFromActive := Z.abs (binId bin - activeBin pool) |}.

(** The [feeAnalysis] array of [optimizeForYield]. *)
Definition fee_analysis (pool : Pool) (binData : list Bin) : list FeeAnalysis :=
  sort_by_yield (map (analyse pool) (filter traded binData)).

(** [DLMMStrategies.optimizeForYield] *)
Definition optimizeForYield (pool : PublicKey) : Task (list Z) :=
  poolInfo <- Async.call (DlmmGetPool pool) (fun n => getPool sdk n pool) ;;
  binData <- Async.call (DlmmGetBinArrays pool) (fun n => getBinArrays sdk n pool) ;;
  let feeAnalysis := fee_analysis poolInfo binData in
  Async.print LogTopYieldingBins ;;;
  Async.print_each
    (map (fun entry : Z * FeeAnalysis =>
            let (index, bin) := entry in
            LogTopBin (index + 1) (analysis_binId bin) (expectedYield bin)
              (analysis_distanceFromActive bin))
         (indexed 0 (firstn 10 feeAnalysis))) ;;;
  Async.ret (map analysis_binId (firstn 20 feeAnalysis)).
End Manager.

Arguments DlmmGetPosition {LiquidityShare} positionAddress.
Arguments DlmmGetPool {LiquidityShare} pool.
Arguments DlmmGetBinArrays {LiquidityShare} pool.
Arguments DlmmCalculateLiquidityDistribution {LiquidityShare}.
Arguments DlmmCreatePosition {LiquidityShare}.
Arguments DlmmRemoveLiquidity {LiquidityShare}.
Arguments DlmmClaimFees {LiquidityShare}.
Arguments DlmmGetUserPositions {LiquidityShare}.
Arguments DlmmGetAllUserPositions {LiquidityShare}.
Arguments SendAndConfirmTransaction {LiquidityShare}.

End PositionManager.

(** ** Troubleshooting guide: splitting, monitoring and caching *)

Module Guide.

Inductive GuideCall : Type :=
| GuideExecuteSwap (amount : Q)
| GuideGetPosition (positionAddress : PublicKey)
| GuideGetPool (pool : PublicKey)
| GuideRebalancePosition (positionAddress : PublicKey) (wallet : Keypair).

Inductive GuideLine : Type :=
| WarnPositionOutOfRange.

Section SplitSwap.
(** [executeSwap] of the guide: its settlement given the number of swaps
    made before it. *)
Variable executeSwap : Z -> Q -> outcome TxSignature.
Variable totalAmount : Q.
Variable parts : Z.
Local Open Scope async_scope.

(** [totalAmount / parts] *)
Definition amountPerSwap : Q := (totalAmount / inject_Z parts)%Q.

(** The [for] loop from its test [i < parts] on. *)
Equations? split_loop (i : Z) : Async.M GuideCall GuideLine unit
  by wf (Z.to_nat (parts - i)) lt :=
split_loop i with Z_lt_ge_dec i parts := {
  | right _ := Async.ret tt;
  | left _ :=
      Async.call (GuideExecuteSwap amountPerSwap)
        (fun n => executeSwap n amountPerSwap) ;;;
      Async.sleep 5000 ;;;
      split_loop (i + 1) }.
Proof. lia. Qed.

Definition splitSwap : Async.M GuideCall GuideLine unit := split_loop 0.
End SplitSwap.

(** The amounts of the swaps among the external calls of a run, in order. *)
Fixpoint swap_amounts (cs : list GuideCall) : list Q :=
  match cs with
  | [] => []
  | GuideExecuteSwap a :: cs' => a :: swap_amounts cs'
  | _ :: cs' => swap_amounts cs'
  end.


(** [shouldRebalance]: the centre of the range is not rounded. *)
Definition shouldRebalance (position : PositionManager.Position)
  (pool : PositionManager.Pool) : bool :=
  let centerBin :=
    (inject_Z (PositionManager.lowerBin position + PositionManager.upperBin position)
     / 2)%Q in
  let distanceFromActive :=
    Qabs (inject_Z (PositionManager.activeBin pool) - centerBin) in
  Troubleshooting.Qgt_bool distanceFromActive 15.

Section MonitorPosition.
Variable getPosition : Z -> PublicKey -> outcome PositionManager.Position.
Variable getPool : Z -> PublicKey -> outcome PositionManager.Pool.
(** [rebalancePosition] and [wallet] are free in the guide's function. *)
Variable rebalancePosition : Z -> PublicKey -> Keypair -> outcome unit.
Variable wallet : Keypair.
Local Open Scope async_scope.

Definition monitorPosition (positionAddress : PublicKey)
  : Async.M GuideCall GuideLine unit :=
  position <- Async.call (GuideGetPosition positionAddress)
                (fun n => getPosition n positionAddress) ;;
  pool <- Async.call (GuideGetPool (PositionManager.poolAddress position))
            (fun n => getPool n (PositionManager.poolAddress position)) ;;
  if negb (PositionManager.inRange position)
  then
    Async.print WarnPositionOutOfRange ;;;
    if shouldRebalance position pool
    then Async.call (GuideRebalancePosition positionAddress wallet)
           (fun n => rebalancePosition n positionAddress wallet)
    else Async.ret tt
  else Async.ret tt.
End MonitorPosition.

(** *** [getCachedQuote] and its [quoteCache] *)

Record QuoteParams : Type := mkQuoteParams {
  inputMint : PublicKey;
  outputMint : PublicKey;
  amount : Z;
  slippageBps : option Z
}.

(** A value of the [quoteCache] map. *)
Record Cached : Type := mkCached {
  quote : SwapExample.Quote;
  timestamp : Z
}.

(** The [Map], as its entries in insertion order. *)
Definition Cache : Type := list (string * Cached).

(** [map.get(key)]; [map.has(key)] is whether it is defined. *)
Fixpoint cache_get (cache : Cache) (key : string) : option Cached :=
  match cache with
  | [] => None
  | (k, v) :: cache' => if String.eqb k key then Some v else cache_get cache' key
  end.

(** [map.set(key, value)]: an existing entry is replaced in place, a new
    one is added last. *)
Fixpoint cache_set (cache : Cache) (key : string) (value : Cached) : Cache :=
  match cache with
  | [] => [(key, value)]
  | (k, v) :: cache' =>
      if String.eqb k key then (k, value) :: cache'
      else (k, v) :: cache_set cache' key value
  end.

Inductive CacheCall : Type :=
| DateNow
| SdkGetSwapQuote (params : QuoteParams).

Section GetCachedQuote.
Variable number_to_string : Z -> string.
(** [Date.now()], given the number of external calls made before. *)
Variable now : Z -> Z.
Variable getSwapQuote : Z -> QuoteParams -> outcome SwapExample.Quote.

(** The template literal of the key. *)
Definition cache_key (params : QuoteParams) : string :=
  (inputMint params ++ "-" ++ outputMint params ++ "-"
   ++ number_to_string (amount params))%string.

(** The part of [getCachedQuote] after the cache was consulted, given the
    effects so far. *)
Definition fetch_and_store (params : QuoteParams) (quoteCache : Cache)
  (effects : list (Async.effect CacheCall GuideLine)) (n : Z)
  : outcome SwapExample.Quote * Cache * list (Async.effect CacheCall GuideLine) * Z :=
  match getSwapQuote n params with
  | Rejected error =>
      (Rejected error, quoteCache,
       effects ++ [Async.Call (SdkGetSwapQuote params) (Some error)], n + 1)
  | Resolved fresh =>
      (Resolved fresh,
       cache_set quoteCache (cache_key params)
         {| quote := fresh; timestamp := now (n + 1) |},
       effects ++ [Async.Call (SdkGetSwapQuote params) None; Async.Call DateNow None],
       n + 2)
  end.

(** [getCachedQuote], with the module-level [quoteCache] passed in and out. *)
Definition getCachedQuote (params : QuoteParams) (quoteCache : Cache) (n : Z)
  : outcome SwapExample.Quote * Cache * list (Async.effect CacheCall GuideLine) * Z :=
  match cache_get quoteCache (cache_key params) with
  | Some cached =>
      if now n - timestamp cached <? 30000
      then (Resolved (quote cached), quoteCache, [Async.Call DateNow None], n + 1)
      else fetch_and_store params quoteCache [Async.Call DateNow None] (n + 1)
  | None => fetch_and_store params quoteCache [] n
  end.
End GetCachedQuote.

End Guide.

(** ** Values used in the worked examples of the position manager *)

(** A position of 10 bins on each side of bin 100 that holds liquidity in
    two bins and has fees to claim. *)
Definition example_position : PositionManager.Position :=
  {| PositionManager.address := "position";
     PositionManager.poolAddress := "pool";
     PositionManager.lowerBin := 90;
     PositionManager.upperBin := 110;
     PositionManager.position_liquidityX := 4;
     PositionManager.position_liquidityY := 6;
     PositionManager.feesX := 0.5;
     PositionManager.feesY := 0;
     PositionManager.feesValue := 0.5;
     PositionManager.totalValue := 10;
     PositionManager.inRange := true;
     PositionManager.binLiquidity :=
       [(99, PositionManager.mkBinLiquidity 1 2);
        (100, PositionManager.mkBinLiquidity 3 4)];
     PositionManager.totalLiquidityX := 4;
     PositionManager.totalLiquidityY := 6 |}.

Definition example_pool (activeBin : Z) : PositionManager.Pool :=
  {| PositionManager.tokenX_symbol := "SOL";
     PositionManager.tokenY_symbol := "USDC";
     PositionManager.activeBin := activeBin;
     PositionManager.binStep := 25 |}.

(** Three bins, the second of them without volume. *)
Definition example_bins : list PositionManager.Bin :=
  [PositionManager.mkBin 99 0.003 1000;
   PositionManager.mkBin 100 0.003 0;
   PositionManager.mkBin 101 0.01 500].

(** An SDK whose every call goes through, for a pool whose active bin is
    [activeBin]. *)
Definition example_sdk (activeBin : Z) : PositionManager.Sdk unit :=
  {| PositionManager.getPosition := fun _ _ => Resolved example_position;
     PositionManager.getPool := fun _ _ => Resolved (example_pool activeBin);
     PositionManager.getBinArrays := fun _ _ => Resolved example_bins;
     PositionManager.binIdToPrice := fun id _ => inject_Z id;
     PositionManager.calculateLiquidityDistribution :=
       fun _ _ _ _ _ _ _ => Resolved [tt];
     PositionManager.dlmm_createPosition := fun _ _ _ _ _ _ => Resolved "create";
     PositionManager.dlmm_removeLiquidity := fun _ _ _ _ => Resolved "remove";
     PositionManager.dlmm_claimFees := fun _ _ _ => Resolved "claim";
     PositionManager.dlmm_getUserPositions := fun _ _ _ => Resolved [example_position];
     PositionManager.getAllUserPositions := fun _ _ => Resolved [example_position];
     PositionManager.sendAndConfirmTransaction := fun _ _ _ _ => Resolved "signature";
     PositionManager.sign := fun transaction _ => transaction;
     PositionManager.publicKey := fun wallet => wallet |}.

(** ** Values used in the worked examples of the quote cache *)

Definition example_quote : SwapExample.Quote :=
  {| SwapExample.inAmount := 100000000;
     SwapExample.outAmount := 2150000;
     SwapExample.priceImpactPct := 0.1;
     SwapExample.routePlan := ["SOL"; "USDC"] |}.

(** A request for a quote of 0.1 SOL in USDC. *)
Definition example_params (slippageBps : option Z) : Guide.QuoteParams :=
  {| Guide.inputMint := SOL;
     Guide.outputMint := USDC;
     Guide.amount := 100000000;
     Guide.slippageBps := slippageBps |}.

(** A clock that advances one second with every call from outside. *)
Definition example_clock (n : Z) : Z := 1700000000000 + 1000 * n.

(** ** Facts about traces *)

Section TraceFacts.
Context {call : Type}.
Implicit Types tr pre rest : list (event call).

Lemma calls_app pre rest : calls (pre ++ rest) = (calls pre + calls rest)%nat.
Proof. unfold calls. rewrite filter_app, length_app. reflexivity. Qed.

Lemma delays_app pre rest : delays (pre ++ rest) = (delays pre + delays rest)%nat.
Proof. unfold delays. rewrite filter_app, length_app. reflexivity. Qed.

Lemma successes_app pre rest :
  successes (pre ++ rest) = (successes pre + successes rest)%nat.
Proof. unfold successes. rewrite filter_app, length_app. reflexivity. Qed.

Lemma failures_app pre rest :
  failures (pre ++ rest) = (failures pre + failures rest)%nat.
Proof. unfold failures. rewrite filter_app, length_app. reflexivity. Qed.

(** Once an error has been seen, the initial value no longer matters. *)
Lemma last_error_seen previous previous' tr e :
  last_error None tr = Some e ->
  last_error previous tr = last_error previous' tr.
Proof.
  revert previous previous'.
  induction tr as [| ev tr IH]; intros previous previous' Hlast.
  - discriminate.
  - destruct ev as [c [err |] | line | ms]; cbn in *; auto.
Qed.

(** Every call either failed or went through. *)
Lemma calls_split tr : calls tr = (failures tr + successes tr)%nat.
Proof.
  unfold calls, failures, successes.
  induction tr as [| ev tr IH]; [reflexivity |].
  destruct ev as [c [err |] | line | ms]; cbn; lia.
Qed.

Lemma calls_positive_exists tr : calls tr <> 0%nat -> existsb is_call tr = true.
Proof.
  induction tr as [| ev tr IH]; cbn; [congruence |].
  destruct ev; cbn; auto.
Qed.

Lemma after_last_call_app pre rest :
  calls rest <> 0%nat ->
  after_last_call (pre ++ rest) = after_last_call rest.
Proof.
  intros Hrest. induction pre as [| ev pre IH]; [reflexivity |].
  cbn. rewrite existsb_app, (calls_positive_exists rest Hrest), orb_true_r.
  exact IH.
Qed.
End TraceFacts.

(** ** Facts about [executeSwapWithRetry] *)

Section ExecuteSwapWithRetryFacts.
Variable number_to_string : Z -> string.
Variable executeSwap : Z -> BasicSwap.SwapCall -> outcome TxSignature.
Variables (inputMint outputMint : PublicKey) (amount : Z) (wallet : Keypair).
Variable maxRetries : Z.

Local Abbreviation loop :=
  (BasicSwap.retry_loop number_to_string executeSwap
     inputMint outputMint amount wallet maxRetries).
Local Abbreviation call_of attempt :=
  (BasicSwap.mkSwapCall inputMint outputMint amount wallet
     (BasicSwap.slippageBps_of_attempt attempt)).
Local Abbreviation exhausted :=
  (BasicSwap.all_attempts_failed number_to_string maxRetries).
Local Abbreviation failed_iteration :=
  (BasicSwap.failed_iteration inputMint outputMint amount wallet maxRetries).

Lemma retry_loop_exit attempt lastError submitted :
  maxRetries < attempt ->
  loop attempt lastError submitted = (Rejected (exhausted lastError), []).
Proof.
  intros Hgt. simp retry_loop.
  destruct (Z_le_gt_dec attempt maxRetries) as [Hle | Hgt']; [lia | reflexivity].
Qed.

Lemma retry_loop_success attempt lastError submitted signature :
  attempt <= maxRetries ->
  executeSwap submitted (call_of attempt) = Resolved signature ->
  loop attempt lastError submitted =
    (Resolved signature,
     [EvLog (LogSwapAttempt attempt maxRetries); EvCall (call_of attempt) None]).
Proof.
  intros Hle Hcall. simp retry_loop.
  destruct (Z_le_gt_dec attempt maxRetries) as [Hle' | Hgt]; [| lia].
  simp retry_loop. rewrite Hcall. simp retry_loop. reflexivity.
Qed.

Lemma retry_loop_failure attempt lastError submitted error :
  attempt <= maxRetries ->
  executeSwap submitted (call_of attempt) = Rejected error ->
  loop attempt lastError submitted =
    (fst (loop (attempt + 1) (Some error) (submitted + 1)),
     failed_iteration attempt error
     ++ snd (loop (attempt + 1) (Some error) (submitted + 1))).
Proof.
  intros Hle Hcall.
  set (rest := loop (attempt + 1) (Some error) (submitted + 1)).
  rewrite BasicSwap.retry_loop_equation_1.
  destruct (Z_le_gt_dec attempt maxRetries) as [Hle' | Hgt]; [| lia].
  cbn [BasicSwap.retry_loop_unfold_clause_1].
  rewrite Hcall.
  cbn [BasicSwap.retry_loop_unfold_clause_1_clause_2].
  fold rest. unfold BasicSwap.failed_iteration.
  rewrite <- app_assoc. reflexivity.
Qed.

(** Induction along the iterations of the loop. *)
Lemma retry_loop_induction
  (P : Z -> option Error -> Z -> outcome TxSignature * list (event BasicSwap.SwapCall) -> Prop) :
  (forall attempt lastError submitted,
      maxRetries < attempt ->
      P attempt lastError submitted (Rejected (exhausted lastError), [])) ->
  (forall attempt lastError submitted signature,
      attempt <= maxRetries ->
      executeSwap submitted (call_of attempt) = Resolved signature ->
      P attempt lastError submitted
        (Resolved signature,
         [EvLog (LogSwapAttempt attempt maxRetries);
          EvCall (call_of attempt) None])) ->
  (forall attempt lastError submitted error,
      attempt <= maxRetries ->
      executeSwap submitted (call_of attempt) = Rejected error ->
      P (attempt + 1) (Some error) (submitted + 1)
        (loop (attempt + 1) (Some error) (submitted + 1)) ->
      P attempt lastError submitted
        (fst (loop (attempt + 1) (Some error) (submitted + 1)),
         failed_iteration attempt error
         ++ snd (loop (attempt + 1) (Some error) (submitted + 1)))) ->
  forall attempt lastError submitted,
    P attempt lastError submitted (loop attempt lastError submitted).
Proof.
  intros Hexit Hok Hfail attempt.
  remember (Z.to_nat (maxRetries + 1 - attempt)) as fuel eqn:Hfuel.
  revert attempt Hfuel.
  induction fuel as [| fuel IH]; intros attempt Hfuel lastError submitted.
  - rewrite retry_loop_exit by lia. apply Hexit. lia.
  - destruct (executeSwap submitted (call_of attempt)) as [signature | error] eqn:Hcall.
    + rewrite (retry_loop_success _ _ _ signature) by (lia || assumption).
      apply Hok; [lia | assumption].
    + rewrite (retry_loop_failure _ _ _ error) by (lia || assumption).
      apply Hfail; [lia | assumption |]. apply IH. lia.
Qed.

Lemma calls_failed_iteration attempt error rest :
  calls (failed_iteration attempt error ++ rest) = S (calls rest).
Proof.
  unfold BasicSwap.failed_iteration, calls.
  destruct (attempt <? maxRetries); reflexivity.
Qed.

Lemma retry_loop_calls attempt lastError submitted :
  Z.of_nat (calls (snd (loop attempt lastError submitted)))
  <= Z.max 0 (maxRetries + 1 - attempt).
Proof.
  apply retry_loop_induction with
    (P := fun attempt _ _ run =>
            Z.of_nat (calls (snd run)) <= Z.max 0 (maxRetries + 1 - attempt));
    clear attempt lastError submitted.
  - intros; cbn; lia.
  - intros; cbn; lia.
  - intros attempt _ submitted error Hle _ IH.
    cbn [snd] in *. rewrite calls_failed_iteration. lia.
Qed.

Lemma failures_failed_iteration attempt error rest :
  failures (failed_iteration attempt error ++ rest) = S (failures rest).
Proof.
  unfold BasicSwap.failed_iteration, failures.
  destruct (attempt <? maxRetries); reflexivity.
Qed.

Lemma successes_failed_iteration attempt error rest :
  successes (failed_iteration attempt error ++ rest) = successes rest.
Proof.
  unfold BasicSwap.failed_iteration, successes.
  destruct (attempt <? maxRetries); reflexivity.
Qed.

Lemma tolerances_failed_iteration attempt error rest :
  BasicSwap.tolerances (failed_iteration attempt error ++ rest)
  = BasicSwap.slippageBps_of_attempt attempt :: BasicSwap.tolerances rest.
Proof.
  unfold BasicSwap.failed_iteration, BasicSwap.tolerances.
  destruct (attempt <? maxRetries); reflexivity.
Qed.

Lemma last_error_failed_iteration previous attempt error rest :
  last_error previous (failed_iteration attempt error ++ rest)
  = last_error (Some error) rest.
Proof.
  unfold BasicSwap.failed_iteration.
  destruct (attempt <? maxRetries); reflexivity.
Qed.

Lemma delays_failed_iteration attempt error rest :
  delays (failed_iteration attempt error ++ rest)
  = Nat.add (Nat.b2n (attempt <? maxRetries)) (delays rest).
Proof.
  unfold BasicSwap.failed_iteration, delays.
  destruct (attempt <? maxRetries); reflexivity.
Qed.

Lemma delay_durations_failed_iteration attempt error rest :
  delay_durations (failed_iteration attempt error ++ rest)
  = (if attempt <? maxRetries then [2000] else []) ++ delay_durations rest.
Proof.
  unfold BasicSwap.failed_iteration.
  destruct (attempt <? maxRetries); reflexivity.
Qed.

Lemma failed_nonfinal_failed_iteration attempt error rest :
  failed_nonfinal maxRetries attempt (failed_iteration attempt error ++ rest)
  = Nat.add (Nat.b2n (attempt <? maxRetries))
            (failed_nonfinal maxRetries (attempt + 1) rest).
Proof.
  unfold BasicSwap.failed_iteration.
  destruct (attempt <? maxRetries) eqn:Hlt; cbn; rewrite Hlt; reflexivity.
Qed.

Lemma delays_between_attempts_failed_iteration p attempt error rest :
  (forall failed, p <> AfterCall failed) ->
  delays_between_attempts p (failed_iteration attempt error ++ rest)
  = delays_between_attempts
      (if attempt <? maxRetries then AfterDelay else AfterCall true) rest.
Proof.
  intros Hp. unfold BasicSwap.failed_iteration.
  destruct p as [| failed |]; [| destruct (Hp failed); reflexivity |];
    destruct (attempt <? maxRetries); reflexivity.
Qed.

(** The tolerance of the k-th call of the loop started at [attempt]. *)
Lemma retry_loop_tolerances attempt lastError submitted :
  BasicSwap.tolerances (snd (loop attempt lastError submitted))
  = map (fun k => BasicSwap.slippageBps_of_attempt (attempt + Z.of_nat k))
        (seq 0 (calls (snd (loop attempt lastError submitted)))).
Proof.
  apply retry_loop_induction with
    (P := fun attempt _ _ run =>
            BasicSwap.tolerances (snd run)
            = map (fun k => BasicSwap.slippageBps_of_attempt (attempt + Z.of_nat k))
                  (seq 0 (calls (snd run))));
    clear attempt lastError submitted.
  - reflexivity.
  - intros attempt lastError submitted signature Hle Hcall.
    cbn. rewrite Z.add_0_r. reflexivity.
  - intros attempt _ submitted error _ _ IH. cbn [snd] in *.
    rewrite tolerances_failed_iteration, calls_failed_iteration, IH.
    cbn [seq map]. rewrite Z.add_0_r. f_equal.
    rewrite <- seq_shift, map_map. apply map_ext. intros k.
    f_equal. lia.
Qed.

Lemma retry_loop_delays attempt lastError submitted :
  delays (snd (loop attempt lastError submitted))
  = failed_nonfinal maxRetries attempt (snd (loop attempt lastError submitted)).
Proof.
  apply retry_loop_induction with
    (P := fun attempt _ _ run =>
            delays (snd run) = failed_nonfinal maxRetries attempt (snd run));
    clear attempt lastError submitted.
  - reflexivity.
  - reflexivity.
  - intros attempt _ submitted error _ _ IH. cbn [snd] in *.
    rewrite delays_failed_iteration, failed_nonfinal_failed_iteration, IH.
    reflexivity.
Qed.

Lemma retry_loop_delay_durations attempt lastError submitted :
  Forall (fun ms => ms = 2000)
         (delay_durations (snd (loop attempt lastError submitted))).
Proof.
  apply retry_loop_induction with
    (P := fun _ _ _ run => Forall (fun ms => ms = 2000) (delay_durations (snd run)));
    clear attempt lastError submitted.
  - constructor.
  - constructor.
  - intros attempt _ submitted error _ _ IH. cbn [snd] in *.
    rewrite delay_durations_failed_iteration.
    destruct (attempt <? maxRetries); cbn; auto.
Qed.

Lemma retry_loop_spacing p attempt lastError submitted :
  (forall failed, p <> AfterCall failed) ->
  (p = AfterDelay -> attempt <= maxRetries) ->
  delays_between_attempts p (snd (loop attempt lastError submitted)) = true.
Proof.
  revert p.
  apply retry_loop_induction with
    (P := fun attempt _ _ run =>
            forall p,
              (forall failed, p <> AfterCall failed) ->
              (p = AfterDelay -> attempt <= maxRetries) ->
              delays_between_attempts p (snd run) = true);
    clear attempt lastError submitted.
  - intros attempt lastError submitted Hgt p Hp Hdelay.
    destruct p as [| failed |]; [reflexivity | destruct (Hp failed); reflexivity |].
    specialize (Hdelay eq_refl). lia.
  - intros attempt lastError submitted signature Hle Hcall p Hp _.
    destruct p as [| failed |]; [reflexivity | destruct (Hp failed); reflexivity |].
    reflexivity.
  - intros attempt _ submitted error Hle _ IH p Hp _. cbn [snd] in *.
    rewrite delays_between_attempts_failed_iteration by assumption.
    destruct (attempt <? maxRetries) eqn:Hlt.
    + apply IH; [discriminate |]. intros _. apply Z.ltb_lt in Hlt. lia.
    + apply Z.ltb_ge in Hlt.
      rewrite retry_loop_exit by lia. reflexivity.
Qed.

(** A success on attempt [k] after failures on the attempts before it. *)
Lemma retry_loop_first_success k signature attempt lastError submitted :
  attempt <= k <= maxRetries ->
  (forall j, attempt <= j < k ->
     is_rejected (executeSwap (submitted + (j - attempt)) (call_of j)) = true) ->
  executeSwap (submitted + (k - attempt)) (call_of k) = Resolved signature ->
  fst (loop attempt lastError submitted) = Resolved signature
  /\ Z.of_nat (calls (snd (loop attempt lastError submitted))) = k - attempt + 1
  /\ Z.of_nat (failures (snd (loop attempt lastError submitted))) = k - attempt
  /\ successes (snd (loop attempt lastError submitted)) = 1%nat
  /\ after_last_call (snd (loop attempt lastError submitted)) = [].
Proof.
  remember (Z.to_nat (k - attempt)) as gap eqn:Hgap.
  revert attempt lastError submitted Hgap.
  induction gap as [| gap IH]; intros attempt lastError submitted Hgap Hk Hfail Hok.
  - assert (attempt = k) by lia. subst attempt.
    rewrite Z.sub_diag, Z.add_0_r in Hok.
    rewrite (retry_loop_success _ _ _ signature) by (lia || assumption).
    cbn. repeat split; lia.
  - pose proof (Hfail attempt ltac:(lia)) as Hfirst.
    rewrite Z.sub_diag, Z.add_0_r in Hfirst.
    destruct (executeSwap submitted (call_of attempt)) as [v | error] eqn:Hcall;
      [discriminate |].
    rewrite (retry_loop_failure _ _ _ error) by (lia || assumption).
    cbn [fst snd].
    destruct (IH (attempt + 1) (Some error) (submitted + 1)) as (Hr & Hc & Hf & Hs & Ha).
    + lia.
    + lia.
    + intros j Hj.
      replace (submitted + 1 + (j - (attempt + 1))) with (submitted + (j - attempt)) by lia.
      apply Hfail. lia.
    + replace (submitted + 1 + (k - (attempt + 1))) with (submitted + (k - attempt)) by lia.
      exact Hok.
    + rewrite calls_failed_iteration, failures_failed_iteration,
        successes_failed_iteration, after_last_call_app by lia.
      repeat split; try assumption; lia.
Qed.

(** Failures on every attempt that is left. *)
Lemma retry_loop_all_fail (errs : Z -> Error) attempt lastError submitted :
  attempt <= maxRetries ->
  (forall j, attempt <= j <= maxRetries ->
     executeSwap (submitted + (j - attempt)) (call_of j) = Rejected (errs j)) ->
  fst (loop attempt lastError submitted)
    = Rejected (exhausted (Some (errs maxRetries)))
  /\ Z.of_nat (calls (snd (loop attempt lastError submitted)))
      = maxRetries - attempt + 1
  /\ successes (snd (loop attempt lastError submitted)) = 0%nat.
Proof.
  remember (Z.to_nat (maxRetries - attempt)) as gap eqn:Hgap.
  revert attempt lastError submitted Hgap.
  induction gap as [| gap IH]; intros attempt lastError submitted Hgap Hle Hfail;
    pose proof (Hfail attempt ltac:(lia)) as Hfirst;
    rewrite Z.sub_diag, Z.add_0_r in Hfirst;
    rewrite (retry_loop_failure _ _ _ (errs attempt)) by (lia || assumption);
    cbn [fst snd];
    rewrite calls_failed_iteration, successes_failed_iteration.
  - assert (attempt = maxRetries) by lia. subst attempt.
    rewrite retry_loop_exit by lia. cbn. repeat split; lia.
  - destruct (IH (attempt + 1) (Some (errs attempt)) (submitted + 1)) as (Hr & Hc & Hs).
    + lia.
    + lia.
    + intros j Hj.
      replace (submitted + 1 + (j - (attempt + 1))) with (submitted + (j - attempt)) by lia.
      apply Hfail. lia.
    + repeat split; try assumption; lia.
Qed.

(** A rejection of the loop is the exhaustion error, built from the last
    error seen, after every permitted attempt has been made and failed. *)
Lemma retry_loop_rejected attempt lastError submitted e :
  fst (loop attempt lastError submitted) = Rejected e ->
  e = exhausted (last_error lastError (snd (loop attempt lastError submitted)))
  /\ successes (snd (loop attempt lastError submitted)) = 0%nat
  /\ Z.of_nat (calls (snd (loop attempt lastError submitted)))
      = Z.max 0 (maxRetries + 1 - attempt).
Proof.
  revert e.
  apply retry_loop_induction with
    (P := fun attempt lastError _ run =>
            forall e, fst run = Rejected e ->
              e = exhausted (last_error lastError (snd run))
              /\ successes (snd run) = 0%nat
              /\ Z.of_nat (calls (snd run)) = Z.max 0 (maxRetries + 1 - attempt));
    clear attempt lastError submitted.
  - intros attempt lastError submitted Hgt e He. cbn in *.
    repeat split; [congruence | lia].
  - intros attempt lastError submitted signature Hle Hcall e He. discriminate.
  - intros attempt lastError submitted error Hle Hcall IH e He. cbn [fst snd] in *.
    destruct (IH e He) as (Hmsg & Hs & Hc).
    rewrite last_error_failed_iteration, successes_failed_iteration,
      calls_failed_iteration.
    repeat split; try assumption; lia.
Qed.

(** Failures on the attempts up to [k], with [k] below the limit, are
    each followed by another attempt. *)
Lemma retry_loop_failures_retried k attempt lastError submitted :
  attempt <= k < maxRetries ->
  (forall j, attempt <= j <= k ->
     is_rejected (executeSwap (submitted + (j - attempt)) (call_of j)) = true) ->
  k - attempt + 2 <= Z.of_nat (calls (snd (loop attempt lastError submitted))).
Proof.
  remember (Z.to_nat (k - attempt)) as gap eqn:Hgap.
  revert attempt lastError submitted Hgap.
  induction gap as [| gap IH]; intros attempt lastError submitted Hgap Hk Hfail;
    pose proof (Hfail attempt ltac:(lia)) as Hfirst;
    rewrite Z.sub_diag, Z.add_0_r in Hfirst;
    (destruct (executeSwap submitted (call_of attempt)) as [v | error] eqn:Hcall;
     [discriminate |]);
    rewrite (retry_loop_failure _ _ _ error) by (lia || assumption);
    cbn [snd]; rewrite calls_failed_iteration.
  - assert (attempt = k) by lia. subst attempt.
    destruct (executeSwap (submitted + 1) (call_of (k + 1))) as [v | error'] eqn:Hnext.
    + rewrite (retry_loop_success _ _ _ v) by (lia || assumption). cbn. lia.
    + rewrite (retry_loop_failure _ _ _ error') by (lia || assumption).
      cbn [snd]. rewrite calls_failed_iteration. lia.
  - assert (k - (attempt + 1) + 2
            <= Z.of_nat (calls (snd (loop (attempt + 1) (Some error) (submitted + 1)))))
      as Hrest.
    { apply IH; [lia | lia |]. intros j Hj.
      replace (submitted + 1 + (j - (attempt + 1))) with (submitted + (j - attempt)) by lia.
      apply Hfail. lia. }
    lia.
Qed.
End ExecuteSwapWithRetryFacts.

(** ** Facts about [sendAndConfirmWithRetry] *)

Section SendAndConfirmWithRetryFacts.
Variable sendAndConfirmTransaction
  : Z -> Troubleshooting.SendCall -> outcome TxSignature.
Variables (connection : Troubleshooting.Connection)
          (transaction : Troubleshooting.Transaction)
          (signers : list Keypair).
Variable maxRetries : Z.

Local Abbreviation loop :=
  (Troubleshooting.confirm_loop sendAndConfirmTransaction
     connection transaction signers maxRetries).
Local Abbreviation the_call :=
  (Troubleshooting.send_call connection transaction signers).

Lemma confirm_loop_exit attempt submitted :
  maxRetries <= attempt ->
  loop attempt submitted = (Resolved None, []).
Proof.
  intros Hge. simp confirm_loop.
  destruct (Z_lt_ge_dec attempt maxRetries) as [Hlt | Hge']; [lia | reflexivity].
Qed.

Lemma confirm_loop_success attempt submitted signature :
  attempt < maxRetries ->
  sendAndConfirmTransaction submitted the_call = Resolved signature ->
  loop attempt submitted = (Resolved (Some signature), [EvCall the_call None]).
Proof.
  intros Hlt Hcall. simp confirm_loop.
  destruct (Z_lt_ge_dec attempt maxRetries) as [Hlt' | Hge]; [| lia].
  simp confirm_loop. rewrite Hcall. simp confirm_loop. reflexivity.
Qed.

Lemma confirm_loop_retry attempt submitted error :
  attempt + 1 < maxRetries ->
  sendAndConfirmTransaction submitted the_call = Rejected error ->
  loop attempt submitted =
    (fst (loop (attempt + 1) (submitted + 1)),
     [EvCall the_call (Some error);
      EvLog (LogAttemptFailed (attempt + 1) (message error));
      EvDelay 2000]
     ++ snd (loop (attempt + 1) (submitted + 1))).
Proof.
  intros Hlt Hcall.
  set (rest := loop (attempt + 1) (submitted + 1)).
  rewrite Troubleshooting.confirm_loop_equation_1.
  destruct (Z_lt_ge_dec attempt maxRetries) as [Hlt' | Hge]; [| lia].
  cbn [Troubleshooting.confirm_loop_unfold_clause_1].
  rewrite Hcall.
  cbn [Troubleshooting.confirm_loop_unfold_clause_1_clause_2].
  destruct (Z_lt_ge_dec (attempt + 1) maxRetries) as [Hlt'' | Hge]; [| lia].
  reflexivity.
Qed.

Lemma confirm_loop_final attempt submitted error :
  attempt < maxRetries <= attempt + 1 ->
  sendAndConfirmTransaction submitted the_call = Rejected error ->
  loop attempt submitted =
    (Rejected error,
     [EvCall the_call (Some error);
      EvLog (LogAttemptFailed (attempt + 1) (message error))]).
Proof.
  intros Hlt Hcall. simp confirm_loop.
  destruct (Z_lt_ge_dec attempt maxRetries) as [Hlt' | Hge]; [| lia].
  simp confirm_loop. rewrite Hcall. simp confirm_loop.
  destruct (Z_lt_ge_dec (attempt + 1) maxRetries) as [Hlt'' | Hge]; [lia |].
  simp confirm_loop. reflexivity.
Qed.

(** Induction along the iterations of the loop. *)
Lemma confirm_loop_induction
  (P : Z -> Z -> outcome (option TxSignature)
                 * list (event Troubleshooting.SendCall) -> Prop) :
  (forall attempt submitted,
      maxRetries <= attempt -> P attempt submitted (Resolved None, [])) ->
  (forall attempt submitted signature,
      attempt < maxRetries ->
      sendAndConfirmTransaction submitted the_call = Resolved signature ->
      P attempt submitted (Resolved (Some signature), [EvCall the_call None])) ->
  (forall attempt submitted error,
      attempt + 1 < maxRetries ->
      sendAndConfirmTransaction submitted the_call = Rejected error ->
      P (attempt + 1) (submitted + 1) (loop (attempt + 1) (submitted + 1)) ->
      P attempt submitted
        (fst (loop (attempt + 1) (submitted + 1)),
         [EvCall the_call (Some error);
          EvLog (LogAttemptFailed (attempt + 1) (message error));
          EvDelay 2000]
         ++ snd (loop (attempt + 1) (submitted + 1)))) ->
  (forall attempt submitted error,
      attempt < maxRetries <= attempt + 1 ->
      sendAndConfirmTransaction submitted the_call = Rejected error ->
      P attempt submitted
        (Rejected error,
         [EvCall the_call (Some error);
          EvLog (LogAttemptFailed (attempt + 1) (message error))])) ->
  forall attempt submitted, P attempt submitted (loop attempt submitted).
Proof.
  intros Hexit Hok Hretry Hfinal attempt.
  remember (Z.to_nat (maxRetries - attempt)) as fuel eqn:Hfuel.
  revert attempt Hfuel.
  induction fuel as [| fuel IH]; intros attempt Hfuel submitted.
  - rewrite confirm_loop_exit by lia. apply Hexit. lia.
  - destruct (sendAndConfirmTransaction submitted the_call)
      as [signature | error] eqn:Hcall.
    + rewrite (confirm_loop_success _ _ signature) by (lia || assumption).
      apply Hok; [lia | assumption].
    + destruct (Z_lt_ge_dec (attempt + 1) maxRetries) as [Hlt | Hge].
      * rewrite (confirm_loop_retry _ _ error) by (lia || assumption).
        apply Hretry; [lia | assumption |]. apply IH. lia.
      * rewrite (confirm_loop_final _ _ error) by (lia || assumption).
        apply Hfinal; [lia | assumption].
Qed.

Lemma confirm_loop_calls attempt submitted :
  Z.of_nat (calls (snd (loop attempt submitted))) <= Z.max 0 (maxRetries - attempt).
Proof.
  apply confirm_loop_induction with
    (P := fun attempt _ run =>
            Z.of_nat (calls (snd run)) <= Z.max 0 (maxRetries - attempt));
    clear attempt submitted.
  - intros; cbn; lia.
  - intros; cbn; lia.
  - intros attempt submitted error Hlt Hcall IH. cbn [snd] in *.
    rewrite calls_app. change (calls [_; _; _]) with 1%nat. lia.
  - intros; cbn; lia.
Qed.

(** The call made at loop counter [attempt] is attempt number
    [attempt + 1] of the run. *)
Lemma confirm_loop_delays attempt submitted :
  delays (snd (loop attempt submitted))
  = failed_nonfinal maxRetries (attempt + 1) (snd (loop attempt submitted)).
Proof.
  apply confirm_loop_induction with
    (P := fun attempt _ run =>
            delays (snd run) = failed_nonfinal maxRetries (attempt + 1) (snd run));
    clear attempt submitted.
  - reflexivity.
  - reflexivity.
  - intros attempt submitted error Hlt Hcall IH. cbn [snd] in *.
    rewrite delays_app. change (delays [_; _; _]) with 1%nat.
    cbn [app failed_nonfinal]. rewrite <- IH.
    apply Z.ltb_lt in Hlt. rewrite Hlt. reflexivity.
  - intros attempt submitted error Hlt Hcall. cbn.
    destruct (Z.ltb_spec (attempt + 1) maxRetries); [lia | reflexivity].
Qed.

Lemma confirm_loop_delay_durations attempt submitted :
  Forall (fun ms => ms = 2000) (delay_durations (snd (loop attempt submitted))).
Proof.
  apply confirm_loop_induction with
    (P := fun _ _ run => Forall (fun ms => ms = 2000) (delay_durations (snd run)));
    clear attempt submitted.
  - intros; constructor.
  - intros; constructor.
  - intros attempt submitted error Hlt Hcall IH. cbn [snd] in *.
    cbn [app delay_durations]. constructor; [reflexivity | assumption].
  - intros; constructor.
Qed.

Lemma confirm_loop_spacing p attempt submitted :
  (forall failed, p <> AfterCall failed) ->
  (p = AfterDelay -> attempt < maxRetries) ->
  delays_between_attempts p (snd (loop attempt submitted)) = true.
Proof.
  revert p.
  apply confirm_loop_induction with
    (P := fun attempt _ run =>
            forall p,
              (forall failed, p <> AfterCall failed) ->
              (p = AfterDelay -> attempt < maxRetries) ->
              delays_between_attempts p (snd run) = true);
    clear attempt submitted.
  - intros attempt submitted Hge p Hp Hdelay.
    destruct p as [| failed |]; [reflexivity | destruct (Hp failed); reflexivity |].
    specialize (Hdelay eq_refl). lia.
  - intros attempt submitted signature Hlt Hcall p Hp _.
    destruct p as [| failed |]; [reflexivity | destruct (Hp failed); reflexivity |].
    reflexivity.
  - intros attempt submitted error Hlt Hcall IH p Hp _. cbn [snd] in *.
    assert (Hnext : delays_between_attempts AfterDelay
                      (snd (loop (attempt + 1) (submitted + 1))) = true)
      by (apply IH; [discriminate | intros _; lia]).
    destruct p as [| failed |]; [| destruct (Hp failed); reflexivity |];
      cbn [app delays_between_attempts]; exact Hnext.
  - intros attempt submitted error Hlt Hcall p Hp _.
    destruct p as [| failed |]; [reflexivity | destruct (Hp failed); reflexivity |].
    reflexivity.
Qed.

(** Failures on every attempt that is left. *)
Lemma confirm_loop_all_fail (errs : Z -> Error) attempt submitted :
  attempt < maxRetries ->
  (forall j, attempt < j <= maxRetries ->
     sendAndConfirmTransaction (submitted + (j - attempt - 1)) the_call
     = Rejected (errs j)) ->
  fst (loop attempt submitted) = Rejected (errs maxRetries)
  /\ Z.of_nat (calls (snd (loop attempt submitted))) = maxRetries - attempt.
Proof.
  remember (Z.to_nat (maxRetries - attempt - 1)) as gap eqn:Hgap.
  revert attempt submitted Hgap.
  induction gap as [| gap IH]; intros attempt submitted Hgap Hlt Hfail;
    pose proof (Hfail (attempt + 1) ltac:(lia)) as Hfirst;
    replace (submitted + (attempt + 1 - attempt - 1)) with submitted in Hfirst by lia.
  - assert (attempt + 1 = maxRetries) as Hlast by lia.
    rewrite (confirm_loop_final _ _ (errs (attempt + 1))) by (lia || assumption).
    rewrite Hlast. cbn. split; [reflexivity | lia].
  - rewrite (confirm_loop_retry _ _ (errs (attempt + 1))) by (lia || assumption).
    cbn [fst snd].
    destruct (IH (attempt + 1) (submitted + 1)) as (Hr & Hc).
    + lia.
    + lia.
    + intros j Hj.
      replace (submitted + 1 + (j - (attempt + 1) - 1))
        with (submitted + (j - attempt - 1)) by lia.
      apply Hfail. lia.
    + rewrite calls_app. change (calls [_; _; _]) with 1%nat.
      split; [assumption | lia].
Qed.

(** A rejection of the loop is the error of the last call, after every
    permitted attempt has been made and failed. *)
Lemma confirm_loop_rejected attempt submitted e :
  fst (loop attempt submitted) = Rejected e ->
  last_error None (snd (loop attempt submitted)) = Some e
  /\ successes (snd (loop attempt submitted)) = 0%nat
  /\ Z.of_nat (calls (snd (loop attempt submitted))) = maxRetries - attempt
  /\ attempt < maxRetries.
Proof.
  revert e.
  apply confirm_loop_induction with
    (P := fun attempt _ run =>
            forall e, fst run = Rejected e ->
              last_error None (snd run) = Some e
              /\ successes (snd run) = 0%nat
              /\ Z.of_nat (calls (snd run)) = maxRetries - attempt
              /\ attempt < maxRetries);
    clear attempt submitted.
  - intros attempt submitted Hge e He. discriminate.
  - intros attempt submitted signature Hlt Hcall e He. discriminate.
  - intros attempt submitted error Hlt Hcall IH e He. cbn [fst snd] in *.
    destruct (IH e He) as (Hlast & Hs & Hc & _).
    rewrite calls_app, successes_app.
    change (calls [_; _; _]) with 1%nat. change (successes [_; _; _]) with 0%nat.
    cbn [app last_error].
    rewrite (last_error_seen (Some error) None _ e Hlast).
    repeat split; try assumption; lia.
  - intros attempt submitted error Hlt Hcall e He. cbn in *.
    repeat split; [congruence | lia | lia].
Qed.
End SendAndConfirmWithRetryFacts.

(** ** Facts about [swapWithRetry] *)

Section SwapWithRetryFacts.
Variables SwapParams Quote : Type.
Variable getSwapQuote : Z -> SwapParams -> Q -> outcome Quote.
Variable swap : Z -> Quote -> outcome TxSignature.
Variable params : SwapParams.
Variable maxRetries : Z.

Local Abbreviation loop :=
  (Troubleshooting.swap_loop SwapParams Quote getSwapQuote swap params maxRetries).
Local Abbreviation try_swap :=
  (Troubleshooting.try_swap SwapParams Quote getSwapQuote swap params).
Local Abbreviation quoted tr :=
  (Troubleshooting.quote_tolerances (arguments tr)).

Lemma swap_loop_exit i slippage submitted :
  maxRetries <= i ->
  loop i slippage submitted = (Resolved None, []).
Proof.
  intros Hge. simp swap_loop.
  destruct (Z_lt_ge_dec i maxRetries) as [Hlt | Hge']; [lia | reflexivity].
Qed.

Lemma swap_loop_done i slippage submitted signature effects submitted' :
  i < maxRetries ->
  try_swap slippage submitted = (Resolved signature, effects, submitted') ->
  loop i slippage submitted = (Resolved (Some signature), effects).
Proof.
  intros Hlt Htry. simp swap_loop.
  destruct (Z_lt_ge_dec i maxRetries) as [Hlt' | Hge]; [| lia].
  simp swap_loop. rewrite Htry. simp swap_loop. reflexivity.
Qed.

Lemma swap_loop_retry i slippage submitted error effects submitted' :
  i < maxRetries ->
  try_swap slippage submitted = (Rejected error, effects, submitted') ->
  Troubleshooting.includes (message error) "slippage" = true ->
  loop i slippage submitted =
    (fst (loop (i + 1) (slippage + 0.5)%Q submitted'),
     effects ++ [EvLog (LogRetryWithSlippage (slippage + 0.5)%Q)]
     ++ snd (loop (i + 1) (slippage + 0.5)%Q submitted')).
Proof.
  intros Hlt Htry Hincl.
  set (rest := loop (i + 1) (slippage + 0.5)%Q submitted').
  rewrite Troubleshooting.swap_loop_equation_1.
  destruct (Z_lt_ge_dec i maxRetries) as [Hlt' | Hge]; [| lia].
  cbn [Troubleshooting.swap_loop_unfold_clause_1].
  rewrite Htry.
  cbn [Troubleshooting.swap_loop_unfold_clause_1_clause_2].
  rewrite Hincl. reflexivity.
Qed.

Lemma swap_loop_rethrow i slippage submitted error effects submitted' :
  i < maxRetries ->
  try_swap slippage submitted = (Rejected error, effects, submitted') ->
  Troubleshooting.includes (message error) "slippage" = false ->
  loop i slippage submitted = (Rejected error, effects).
Proof.
  intros Hlt Htry Hincl.
  rewrite Troubleshooting.swap_loop_equation_1.
  destruct (Z_lt_ge_dec i maxRetries) as [Hlt' | Hge]; [| lia].
  cbn [Troubleshooting.swap_loop_unfold_clause_1].
  rewrite Htry.
  cbn [Troubleshooting.swap_loop_unfold_clause_1_clause_2].
  rewrite Hincl. reflexivity.
Qed.

(** Every pass through the [try] block asks for exactly one quote, at the
    current slippage. *)
Lemma try_swap_quoted slippage submitted :
  quoted (snd (fst (try_swap slippage submitted))) = [(slippage * 100)%Q].
Proof.
  unfold Troubleshooting.try_swap.
  destruct (getSwapQuote submitted params (slippage * 100)%Q) as [quote | error];
    [destruct (swap (submitted + 1) quote) |]; reflexivity.
Qed.

Lemma arguments_app (pre rest : list (event (Troubleshooting.SdkCall SwapParams Quote))) :
  arguments (pre ++ rest) = arguments pre ++ arguments rest.
Proof.
  induction pre as [| ev pre IH]; [reflexivity |].
  destruct ev; cbn; rewrite ?IH; reflexivity.
Qed.

Lemma quote_tolerances_app (pre rest : list (Troubleshooting.SdkCall SwapParams Quote)) :
  Troubleshooting.quote_tolerances (pre ++ rest)
  = Troubleshooting.quote_tolerances pre ++ Troubleshooting.quote_tolerances rest.
Proof.
  induction pre as [| c pre IH]; [reflexivity |].
  destruct c; cbn; rewrite ?IH; reflexivity.
Qed.

(** The quotes of the loop started at [slippage]: the first one, if any,
    is asked at [slippage * 100], and each later one 50 basis points
    above the one before. *)
Lemma swap_loop_quoted i slippage submitted :
  (quoted (snd (loop i slippage submitted)) = []
   \/ exists later,
        quoted (snd (loop i slippage submitted)) = (slippage * 100)%Q :: later)
  /\ Troubleshooting.increases_by 50
       (quoted (snd (loop i slippage submitted))) = true.
Proof.
  remember (Z.to_nat (maxRetries - i)) as fuel eqn:Hfuel.
  revert i slippage submitted Hfuel.
  induction fuel as [| fuel IH]; intros i slippage submitted Hfuel.
  - rewrite swap_loop_exit by lia. cbn. auto.
  - pose proof (try_swap_quoted slippage submitted) as Hq.
    destruct (try_swap slippage submitted) as [[[signature | error] effects] submitted']
      eqn:Htry; cbn [fst snd] in Hq.
    + rewrite (swap_loop_done _ _ _ signature effects submitted') by (lia || assumption).
      cbn [snd]. rewrite Hq. split; [right; exists []; reflexivity | reflexivity].
    + destruct (Troubleshooting.includes (message error) "slippage") eqn:Hincl.
      * rewrite (swap_loop_retry _ _ _ error effects submitted') by (lia || assumption).
        cbn [snd].
        destruct (IH (i + 1) (slippage + 0.5)%Q submitted' ltac:(lia)) as (Hhead & Hsteps).
        rewrite !arguments_app, !quote_tolerances_app, Hq. cbn [arguments app].
        change (Troubleshooting.quote_tolerances (@nil _)) with (@nil Q).
        cbn [app].
        split; [right; eexists; reflexivity |].
        destruct Hhead as [Hnone | (later & Hsome)].
        -- rewrite Hnone. reflexivity.
        -- rewrite Hsome in *. cbn [Troubleshooting.increases_by].
           cbn [Troubleshooting.increases_by] in Hsteps.
           apply andb_true_intro. split; [| exact Hsteps].
           apply Qeq_bool_iff. ring.
      * rewrite (swap_loop_rethrow _ _ _ error effects submitted') by (lia || assumption).
        cbn [snd]. rewrite Hq. split; [right; exists []; reflexivity | reflexivity].
Qed.

(** The loop never surfaces a failure whose message mentions slippage. *)
Lemma swap_loop_rejected i slippage submitted e :
  fst (loop i slippage submitted) = Rejected e ->
  Troubleshooting.includes (message e) "slippage" = false.
Proof.
  remember (Z.to_nat (maxRetries - i)) as fuel eqn:Hfuel.
  revert i slippage submitted Hfuel.
  induction fuel as [| fuel IH]; intros i slippage submitted Hfuel.
  - rewrite swap_loop_exit by lia. discriminate.
  - destruct (try_swap slippage submitted) as [[[signature | error] effects] submitted']
      eqn:Htry.
    + rewrite (swap_loop_done _ _ _ signature effects submitted') by (lia || assumption).
      discriminate.
    + destruct (Troubleshooting.includes (message error) "slippage") eqn:Hincl.
      * rewrite (swap_loop_retry _ _ _ error effects submitted') by (lia || assumption).
        cbn [fst]. apply IH. lia.
      * rewrite (swap_loop_rethrow _ _ _ error effects submitted') by (lia || assumption).
        cbn [fst]. intros He. injection He as <-. exact Hincl.
Qed.
End SwapWithRetryFacts.

(** ** Facts about [calculateDynamicSlippage] *)

Lemma Qgt_bool_true x y : Troubleshooting.Qgt_bool x y = true -> (y < x)%Q.
Proof.
  unfold Troubleshooting.Qgt_bool.
  destruct (x ?= y)%Q eqn:Hcmp; try discriminate.
  intros _. apply Qgt_alt in Hcmp. exact Hcmp.
Qed.

Lemma Qgt_bool_false x y : Troubleshooting.Qgt_bool x y = false -> (x <= y)%Q.
Proof.
  unfold Troubleshooting.Qgt_bool.
  destruct (x ?= y)%Q eqn:Hcmp; try discriminate; intros _.
  - apply Qeq_alt in Hcmp. rewrite Hcmp. apply Qle_refl.
  - apply Qlt_alt in Hcmp. apply Qlt_le_weak. exact Hcmp.
Qed.

(** * The properties of the specification *)

(** C1: for every maxAttempts of at least 1 and every sequence of outcomes
    of the underlying operation, [executeSwapWithRetry] and the
    [sendAndConfirmWithRetry] loop invoke the underlying operation at most
    maxAttempts times. *)
Theorem retrying_submitters_call_at_most_maxAttempts :
  forall maxRetries : Z,
    1 <= maxRetries ->
    (forall number_to_string executeSwap inputMint outputMint amount wallet,
        Z.of_nat
          (calls (snd (BasicSwap.executeSwapWithRetry number_to_string executeSwap
                         inputMint outputMint amount wallet maxRetries)))
        <= maxRetries)
    /\ (forall sendAndConfirmTransaction connection transaction signers,
        Z.of_nat
          (calls (snd (Troubleshooting.sendAndConfirmWithRetry
                         sendAndConfirmTransaction connection transaction signers
                         maxRetries)))
        <= maxRetries).
Proof.
  intros maxRetries Hmax. split.
  - intros number_to_string executeSwap inputMint outputMint amount wallet.
    unfold BasicSwap.executeSwapWithRetry.
    pose proof (retry_loop_calls number_to_string executeSwap
                  inputMint outputMint amount wallet maxRetries 1 None 0).
    lia.
  - intros sendAndConfirmTransaction connection transaction signers.
    unfold Troubleshooting.sendAndConfirmWithRetry.
    pose proof (confirm_loop_calls sendAndConfirmTransaction
                  connection transaction signers maxRetries 0 0).
    lia.
Qed.

Lemma retrying_submitters_call_at_most_maxAttempts_witness :
  1 <= 3
  /\ Z.of_nat
       (calls (snd (BasicSwap.executeSwapWithRetry decimal swap_always_fails
                      SOL USDC 100000000 "wallet" 3)))
     <= 3
  /\ Z.of_nat
       (calls (snd (Troubleshooting.sendAndConfirmWithRetry (send_fails_first 1)
                      "https://api.devnet.solana.com" "transaction" ["wallet"] 3)))
     <= 3.
Proof.
  assert (H : 1 <= 3) by lia.
  split; [exact H |].
  destruct (retrying_submitters_call_at_most_maxAttempts 3 H) as [Hswap Hsend].
  split; [apply Hswap | apply Hsend].
Defined.

(** C2: if the underlying operation fails on the first k-1 attempts and
    succeeds on attempt k, with k at most maxRetries, [executeSwapWithRetry]
    returns the value of attempt k after exactly k calls, k-1 of them failed
    and one successful, and does nothing after that last call.  Attempt j
    is the submission made after j-1 earlier ones, at the slippage of
    attempt j. *)
Theorem executeSwapWithRetry_returns_first_success :
  forall number_to_string executeSwap inputMint outputMint amount wallet
         (maxRetries k : Z) (signature : TxSignature),
    1 <= k <= maxRetries ->
    (forall j, 1 <= j < k ->
       is_rejected
         (executeSwap (j - 1)
            (BasicSwap.mkSwapCall inputMint outputMint amount wallet
               (BasicSwap.slippageBps_of_attempt j))) = true) ->
    executeSwap (k - 1)
      (BasicSwap.mkSwapCall inputMint outputMint amount wallet
         (BasicSwap.slippageBps_of_attempt k)) = Resolved signature ->
    let run := BasicSwap.executeSwapWithRetry number_to_string executeSwap
                 inputMint outputMint amount wallet maxRetries in
    fst run = Resolved signature
    /\ Z.of_nat (calls (snd run)) = k
    /\ Z.of_nat (failures (snd run)) = k - 1
    /\ successes (snd run) = 1%nat
    /\ after_last_call (snd run) = [].
Proof.
  intros number_to_string executeSwap inputMint outputMint amount wallet
         maxRetries k signature Hk Hfail Hok run.
  subst run. unfold BasicSwap.executeSwapWithRetry.
  destruct (retry_loop_first_success number_to_string executeSwap
              inputMint outputMint amount wallet maxRetries
              k signature 1 None 0) as (Hr & Hc & Hf & Hs & Ha).
  - lia.
  - intros j Hj. replace (0 + (j - 1)) with (j - 1) by lia. apply Hfail. lia.
  - replace (0 + (k - 1)) with (k - 1) by lia. exact Hok.
  - repeat split; try assumption; lia.
Qed.

Lemma executeSwapWithRetry_returns_first_success_witness :
  let run := BasicSwap.executeSwapWithRetry decimal (swap_fails_first 2)
               SOL USDC 100000000 "wallet" 3 in
  fst run = Resolved "signature-3"
  /\ Z.of_nat (calls (snd run)) = 3
  /\ Z.of_nat (failures (snd run)) = 3 - 1
  /\ successes (snd run) = 1%nat
  /\ after_last_call (snd run) = [].
Proof.
  apply (executeSwapWithRetry_returns_first_success decimal (swap_fails_first 2)
           SOL USDC 100000000 "wallet" 3 3 "signature-3").
  - lia.
  - intros j Hj. assert (j = 1 \/ j = 2) as [-> | ->] by lia; reflexivity.
  - reflexivity.
Defined.

(** C3, as stated, fails: no ceiling is applied to the tolerance.  With 20
    permitted attempts that all fail, [executeSwapWithRetry] submits the last
    one at 525 basis points, above 5.0%; with 11 permitted attempts that all
    fail for slippage, [swapWithRetry] asks its last quote at 550 basis
    points. *)
Lemma tolerance_passes_five_percent_on_long_runs :
  let swaps :=
    BasicSwap.tolerances
      (snd (BasicSwap.executeSwapWithRetry decimal swap_always_fails
              SOL USDC 100000000 "wallet" 20)) in
  let quotes :=
    Troubleshooting.quote_tolerances
      (arguments
         (snd (Troubleshooting.swapWithRetry unit unit
                 quote_slippage_exceeded swap_goes_through tt 11))) in
  (In 525 swaps /\ ~ Forall (fun bps => bps <= 500) swaps)
  /\ (Exists (fun bps => bps == 550)%Q quotes
      /\ ~ Forall (fun bps => bps <= 500)%Q quotes).
Proof.
  intros swaps quotes.
  assert (Hswaps : In 525 swaps) by (vm_compute; tauto).
  assert (Hquotes : Exists (fun bps => bps == 550)%Q quotes).
  { apply Exists_exists.
    exists (last quotes 0%Q). split.
    - vm_compute. tauto.
    - vm_compute. reflexivity. }
  split; split; try assumption.
  - intros Hall. rewrite Forall_forall in Hall.
    specialize (Hall 525 Hswaps). lia.
  - intros Hall. rewrite Forall_forall in Hall.
    apply Exists_exists in Hquotes. destruct Hquotes as (bps & Hin & Hbps).
    specialize (Hall bps Hin). rewrite Hbps in Hall.
    revert Hall. vm_compute. intros Hle. apply Hle. reflexivity.
Qed.

(** C3, amended: across the attempts of one call the tolerance rises by a
    fixed step after each failed attempt, 25 basis points from 50 in
    [executeSwapWithRetry] and 50 basis points from 50 in [swapWithRetry]; it
    is not capped, so that every bound is passed by a long enough run of
    failures. *)
Theorem tolerance_rises_by_fixed_step_without_ceiling :
  (forall number_to_string executeSwap inputMint outputMint amount wallet maxRetries,
      let tr := snd (BasicSwap.executeSwapWithRetry number_to_string executeSwap
                       inputMint outputMint amount wallet maxRetries) in
      BasicSwap.tolerances tr
      = map (fun k => 50 + 25 * Z.of_nat k) (seq 0 (calls tr)))
  /\ (forall SwapParams Quote getSwapQuote swap params maxRetries,
      let quotes :=
        Troubleshooting.quote_tolerances
          (arguments
             (snd (Troubleshooting.swapWithRetry SwapParams Quote
                     getSwapQuote swap params maxRetries))) in
      (quotes = [] \/ exists later, quotes = (0.5 * 100)%Q :: later)
      /\ Troubleshooting.increases_by 50 quotes = true)
  /\ (forall ceiling : Z,
      exists maxRetries bps,
        In bps (BasicSwap.tolerances
                  (snd (BasicSwap.executeSwapWithRetry decimal swap_always_fails
                          SOL USDC 100000000 "wallet" maxRetries)))
        /\ ceiling < bps).
Proof.
  split; [| split].
  - intros number_to_string executeSwap inputMint outputMint amount wallet maxRetries tr.
    subst tr. unfold BasicSwap.executeSwapWithRetry.
    rewrite retry_loop_tolerances. apply map_ext. intros k.
    unfold BasicSwap.slippageBps_of_attempt. lia.
  - intros SwapParams Quote getSwapQuote swap params maxRetries quotes.
    subst quotes. unfold Troubleshooting.swapWithRetry.
    apply swap_loop_quoted.
  - intros ceiling.
    set (maxRetries := Z.max 1 ceiling + 1).
    exists maxRetries, (BasicSwap.slippageBps_of_attempt maxRetries).
    split.
    + unfold BasicSwap.executeSwapWithRetry.
      rewrite retry_loop_tolerances.
      destruct (retry_loop_all_fail decimal swap_always_fails
                  SOL USDC 100000000 "wallet" maxRetries
                  (fun j => mkError ("Transaction " ++ decimal (0 + (j - 1) + 1)
                                     ++ " was not confirmed in 60.00 seconds")%string)
                  1 None 0) as (_ & Hcalls & _).
      * subst maxRetries. lia.
      * intros j Hj. reflexivity.
      * apply in_map_iff. exists (Z.to_nat (maxRetries - 1)). split.
        -- f_equal. subst maxRetries. lia.
        -- apply in_seq. subst maxRetries. lia.
    + unfold BasicSwap.slippageBps_of_attempt. subst maxRetries. lia.
Qed.

(** C4: if the underlying operation fails on every one of the maxAttempts
    attempts, [executeSwapWithRetry] rejects with the exhaustion error, whose
    message carries the message of the error of the final attempt, and
    [sendAndConfirmWithRetry] rejects with the error of the final attempt.
    Neither rejects in any other way: a rejection means that all maxAttempts
    attempts were made and failed, and it is built from the last error
    only. *)
Theorem exhaustion_surfaces_the_final_error :
  forall maxRetries : Z,
    1 <= maxRetries ->
    (forall number_to_string executeSwap inputMint outputMint amount wallet
            (errs : Z -> Error),
        (forall j, 1 <= j <= maxRetries ->
           executeSwap (j - 1)
             (BasicSwap.mkSwapCall inputMint outputMint amount wallet
                (BasicSwap.slippageBps_of_attempt j)) = Rejected (errs j)) ->
        fst (BasicSwap.executeSwapWithRetry number_to_string executeSwap
               inputMint outputMint amount wallet maxRetries)
        = Rejected
            (mkError ("All " ++ number_to_string maxRetries
                      ++ " attempts failed. Last error: "
                      ++ message (errs maxRetries))%string))
    /\ (forall number_to_string executeSwap inputMint outputMint amount wallet e,
        let run := BasicSwap.executeSwapWithRetry number_to_string executeSwap
                     inputMint outputMint amount wallet maxRetries in
        fst run = Rejected e ->
        e = BasicSwap.all_attempts_failed number_to_string maxRetries
              (last_error None (snd run))
        /\ successes (snd run) = 0%nat
        /\ Z.of_nat (failures (snd run)) = maxRetries)
    /\ (forall sendAndConfirmTransaction connection transaction signers
               (errs : Z -> Error),
        (forall j, 1 <= j <= maxRetries ->
           sendAndConfirmTransaction (j - 1)
             (Troubleshooting.send_call connection transaction signers)
           = Rejected (errs j)) ->
        fst (Troubleshooting.sendAndConfirmWithRetry sendAndConfirmTransaction
               connection transaction signers maxRetries)
        = Rejected (errs maxRetries))
    /\ (forall sendAndConfirmTransaction connection transaction signers e,
        let run := Troubleshooting.sendAndConfirmWithRetry sendAndConfirmTransaction
                     connection transaction signers maxRetries in
        fst run = Rejected e ->
        last_error None (snd run) = Some e
        /\ successes (snd run) = 0%nat
        /\ Z.of_nat (failures (snd run)) = maxRetries).
Proof.
  intros maxRetries Hmax. split; [| split; [| split]].
  - intros number_to_string executeSwap inputMint outputMint amount wallet errs Hfail.
    unfold BasicSwap.executeSwapWithRetry.
    destruct (retry_loop_all_fail number_to_string executeSwap
                inputMint outputMint amount wallet maxRetries errs 1 None 0)
      as (Hr & _); [lia | | exact Hr].
    intros j Hj. replace (0 + (j - 1)) with (j - 1) by lia. apply Hfail. lia.
  - intros number_to_string executeSwap inputMint outputMint amount wallet e run.
    subst run. unfold BasicSwap.executeSwapWithRetry. intros Hrej.
    apply retry_loop_rejected in Hrej. destruct Hrej as (He & Hs & Hc).
    rewrite calls_split in Hc. repeat split; try assumption; lia.
  - intros sendAndConfirmTransaction connection transaction signers errs Hfail.
    unfold Troubleshooting.sendAndConfirmWithRetry.
    destruct (confirm_loop_all_fail sendAndConfirmTransaction
                connection transaction signers maxRetries errs 0 0)
      as (Hr & _); [lia | | exact Hr].
    intros j Hj. replace (0 + (j - 0 - 1)) with (j - 1) by lia. apply Hfail. lia.
  - intros sendAndConfirmTransaction connection transaction signers e run.
    subst run. unfold Troubleshooting.sendAndConfirmWithRetry. intros Hrej.
    apply confirm_loop_rejected in Hrej. destruct Hrej as (He & Hs & Hc & _).
    rewrite calls_split in Hc. repeat split; try assumption; lia.
Qed.

Lemma exhaustion_surfaces_the_final_error_witness :
  1 <= 3
  /\ fst (BasicSwap.executeSwapWithRetry decimal swap_always_fails
            SOL USDC 100000000 "wallet" 3)
     = Rejected
         (mkError
            "All 3 attempts failed. Last error: Transaction 3 was not confirmed in 60.00 seconds")
  /\ fst (Troubleshooting.sendAndConfirmWithRetry (send_fails_first 3)
            "https://api.devnet.solana.com" "transaction" ["wallet"] 3)
     = Rejected (mkError "Transaction 3 was not confirmed in 60.00 seconds").
Proof.
  assert (H : 1 <= 3) by lia.
  split; [exact H |].
  destruct (exhaustion_surfaces_the_final_error 3 H) as (Hswap & _ & Hsend & _).
  split.
  - apply (Hswap decimal swap_always_fails SOL USDC 100000000 "wallet"
             (fun j => mkError ("Transaction " ++ decimal (j - 1 + 1)
                                ++ " was not confirmed in 60.00 seconds")%string)).
    intros j Hj. reflexivity.
  - apply (Hsend (send_fails_first 3)
             "https://api.devnet.solana.com" "transaction" ["wallet"]
             (fun j => mkError ("Transaction " ++ decimal (j - 1 + 1)
                                ++ " was not confirmed in 60.00 seconds")%string)).
    intros j Hj.
    assert (j = 1 \/ j = 2 \/ j = 3) as [-> | [-> | ->]] by lia; reflexivity.
Defined.

(** C5, as stated, fails on [swapWithRetry]: with three permitted attempts
    and an unreachable endpoint, the connection error of the first quote is
    rethrown at once, after a single call. *)
Lemma swapWithRetry_rethrows_connection_error_at_once :
  let run := Troubleshooting.swapWithRetry unit unit
               quote_rpc_down swap_goes_through tt 3 in
  fst run = Rejected (mkError "Failed to connect to RPC endpoint")
  /\ calls (snd run) = 1%nat
  /\ Z.of_nat (calls (snd run)) < 3.
Proof. vm_compute. repeat split. Qed.

(** C5, amended: [executeSwapWithRetry] and [sendAndConfirmWithRetry] treat
    every failure of the underlying operation alike, whatever its error: a
    failed attempt below the limit is followed by another attempt, and the
    caller sees a rejection only once all maxRetries attempts have been made.
    [swapWithRetry] retries only a failure whose message contains
    [slippage], and rethrows any other failure at once. *)
Theorem failures_retried_except_non_slippage_in_swapWithRetry :
  forall maxRetries : Z,
    1 <= maxRetries ->
    (forall number_to_string executeSwap inputMint outputMint amount wallet k,
        1 <= k < maxRetries ->
        (forall j, 1 <= j <= k ->
           is_rejected
             (executeSwap (j - 1)
                (BasicSwap.mkSwapCall inputMint outputMint amount wallet
                   (BasicSwap.slippageBps_of_attempt j))) = true) ->
        k + 1 <= Z.of_nat
                   (calls (snd (BasicSwap.executeSwapWithRetry number_to_string
                                  executeSwap inputMint outputMint amount wallet
                                  maxRetries))))
    /\ (forall number_to_string executeSwap inputMint outputMint amount wallet e,
        let run := BasicSwap.executeSwapWithRetry number_to_string executeSwap
                     inputMint outputMint amount wallet maxRetries in
        fst run = Rejected e -> Z.of_nat (calls (snd run)) = maxRetries)
    /\ (forall sendAndConfirmTransaction connection transaction signers e,
        let run := Troubleshooting.sendAndConfirmWithRetry sendAndConfirmTransaction
                     connection transaction signers maxRetries in
        fst run = Rejected e -> Z.of_nat (calls (snd run)) = maxRetries)
    /\ (forall SwapParams Quote getSwapQuote swap params
               i slippage submitted error effects submitted',
        i < maxRetries ->
        Troubleshooting.try_swap SwapParams Quote getSwapQuote swap params
          slippage submitted = (Rejected error, effects, submitted') ->
        Troubleshooting.includes (message error) "slippage" = false ->
        Troubleshooting.swap_loop SwapParams Quote getSwapQuote swap params
          maxRetries i slippage submitted = (Rejected error, effects))
    /\ (forall SwapParams Quote getSwapQuote swap params
               i slippage submitted error effects submitted',
        i < maxRetries ->
        Troubleshooting.try_swap SwapParams Quote getSwapQuote swap params
          slippage submitted = (Rejected error, effects, submitted') ->
        Troubleshooting.includes (message error) "slippage" = true ->
        let next := Troubleshooting.swap_loop SwapParams Quote getSwapQuote swap
                      params maxRetries (i + 1) (slippage + 0.5)%Q submitted' in
        Troubleshooting.swap_loop SwapParams Quote getSwapQuote swap params
          maxRetries i slippage submitted
        = (fst next,
           effects ++ [EvLog (LogRetryWithSlippage (slippage + 0.5)%Q)] ++ snd next))
    /\ (forall SwapParams Quote getSwapQuote swap params e,
        fst (Troubleshooting.swapWithRetry SwapParams Quote getSwapQuote swap
               params maxRetries) = Rejected e ->
        Troubleshooting.includes (message e) "slippage" = false).
Proof.
  intros maxRetries Hmax. split; [| split; [| split; [| split; [| split]]]].
  - intros number_to_string executeSwap inputMint outputMint amount wallet k Hk Hfail.
    unfold BasicSwap.executeSwapWithRetry.
    pose proof (retry_loop_failures_retried number_to_string executeSwap
                  inputMint outputMint amount wallet maxRetries k 1 None 0) as Hretried.
    assert (k - 1 + 2
            <= Z.of_nat
                 (calls (snd (BasicSwap.retry_loop number_to_string executeSwap
                                inputMint outputMint amount wallet maxRetries
                                1 None 0)))); [| lia].
    apply Hretried; [lia |].
    intros j Hj. replace (0 + (j - 1)) with (j - 1) by lia. apply Hfail. lia.
  - intros number_to_string executeSwap inputMint outputMint amount wallet e run.
    subst run. unfold BasicSwap.executeSwapWithRetry. intros Hrej.
    apply retry_loop_rejected in Hrej. lia.
  - intros sendAndConfirmTransaction connection transaction signers e run.
    subst run. unfold Troubleshooting.sendAndConfirmWithRetry. intros Hrej.
    apply confirm_loop_rejected in Hrej. lia.
  - intros SwapParams Quote getSwapQuote swap params
           i slippage submitted error effects submitted' Hlt Htry Hincl.
    apply (swap_loop_rethrow _ _ _ _ _ _ _ _ _ error effects submitted');
      assumption.
  - intros SwapParams Quote getSwapQuote swap params
           i slippage submitted error effects submitted' Hlt Htry Hincl next.
    subst next.
    apply (swap_loop_retry _ _ _ _ _ _ _ _ _ error effects submitted');
      assumption.
  - intros SwapParams Quote getSwapQuote swap params e.
    unfold Troubleshooting.swapWithRetry. apply swap_loop_rejected.
Qed.

Lemma failures_retried_except_non_slippage_in_swapWithRetry_witness :
  1 <= 3
  /\ 2 + 1 <= Z.of_nat
                (calls (snd (BasicSwap.executeSwapWithRetry decimal
                               (swap_fails_first 2) SOL USDC 100000000 "wallet" 3)))
  /\ Troubleshooting.swapWithRetry unit unit quote_rpc_down swap_goes_through tt 3
     = (Rejected (mkError "Failed to connect to RPC endpoint"),
        [EvCall (Troubleshooting.CallGetSwapQuote tt (0.5 * 100)%Q)
           (Some (mkError "Failed to connect to RPC endpoint"))]).
Proof.
  assert (H : 1 <= 3) by lia.
  split; [exact H |].
  destruct (failures_retried_except_non_slippage_in_swapWithRetry 3 H)
    as (Hretry & _ & _ & Hrethrow & _ & _).
  split.
  - apply (Hretry decimal (swap_fails_first 2) SOL USDC 100000000 "wallet" 2).
    + lia.
    + intros j Hj. assert (j = 1 \/ j = 2) as [-> | ->] by lia; reflexivity.
  - apply (Hrethrow unit unit quote_rpc_down swap_goes_through tt
             0 0.5%Q 0 (mkError "Failed to connect to RPC endpoint") _ 1).
    + lia.
    + reflexivity.
    + reflexivity.
Defined.

(** C6, as stated, fails: with three permitted attempts that all fail,
    [executeSwapWithRetry] submits at 50, 75 and 100 basis points (0.5%,
    0.75%, 1%), not at 0.5%, 1.0% and 1.5%. *)
Lemma three_failed_attempts_are_not_submitted_at_50_100_150 :
  BasicSwap.tolerances
    (snd (BasicSwap.executeSwapWithRetry decimal swap_always_fails
            SOL USDC 100000000 "wallet" 3))
  <> [50; 100; 150].
Proof. vm_compute. discriminate. Qed.

(** C6, amended: with maxRetries = 3 and an operation that always fails,
    [executeSwapWithRetry] makes exactly 3 calls, at 50, 75 and 100 basis
    points (0.5%, 0.75%, 1%), and rejects with the exhaustion error carrying
    the message of the failure of attempt 3. *)
Theorem three_failed_attempts_scenario :
  forall number_to_string executeSwap inputMint outputMint amount wallet,
    (forall submitted c, is_rejected (executeSwap submitted c) = true) ->
    let run := BasicSwap.executeSwapWithRetry number_to_string executeSwap
                 inputMint outputMint amount wallet 3 in
    calls (snd run) = 3%nat
    /\ BasicSwap.tolerances (snd run) = [50; 75; 100]
    /\ exists third,
        executeSwap 2
          (BasicSwap.mkSwapCall inputMint outputMint amount wallet 100)
        = Rejected third
        /\ fst run
           = Rejected
               (mkError ("All " ++ number_to_string 3
                         ++ " attempts failed. Last error: "
                         ++ message third)%string).
Proof.
  intros number_to_string executeSwap inputMint outputMint amount wallet Hfail run.
  set (call_of := fun attempt =>
         BasicSwap.mkSwapCall inputMint outputMint amount wallet
           (BasicSwap.slippageBps_of_attempt attempt)).
  set (errs := fun j =>
         match rejection (executeSwap (j - 1) (call_of j)) with
         | Some e => e
         | None => mkError ""
         end).
  assert (Hall : forall j, 1 <= j <= 3 ->
            executeSwap (0 + (j - 1)) (call_of j) = Rejected (errs j)).
  { intros j _. unfold errs. replace (0 + (j - 1)) with (j - 1) by lia.
    specialize (Hfail (j - 1) (call_of j)).
    destruct (executeSwap (j - 1) (call_of j)); [discriminate | reflexivity]. }
  destruct (retry_loop_all_fail number_to_string executeSwap
              inputMint outputMint amount wallet 3 errs 1 None 0 ltac:(lia) Hall)
    as (Hr & Hc & _).
  subst run. unfold BasicSwap.executeSwapWithRetry.
  assert (Hcalls : calls (snd (BasicSwap.retry_loop number_to_string executeSwap
                                 inputMint outputMint amount wallet 3 1 None 0))
                   = 3%nat) by lia.
  split; [exact Hcalls | split].
  - rewrite retry_loop_tolerances, Hcalls. reflexivity.
  - exists (errs 3). split; [| exact Hr].
    exact (Hall 3 ltac:(lia)).
Qed.

Lemma three_failed_attempts_scenario_witness :
  let run := BasicSwap.executeSwapWithRetry decimal swap_always_fails
               SOL USDC 100000000 "wallet" 3 in
  calls (snd run) = 3%nat
  /\ BasicSwap.tolerances (snd run) = [50; 75; 100]
  /\ exists third,
      swap_always_fails 2 (BasicSwap.mkSwapCall SOL USDC 100000000 "wallet" 100)
      = Rejected third
      /\ fst run
         = Rejected
             (mkError ("All " ++ decimal 3
                       ++ " attempts failed. Last error: "
                       ++ message third)%string).
Proof.
  apply (three_failed_attempts_scenario decimal swap_always_fails
           SOL USDC 100000000 "wallet").
  intros submitted c. reflexivity.
Defined.

(** C7: the fixed delay of 2000 ms is taken only between two consecutive
    attempts.  In [executeSwapWithRetry] and in [sendAndConfirmWithRetry]
    every delay follows a failed call and is followed by another call, no
    delay follows a successful call or the last call of the run, and the
    number of delays is the number of failed attempts that are not the final
    permitted one. *)
Theorem delay_only_between_attempts :
  (forall number_to_string executeSwap inputMint outputMint amount wallet maxRetries,
      let tr := snd (BasicSwap.executeSwapWithRetry number_to_string executeSwap
                       inputMint outputMint amount wallet maxRetries) in
      delays tr = failed_nonfinal maxRetries 1 tr
      /\ delays_between_attempts NoCallYet tr = true
      /\ Forall (fun ms => ms = 2000) (delay_durations tr))
  /\ (forall sendAndConfirmTransaction connection transaction signers maxRetries,
      let tr := snd (Troubleshooting.sendAndConfirmWithRetry
                       sendAndConfirmTransaction connection transaction signers
                       maxRetries) in
      delays tr = failed_nonfinal maxRetries 1 tr
      /\ delays_between_attempts NoCallYet tr = true
      /\ Forall (fun ms => ms = 2000) (delay_durations tr)).
Proof.
  split.
  - intros number_to_string executeSwap inputMint outputMint amount wallet maxRetries tr.
    subst tr. unfold BasicSwap.executeSwapWithRetry.
    split; [apply retry_loop_delays | split].
    + apply retry_loop_spacing; [discriminate | discriminate].
    + apply retry_loop_delay_durations.
  - intros sendAndConfirmTransaction connection transaction signers maxRetries tr.
    subst tr. unfold Troubleshooting.sendAndConfirmWithRetry.
    split; [apply (confirm_loop_delays _ _ _ _ _ 0 0) | split].
    + apply confirm_loop_spacing; [discriminate | discriminate].
    + apply confirm_loop_delay_durations.
Qed.

(** C10: called with maxRetries below 1, [executeSwapWithRetry] does not
    invoke the underlying operation and still rejects with the exhaustion
    error, built without a last error: [lastError] is still [null] and its
    message prints as [undefined]. *)
Theorem executeSwapWithRetry_without_attempts :
  forall number_to_string executeSwap inputMint outputMint amount wallet
         (maxRetries : Z),
    maxRetries < 1 ->
    let run := BasicSwap.executeSwapWithRetry number_to_string executeSwap
                 inputMint outputMint amount wallet maxRetries in
    calls (snd run) = 0%nat
    /\ snd run = []
    /\ last_error None (snd run) = None
    /\ fst run
       = Rejected
           (mkError ("All " ++ number_to_string maxRetries
                     ++ " attempts failed. Last error: undefined")%string).
Proof.
  intros number_to_string executeSwap inputMint outputMint amount wallet
         maxRetries Hmax run.
  subst run. unfold BasicSwap.executeSwapWithRetry.
  rewrite retry_loop_exit by lia. cbn. repeat split.
Qed.

Lemma executeSwapWithRetry_without_attempts_witness :
  let run := BasicSwap.executeSwapWithRetry decimal (swap_fails_first 0)
               SOL USDC 100000000 "wallet" 0 in
  calls (snd run) = 0%nat
  /\ snd run = []
  /\ last_error None (snd run) = None
  /\ fst run
     = Rejected (mkError "All 0 attempts failed. Last error: undefined").
Proof.
  apply (executeSwapWithRetry_without_attempts decimal (swap_fails_first 0)
           SOL USDC 100000000 "wallet" 0).
  lia.
Defined.

(** C8: for non-negative arguments [calculateDynamicSlippage] returns a
    value between the base 0.5 and the cap 5.0, and it is monotonically
    non-decreasing in both arguments. *)
Theorem calculateDynamicSlippage_bounded_and_monotone :
  forall priceImpact volatility priceImpact' volatility' : Q,
    (0 <= priceImpact)%Q ->
    (0 <= volatility)%Q ->
    (priceImpact <= priceImpact')%Q ->
    (volatility <= volatility')%Q ->
    (0.5 <= Troubleshooting.calculateDynamicSlippage priceImpact volatility)%Q
    /\ (Troubleshooting.calculateDynamicSlippage priceImpact volatility <= 5.0)%Q
    /\ (Troubleshooting.calculateDynamicSlippage priceImpact volatility
        <= Troubleshooting.calculateDynamicSlippage priceImpact' volatility')%Q.
Proof.
  intros priceImpact volatility priceImpact' volatility' Hp Hv Hpp Hvv.
  unfold Troubleshooting.calculateDynamicSlippage.
  destruct (Troubleshooting.Qgt_bool priceImpact 2) eqn:H2;
    destruct (Troubleshooting.Qgt_bool priceImpact 5) eqn:H5;
    destruct (Troubleshooting.Qgt_bool priceImpact' 2) eqn:H2';
    destruct (Troubleshooting.Qgt_bool priceImpact' 5) eqn:H5';
    cbv zeta;
    repeat match goal with
           | H : Troubleshooting.Qgt_bool _ _ = true |- _ => apply Qgt_bool_true in H
           | H : Troubleshooting.Qgt_bool _ _ = false |- _ => apply Qgt_bool_false in H
           end;
    (split; [apply Q.min_glb; lra | split; [apply Q.le_min_r |]]);
    (apply Q.min_glb; [eapply Qle_trans; [apply Q.le_min_l | lra] | apply Q.le_min_r]).
Qed.

Lemma calculateDynamicSlippage_bounded_and_monotone_witness :
  (0.5 <= Troubleshooting.calculateDynamicSlippage 3 10)%Q
  /\ (Troubleshooting.calculateDynamicSlippage 3 10 <= 5.0)%Q
  /\ (Troubleshooting.calculateDynamicSlippage 3 10
      <= Troubleshooting.calculateDynamicSlippage 6 100)%Q.
Proof.
  apply (calculateDynamicSlippage_bounded_and_monotone 3 10 6 100);
    vm_compute; discriminate.
Defined.

(** C9: for every active bin and every strategy, [calculatePositionParams]
    returns a range symmetric about the active bin, with the lower bin
    strictly below the upper bin, of half-width 5, 10 or 20 bins for tight,
    medium and wide, whatever the bin step; a missing strategy is medium. *)
Theorem calculatePositionParams_symmetric_range :
  forall (activeBin binStep : Z) (strategy : Dlmm.Strategy),
    let range := Dlmm.calculatePositionParams activeBin binStep (Some strategy) in
    Dlmm.lowerBin range + Dlmm.upperBin range = 2 * activeBin
    /\ Dlmm.lowerBin range < Dlmm.upperBin range
    /\ Dlmm.upperBin range - activeBin
       = match strategy with Dlmm.tight => 5 | Dlmm.medium => 10 | Dlmm.wide => 20 end
    /\ activeBin - Dlmm.lowerBin range
       = match strategy with Dlmm.tight => 5 | Dlmm.medium => 10 | Dlmm.wide => 20 end
    /\ (forall binStep',
          Dlmm.calculatePositionParams activeBin binStep' (Some strategy) = range)
    /\ Dlmm.calculatePositionParams activeBin binStep None
       = Dlmm.calculatePositionParams activeBin binStep (Some Dlmm.medium).
Proof.
  intros activeBin binStep strategy range. subst range.
  unfold Dlmm.calculatePositionParams.
  destruct strategy; cbn [Dlmm.lowerBin Dlmm.upperBin Dlmm.ranges];
    repeat split; try reflexivity; lia.
Qed.

(** * Further properties of the scripts *)

(** ** The retrying submitters *)

(** The fields of the calls of [executeSwapWithRetry] other than the
    slippage. *)
Lemma executeSwapWithRetry_arguments
  number_to_string executeSwap inputMint outputMint amount wallet maxRetries :
  Forall (fun c =>
            BasicSwap.call_inputMint c = inputMint
            /\ BasicSwap.call_outputMint c = outputMint
            /\ BasicSwap.call_amount c = amount
            /\ BasicSwap.call_wallet c = wallet)
         (arguments
            (snd (BasicSwap.executeSwapWithRetry number_to_string executeSwap
                    inputMint outputMint amount wallet maxRetries))).
Proof.
  unfold BasicSwap.executeSwapWithRetry.
  apply retry_loop_induction with
    (P := fun _ _ _ run =>
            Forall (fun c =>
                      BasicSwap.call_inputMint c = inputMint
                      /\ BasicSwap.call_outputMint c = outputMint
                      /\ BasicSwap.call_amount c = amount
                      /\ BasicSwap.call_wallet c = wallet)
                   (arguments (snd run))).
  - intros. constructor.
  - intros attempt lastError submitted signature Hle Hcall.
    cbn [snd arguments]. constructor; [cbn; auto | constructor].
  - intros attempt lastError submitted error Hle Hcall IH. cbn [snd] in *.
    unfold BasicSwap.failed_iteration.
    destruct (attempt <? maxRetries); cbn [app arguments];
      (constructor; [cbn; auto | exact IH]).
Qed.

(** X1: [executeSwapWithRetry] hands the same mints, amount and wallet to
    every attempt; only the slippage changes between attempts. *)
Theorem executeSwapWithRetry_changes_only_the_slippage :
  forall number_to_string executeSwap inputMint outputMint amount wallet maxRetries,
    Forall (fun c =>
              BasicSwap.call_inputMint c = inputMint
              /\ BasicSwap.call_outputMint c = outputMint
              /\ BasicSwap.call_amount c = amount
              /\ BasicSwap.call_wallet c = wallet)
           (arguments
              (snd (BasicSwap.executeSwapWithRetry number_to_string executeSwap
                      inputMint outputMint amount wallet maxRetries))).
Proof. exact executeSwapWithRetry_arguments. Qed.

(** X2: [sendAndConfirmWithRetry] submits the very same transaction, with
    the same signers and options, at every attempt. *)
Theorem sendAndConfirmWithRetry_resubmits_the_same_transaction :
  forall sendAndConfirmTransaction connection transaction signers maxRetries,
    Forall (fun c =>
              c = Troubleshooting.mkSendCall connection transaction signers
                    "confirmed" 5)
           (arguments
              (snd (Troubleshooting.sendAndConfirmWithRetry sendAndConfirmTransaction
                      connection transaction signers maxRetries))).
Proof.
  intros sendAndConfirmTransaction connection transaction signers maxRetries.
  unfold Troubleshooting.sendAndConfirmWithRetry.
  apply confirm_loop_induction with
    (P := fun _ _ run =>
            Forall (fun c =>
                      c = Troubleshooting.mkSendCall connection transaction signers
                            "confirmed" 5)
                   (arguments (snd run))).
  - intros. constructor.
  - intros. cbn [snd arguments]. constructor; [reflexivity | constructor].
  - intros attempt submitted error Hlt Hcall IH. cbn [snd app arguments] in *.
    constructor; [reflexivity | exact IH].
  - intros. cbn [snd arguments]. constructor; [reflexivity | constructor].
Qed.

(** X3: called with maxRetries below 1, [sendAndConfirmWithRetry] submits
    nothing and returns [undefined]: unlike [executeSwapWithRetry] it does
    not throw. *)
Theorem sendAndConfirmWithRetry_without_attempts :
  forall sendAndConfirmTransaction connection transaction signers (maxRetries : Z),
    maxRetries < 1 ->
    Troubleshooting.sendAndConfirmWithRetry sendAndConfirmTransaction
      connection transaction signers maxRetries
    = (Resolved None, []).
Proof.
  intros sendAndConfirmTransaction connection transaction signers maxRetries Hmax.
  unfold Troubleshooting.sendAndConfirmWithRetry.
  apply confirm_loop_exit. lia.
Qed.

Lemma sendAndConfirmWithRetry_without_attempts_witness :
  Troubleshooting.sendAndConfirmWithRetry (send_fails_first 0)
    "https://api.devnet.solana.com" "transaction" ["wallet"] 0
  = (Resolved None, []).
Proof.
  apply (sendAndConfirmWithRetry_without_attempts (send_fails_first 0)
           "https://api.devnet.solana.com" "transaction" ["wallet"] 0).
  lia.
Defined.

(** The loop of [swapWithRetry] when every quote that is left fails for
    slippage. *)
Lemma swap_loop_all_slippage SwapParams Quote
  (getSwapQuote : Z -> SwapParams -> Q -> outcome Quote)
  (swap : Z -> Quote -> outcome TxSignature) params maxRetries :
  (forall n bps,
      exists e,
        getSwapQuote n params bps = Rejected e
        /\ Troubleshooting.includes (message e) "slippage" = true) ->
  forall i slippage submitted,
    fst (Troubleshooting.swap_loop SwapParams Quote getSwapQuote swap params
           maxRetries i slippage submitted) = Resolved None
    /\ Z.of_nat
         (List.length
            (Troubleshooting.quote_tolerances
               (arguments
                  (snd (Troubleshooting.swap_loop SwapParams Quote getSwapQuote
                          swap params maxRetries i slippage submitted)))))
       = Z.max 0 (maxRetries - i)
    /\ successes (snd (Troubleshooting.swap_loop SwapParams Quote getSwapQuote
                         swap params maxRetries i slippage submitted)) = 0%nat.
Proof.
  intros Hfail i.
  remember (Z.to_nat (maxRetries - i)) as fuel eqn:Hfuel.
  revert i Hfuel.
  induction fuel as [| fuel IH]; intros i Hfuel slippage submitted.
  - rewrite swap_loop_exit by lia. cbn. repeat split; lia.
  - destruct (Hfail submitted (slippage * 100)%Q) as (e & Hquote & Hincl).
    assert (Htry : Troubleshooting.try_swap SwapParams Quote getSwapQuote swap
                     params slippage submitted
                   = (Rejected e,
                      [EvCall (Troubleshooting.CallGetSwapQuote params
                                 (slippage * 100)%Q) (Some e)],
                      submitted + 1)).
    { unfold Troubleshooting.try_swap. rewrite Hquote. reflexivity. }
    assert (Hlt : i < maxRetries) by lia.
    rewrite (swap_loop_retry _ _ _ _ _ _ i slippage submitted e _ _ Hlt Htry Hincl).
    cbn [fst snd].
    destruct (IH (i + 1) ltac:(lia) (slippage + 0.5)%Q (submitted + 1))
      as (Hr & Hq & Hs).
    rewrite successes_app. cbn [app arguments Troubleshooting.quote_tolerances].
    change (successes [_]) with 0%nat.
    unfold successes in *. cbn [filter is_successful_call].
    cbn [List.length]. repeat split; try assumption; lia.
Qed.

(** X4: when every quote fails for slippage, [swapWithRetry] asks
    maxRetries quotes and then returns [undefined]: running out of attempts
    is not reported as an error. *)
Theorem swapWithRetry_exhaustion_returns_undefined :
  forall SwapParams Quote (getSwapQuote : Z -> SwapParams -> Q -> outcome Quote)
         (swap : Z -> Quote -> outcome TxSignature) params (maxRetries : Z),
    0 <= maxRetries ->
    (forall n bps,
        exists e,
          getSwapQuote n params bps = Rejected e
          /\ Troubleshooting.includes (message e) "slippage" = true) ->
    let run := Troubleshooting.swapWithRetry SwapParams Quote getSwapQuote swap
                 params maxRetries in
    fst run = Resolved None
    /\ Z.of_nat (List.length (Troubleshooting.quote_tolerances (arguments (snd run))))
       = maxRetries
    /\ successes (snd run) = 0%nat.
Proof.
  intros SwapParams Quote getSwapQuote swap params maxRetries Hmax Hfail run.
  subst run. unfold Troubleshooting.swapWithRetry.
  destruct (swap_loop_all_slippage SwapParams Quote getSwapQuote swap params
              maxRetries Hfail 0 0.5%Q 0) as (Hr & Hq & Hs).
  repeat split; try assumption. lia.
Qed.

Lemma swapWithRetry_exhaustion_returns_undefined_witness :
  let run := Troubleshooting.swapWithRetry unit unit
               quote_slippage_exceeded swap_goes_through tt 3 in
  fst run = Resolved None
  /\ Z.of_nat (List.length (Troubleshooting.quote_tolerances (arguments (snd run))))
     = 3
  /\ successes (snd run) = 0%nat.
Proof.
  apply (swapWithRetry_exhaustion_returns_undefined unit unit
           quote_slippage_exceeded swap_goes_through tt 3).
  - lia.
  - intros n bps. eexists. split; reflexivity.
Defined.

(** ** [BasicSwapExample.executeSwap] *)

Ltac unfold_async :=
  cbv beta iota zeta delta
    [Async.try_catch Async.bind Async.call Async.print Async.ret Async.throw
     Async.sleep Async.settlement Async.effects_of].

Ltac case_answer :=
  match goal with
  | |- context [match ?answer with Resolved _ => _ | Rejected _ => _ end] =>
      destruct answer eqn:?
  | |- context [rejection ?answer] => destruct answer eqn:?
  end.

(** X5: [executeSwap] asks for a quote, then for the swap transaction, then
    sends it.  It stops at the first of these calls that fails and rethrows
    its error unchanged, so that nothing is sent unless the quote and the
    transaction were obtained; when all three calls resolve it returns the
    signature of the confirmation. *)
Theorem executeSwap_stops_at_the_first_failure :
  forall sdk inputMint outputMint amount wallet slippageBps n,
    let run := SwapExample.executeSwap sdk inputMint outputMint amount wallet
                 slippageBps n in
    match fst (fst run) with
    | Rejected e =>
        exists resolved : nat,
          (resolved < 3)%nat
          /\ Async.answers (snd (fst run)) = repeat None resolved ++ [Some e]
    | Resolved signature =>
        Async.answers (snd (fst run)) = [None; None; None]
        /\ exists quote transaction,
            SwapExample.sdk_getSwapQuote sdk n inputMint outputMint amount slippageBps
            = Resolved quote
            /\ SwapExample.sdk_swap sdk (n + 1) quote
                 (SwapExample.publicKey sdk wallet) true
               = Resolved transaction
            /\ Async.requests (snd (fst run))
            = [SwapExample.SdkGetSwapQuote inputMint outputMint amount slippageBps;
               SwapExample.SdkSwap quote (SwapExample.publicKey sdk wallet) true;
               SwapExample.SendAndConfirmTransaction
                 (SwapExample.sign sdk transaction [wallet]) [wallet] "confirmed" 3]
            /\ SwapExample.sendAndConfirmTransaction sdk (n + 2)
                 (SwapExample.sign sdk transaction [wallet]) [wallet] "confirmed" 3
               = Resolved signature
    end.
Proof.
  intros sdk inputMint outputMint amount wallet slippageBps n run. subst run.
  unfold SwapExample.executeSwap, SwapExample.getSwapQuote. unfold_async.
  destruct (SwapExample.sdk_getSwapQuote sdk n inputMint outputMint amount slippageBps)
    as [quote | e] eqn:Hquote; cbn.
  2: { exists 0%nat. split; [lia | reflexivity]. }
  destruct (SwapExample.sdk_swap sdk (n + 1) quote (SwapExample.publicKey sdk wallet) true)
    as [transaction | e] eqn:Hswap;
    destruct (Troubleshooting.Qgt_bool (SwapExample.priceImpactPct quote) 5); cbn;
    rewrite ?Hswap; cbn.
  3, 4: exists 1%nat; split; [lia | reflexivity].
  all: replace (n + 1 + 1) with (n + 2) by lia;
    destruct (SwapExample.sendAndConfirmTransaction sdk (n + 2)
                (SwapExample.sign sdk transaction [wallet]) [wallet] "confirmed" 3)
      as [signature | e] eqn:Hsend; cbn.
  all: try (exists 2%nat; split; [lia | reflexivity]).
  all: split; [reflexivity | exists quote, transaction; repeat split; assumption].
Qed.

(** X6: a price impact above 5% makes [executeSwap] print its warning and
    nothing else: the swap transaction is requested for the same quote
    whether the warning was printed or not. *)
Theorem executeSwap_high_price_impact_only_warns :
  forall sdk inputMint outputMint amount wallet slippageBps n quote,
    SwapExample.sdk_getSwapQuote sdk n inputMint outputMint amount slippageBps
    = Resolved quote ->
    let run := SwapExample.executeSwap sdk inputMint outputMint amount wallet
                 slippageBps n in
    (In (SwapExample.WarnHighPriceImpact (SwapExample.priceImpactPct quote))
        (Async.printed (snd (fst run)))
     <-> (5 < SwapExample.priceImpactPct quote)%Q)
    /\ In (SwapExample.SdkSwap quote (SwapExample.publicKey sdk wallet) true)
          (Async.requests (snd (fst run))).
Proof.
  intros sdk inputMint outputMint amount wallet slippageBps n quote Hquote run.
  subst run.
  unfold SwapExample.executeSwap, SwapExample.getSwapQuote. unfold_async.
  rewrite Hquote. cbn.
  destruct (Troubleshooting.Qgt_bool (SwapExample.priceImpactPct quote) 5) eqn:Himpact;
    cbn;
    destruct (SwapExample.sdk_swap sdk (n + 1) quote
                (SwapExample.publicKey sdk wallet) true) as [transaction | e];
    cbn;
    try destruct (SwapExample.sendAndConfirmTransaction sdk (n + 1 + 1)
                    (SwapExample.sign sdk transaction [wallet]) [wallet] "confirmed" 3);
    cbn;
    (split; [| tauto]);
    (apply Qgt_bool_true in Himpact || apply Qgt_bool_false in Himpact);
    split; intros H; try tauto;
    try (exfalso; apply (Qlt_not_le _ _ H); assumption);
    repeat (destruct H as [H | H]; try discriminate H); try contradiction.
Qed.

Lemma executeSwap_high_price_impact_only_warns_witness :
  let sdk :=
    SwapExample.mkSdk
      (fun _ _ _ _ _ => Resolved (SwapExample.mkQuote 100000000 2150000 7.5 ["Saros"]))
      (fun _ _ _ _ => Resolved "swap-transaction")
      (fun _ _ _ _ _ => Resolved "signature")
      (fun transaction _ => transaction)
      (fun wallet => wallet) in
  let quote := SwapExample.mkQuote 100000000 2150000 7.5 ["Saros"] in
  let run := SwapExample.executeSwap sdk SOL USDC 100000000 "wallet" 100 0 in
  (In (SwapExample.WarnHighPriceImpact (SwapExample.priceImpactPct quote))
      (Async.printed (snd (fst run)))
   <-> (5 < SwapExample.priceImpactPct quote)%Q)
  /\ In (SwapExample.SdkSwap quote (SwapExample.publicKey sdk "wallet") true)
        (Async.requests (snd (fst run))).
Proof.
  intros sdk quote.
  apply (executeSwap_high_price_impact_only_warns sdk SOL USDC 100000000
           "wallet" 100 0 quote).
  reflexivity.
Defined.

(** ** Facts about effects *)

Section EffectFacts.
Context {C L : Type}.
Implicit Types pre rest : list (Async.effect C L).

Lemma requests_app pre rest :
  Async.requests (pre ++ rest) = Async.requests pre ++ Async.requests rest.
Proof.
  induction pre as [| ev pre IH]; [reflexivity |].
  destruct ev; cbn; rewrite ?IH; reflexivity.
Qed.

Lemma printed_app pre rest :
  Async.printed (pre ++ rest) = Async.printed pre ++ Async.printed rest.
Proof.
  induction pre as [| ev pre IH]; [reflexivity |].
  destruct ev; cbn; rewrite ?IH; reflexivity.
Qed.

Lemma sleeps_app pre rest :
  Async.sleeps (pre ++ rest) = Async.sleeps pre ++ Async.sleeps rest.
Proof.
  induction pre as [| ev pre IH]; [reflexivity |].
  destruct ev; cbn; rewrite ?IH; reflexivity.
Qed.

Lemma answers_app pre rest :
  Async.answers (pre ++ rest) = Async.answers pre ++ Async.answers rest.
Proof.
  induction pre as [| ev pre IH]; [reflexivity |].
  destruct ev; cbn; rewrite ?IH; reflexivity.
Qed.
End EffectFacts.

(** ** [AdvancedSwapExample.multiHopSwapExample] *)

Lemma swaps_app cs cs' :
  MultiHop.swaps (cs ++ cs') = MultiHop.swaps cs ++ MultiHop.swaps cs'.
Proof.
  induction cs as [| c cs IH]; [reflexivity |].
  destruct c; cbn; rewrite ?IH; reflexivity.
Qed.

(** The swaps of a lifted run are the calls of the run. *)
Lemma swaps_lift tr :
  MultiHop.swaps (Async.requests (map MultiHop.lift_event tr)) = arguments tr.
Proof.
  induction tr as [| ev tr IH]; [reflexivity |].
  destruct ev; cbn; rewrite ?IH; reflexivity.
Qed.

Lemma sleeps_lift tr :
  Async.sleeps (map MultiHop.lift_event tr) = delay_durations tr.
Proof.
  induction tr as [| ev tr IH]; [reflexivity |].
  destruct ev; cbn; rewrite ?IH; reflexivity.
Qed.

Lemma arguments_length {call} (tr : list (event call)) :
  List.length (arguments tr) = calls tr.
Proof.
  unfold calls. induction tr as [| ev tr IH]; [reflexivity |].
  destruct ev; cbn; rewrite ?IH; reflexivity.
Qed.

(** X7: [multiHopSwapExample] never rejects: whatever fails inside it is
    caught and printed, and the function returns normally. *)
Theorem multiHopSwapExample_never_rejects :
  forall number_to_string parseInt publicKey executeSwap
         getTokenAccountsByOwner getTokenAccountBalance wallet n,
    Async.settlement
      (MultiHop.multiHopSwapExample number_to_string parseInt publicKey executeSwap
         getTokenAccountsByOwner getTokenAccountBalance wallet) n
    = Resolved tt.
Proof.
  intros number_to_string parseInt publicKey executeSwap
         getTokenAccountsByOwner getTokenAccountBalance wallet n.
  unfold MultiHop.multiHopSwapExample, MultiHop.executeSwapWithRetry. unfold_async.
  cbn [fst snd].
  destruct (fst (BasicSwap.executeSwapWithRetry number_to_string
                   (fun submitted => executeSwap (n + submitted))
                   SOL USDC 50000000 wallet 3)); cbn; [| reflexivity].
  destruct (getTokenAccountsByOwner _ (publicKey wallet) USDC) as [[| first others] | e];
    cbn; try reflexivity.
  destruct (getTokenAccountBalance _ first) as [balance | e]; cbn; [| reflexivity].
  destruct (fst (BasicSwap.executeSwapWithRetry number_to_string _
                   USDC MultiHop.USDT (parseInt (MultiHop.amount balance)) wallet 3));
    reflexivity.
Qed.

(** The run of [executeSwapWithRetry] with three permitted attempts that
    all fail. *)
Lemma retry_three_failures
  number_to_string executeSwap inputMint outputMint amount wallet e1 e2 e3 :
  executeSwap 0 (BasicSwap.mkSwapCall inputMint outputMint amount wallet 50)
  = Rejected e1 ->
  executeSwap 1 (BasicSwap.mkSwapCall inputMint outputMint amount wallet 75)
  = Rejected e2 ->
  executeSwap 2 (BasicSwap.mkSwapCall inputMint outputMint amount wallet 100)
  = Rejected e3 ->
  BasicSwap.executeSwapWithRetry number_to_string executeSwap
    inputMint outputMint amount wallet 3
  = (Rejected (BasicSwap.all_attempts_failed number_to_string 3 (Some e3)),
     [EvLog (LogSwapAttempt 1 3);
      EvCall (BasicSwap.mkSwapCall inputMint outputMint amount wallet 50) (Some e1);
      EvLog (LogAttemptFailed 1 (message e1));
      EvLog LogWaitingBeforeRetry; EvDelay 2000;
      EvLog (LogSwapAttempt 2 3);
      EvCall (BasicSwap.mkSwapCall inputMint outputMint amount wallet 75) (Some e2);
      EvLog (LogAttemptFailed 2 (message e2));
      EvLog LogWaitingBeforeRetry; EvDelay 2000;
      EvLog (LogSwapAttempt 3 3);
      EvCall (BasicSwap.mkSwapCall inputMint outputMint amount wallet 100) (Some e3);
      EvLog (LogAttemptFailed 3 (message e3))]).
Proof.
  intros H1 H2 H3. unfold BasicSwap.executeSwapWithRetry.
  rewrite (retry_loop_failure _ _ _ _ _ _ _ 1 None 0 e1) by (lia || exact H1).
  rewrite (retry_loop_failure _ _ _ _ _ _ _ (1 + 1) (Some e1) (0 + 1) e2)
    by (lia || exact H2).
  rewrite (retry_loop_failure _ _ _ _ _ _ _ (1 + 1 + 1) (Some e2) (0 + 1 + 1) e3)
    by (lia || exact H3).
  rewrite retry_loop_exit by lia.
  reflexivity.
Qed.

(** X8: when the three attempts of the first hop fail, [multiHopSwapExample]
    stops there: it has asked for three swaps from SOL to USDC, at 50, 75
    and 100 basis points, and asks for nothing else, neither the USDC
    account nor a swap from USDC; its only delays are the two retry
    delays. *)
Theorem multiHopSwapExample_stops_after_a_failed_first_hop :
  forall number_to_string parseInt publicKey executeSwap
         getTokenAccountsByOwner getTokenAccountBalance wallet n,
    (forall k c, 0 <= k < 3 -> is_rejected (executeSwap (n + k) c) = true) ->
    let effects :=
      Async.effects_of
        (MultiHop.multiHopSwapExample number_to_string parseInt publicKey
           executeSwap getTokenAccountsByOwner getTokenAccountBalance wallet) n in
    Async.requests effects
    = [MultiHop.HopExecuteSwap (BasicSwap.mkSwapCall SOL USDC 50000000 wallet 50);
       MultiHop.HopExecuteSwap (BasicSwap.mkSwapCall SOL USDC 50000000 wallet 75);
       MultiHop.HopExecuteSwap (BasicSwap.mkSwapCall SOL USDC 50000000 wallet 100)]
    /\ Async.sleeps effects = [2000; 2000].
Proof.
  intros number_to_string parseInt publicKey executeSwap
         getTokenAccountsByOwner getTokenAccountBalance wallet n Hfail effects.
  subst effects.
  assert (Hrejected : forall k c, 0 <= k < 3 ->
            exists e, executeSwap (n + k) c = Rejected e).
  { intros k c Hk. specialize (Hfail k c Hk).
    destruct (executeSwap (n + k) c) as [v | e]; [discriminate | eauto]. }
  destruct (Hrejected 0 (BasicSwap.mkSwapCall SOL USDC 50000000 wallet 50) ltac:(lia))
    as (e1 & H1).
  destruct (Hrejected 1 (BasicSwap.mkSwapCall SOL USDC 50000000 wallet 75) ltac:(lia))
    as (e2 & H2).
  destruct (Hrejected 2 (BasicSwap.mkSwapCall SOL USDC 50000000 wallet 100) ltac:(lia))
    as (e3 & H3).
  unfold MultiHop.multiHopSwapExample, MultiHop.executeSwapWithRetry. unfold_async.
  rewrite (retry_three_failures number_to_string
             (fun submitted => executeSwap (n + submitted))
             SOL USDC 50000000 wallet e1 e2 e3 H1 H2 H3).
  cbn. split; reflexivity.
Qed.

Lemma multiHopSwapExample_stops_after_a_failed_first_hop_witness :
  let effects :=
    Async.effects_of
      (MultiHop.multiHopSwapExample decimal (fun _ => 0) (fun wallet => wallet)
         swap_always_fails
         (fun _ _ _ => Resolved ["usdc-account"])
         (fun _ _ => Resolved (MultiHop.mkTokenBalance "2150000" (Some 2.15%Q)))
         "wallet") 0 in
  Async.requests effects
  = [MultiHop.HopExecuteSwap (BasicSwap.mkSwapCall SOL USDC 50000000 "wallet" 50);
     MultiHop.HopExecuteSwap (BasicSwap.mkSwapCall SOL USDC 50000000 "wallet" 75);
     MultiHop.HopExecuteSwap (BasicSwap.mkSwapCall SOL USDC 50000000 "wallet" 100)]
  /\ Async.sleeps effects = [2000; 2000].
Proof.
  apply (multiHopSwapExample_stops_after_a_failed_first_hop decimal (fun _ => 0)
           (fun wallet => wallet) swap_always_fails
           (fun _ _ _ => Resolved ["usdc-account"])
           (fun _ _ => Resolved (MultiHop.mkTokenBalance "2150000" (Some 2.15%Q)))
           "wallet" 0).
  intros k c Hk. reflexivity.
Defined.

(** X9: [multiHopSwapExample] asks for at most six swaps, all for the given
    wallet: swaps of 0.05 SOL to USDC, and swaps to USDT of a whole USDC
    balance that a token account query returned. *)
Theorem multiHopSwapExample_swaps :
  forall number_to_string parseInt publicKey executeSwap
         getTokenAccountsByOwner getTokenAccountBalance wallet n,
    let asked :=
      MultiHop.swaps
        (Async.requests
           (Async.effects_of
              (MultiHop.multiHopSwapExample number_to_string parseInt publicKey
                 executeSwap getTokenAccountsByOwner getTokenAccountBalance wallet)
              n)) in
    (List.length asked <= 6)%nat
    /\ Forall
         (fun c =>
            BasicSwap.call_wallet c = wallet
            /\ ((BasicSwap.call_inputMint c = SOL
                 /\ BasicSwap.call_outputMint c = USDC
                 /\ BasicSwap.call_amount c = 50000000)
                \/ (BasicSwap.call_inputMint c = USDC
                    /\ BasicSwap.call_outputMint c = MultiHop.USDT
                    /\ exists k account balance,
                        getTokenAccountBalance k account = Resolved balance
                        /\ BasicSwap.call_amount c
                           = parseInt (MultiHop.amount balance))))
         asked.
Proof.
  intros number_to_string parseInt publicKey executeSwap
         getTokenAccountsByOwner getTokenAccountBalance wallet n asked.
  subst asked.
  unfold MultiHop.multiHopSwapExample, MultiHop.executeSwapWithRetry. unfold_async.
  cbn [fst snd].
  set (first_hop := BasicSwap.executeSwapWithRetry number_to_string
                      (fun submitted => executeSwap (n + submitted))
                      SOL USDC 50000000 wallet 3).
  assert (Hfirst_calls : (List.length (arguments (snd first_hop)) <= 3)%nat).
  { rewrite arguments_length.
    pose proof (retry_loop_calls number_to_string
                  (fun submitted => executeSwap (n + submitted))
                  SOL USDC 50000000 wallet 3 1 None 0) as Hcalls.
    fold (BasicSwap.executeSwapWithRetry number_to_string
            (fun submitted => executeSwap (n + submitted))
            SOL USDC 50000000 wallet 3) in Hcalls.
    fold first_hop in Hcalls. lia. }
  assert (Hfirst :
            Forall
              (fun c =>
                 BasicSwap.call_wallet c = wallet
                 /\ ((BasicSwap.call_inputMint c = SOL
                      /\ BasicSwap.call_outputMint c = USDC
                      /\ BasicSwap.call_amount c = 50000000)
                     \/ (BasicSwap.call_inputMint c = USDC
                         /\ BasicSwap.call_outputMint c = MultiHop.USDT
                         /\ exists k account balance,
                             getTokenAccountBalance k account = Resolved balance
                             /\ BasicSwap.call_amount c
                                = parseInt (MultiHop.amount balance))))
              (arguments (snd first_hop))).
  { eapply Forall_impl; [| apply executeSwapWithRetry_arguments].
    cbn beta. intros c (Hi & Ho & Ha & Hw). auto. }
  destruct (fst first_hop) as [signature | e]; cbn [fst snd].
  2: { rewrite !requests_app, !swaps_app, swaps_lift. cbn.
       rewrite ?app_nil_r.
       split; [eapply Nat.le_trans; [exact Hfirst_calls | lia] | exact Hfirst]. }
  destruct (getTokenAccountsByOwner (n + Z.of_nat (calls (snd first_hop)))
              (publicKey wallet) USDC) as [[| first others] | e]; cbn [fst snd].
  1, 3: rewrite !requests_app, !swaps_app, swaps_lift; cbn;
    rewrite ?app_nil_r;
    (split; [eapply Nat.le_trans; [exact Hfirst_calls | lia] | exact Hfirst]).
  destruct (getTokenAccountBalance (n + Z.of_nat (calls (snd first_hop)) + 1) first)
    as [balance | e] eqn:Hbalance; cbn [fst snd].
  2: { rewrite !requests_app, !swaps_app, swaps_lift. cbn.
       rewrite ?app_nil_r.
       split; [eapply Nat.le_trans; [exact Hfirst_calls | lia] | exact Hfirst]. }
  set (second_hop := BasicSwap.executeSwapWithRetry number_to_string _
                       USDC MultiHop.USDT (parseInt (MultiHop.amount balance))
                       wallet 3).
  assert (Hsecond_calls : (List.length (arguments (snd second_hop)) <= 3)%nat).
  { rewrite arguments_length. subst second_hop.
    unfold BasicSwap.executeSwapWithRetry.
    match goal with
    | |- (calls (snd (BasicSwap.retry_loop ?nts ?ex ?i ?o ?a ?w 3 1 None 0)) <= 3)%nat =>
        pose proof (retry_loop_calls nts ex i o a w 3 1 None 0)
    end.
    lia. }
  assert (Hsecond :
            Forall
              (fun c =>
                 BasicSwap.call_wallet c = wallet
                 /\ ((BasicSwap.call_inputMint c = SOL
                      /\ BasicSwap.call_outputMint c = USDC
                      /\ BasicSwap.call_amount c = 50000000)
                     \/ (BasicSwap.call_inputMint c = USDC
                         /\ BasicSwap.call_outputMint c = MultiHop.USDT
                         /\ exists k account balance,
                             getTokenAccountBalance k account = Resolved balance
                             /\ BasicSwap.call_amount c
                                = parseInt (MultiHop.amount balance))))
              (arguments (snd second_hop))).
  { eapply Forall_impl; [| apply executeSwapWithRetry_arguments].
    cbn beta. intros c (Hi & Ho & Ha & Hw).
    split; [exact Hw | right]. repeat split; try assumption. eauto. }
  assert (Hboth :
            MultiHop.swaps
              (Async.requests (map MultiHop.lift_event (snd first_hop)))
            ++ MultiHop.swaps
                 (Async.requests (map MultiHop.lift_event (snd second_hop)))
            = arguments (snd first_hop) ++ arguments (snd second_hop))
    by (rewrite !swaps_lift; reflexivity).
  destruct (fst second_hop); cbn [fst snd];
    repeat (rewrite ?requests_app, ?swaps_app; cbn [Async.requests MultiHop.swaps app]);
    rewrite ?app_nil_r, ?swaps_lift;
    (split;
     [rewrite length_app;
      eapply Nat.le_trans;
      [apply Nat.add_le_mono; [exact Hfirst_calls | exact Hsecond_calls] | lia]
     | apply Forall_app; split; assumption]).
Qed.

(** ** [DLMMPositionManager] *)

Ltac step_async :=
  match goal with
  | H : ?answer = _ |- context [match ?answer with Resolved _ => _ | Rejected _ => _ end] =>
      rewrite H
  | |- context [match ?answer with Resolved _ => _ | Rejected _ => _ end] =>
      destruct answer eqn:?
  end; cbn.

(** X10: [claimFees] asks the SDK for a claim transaction exactly when the
    position could be read and one of its two fees is not zero.  With both
    fees at zero it returns [null] after that single read, and nothing is
    signed or sent. *)
Theorem claimFees_claims_only_when_there_are_fees :
  forall LiquidityShare (sdk : PositionManager.Sdk LiquidityShare)
         positionAddress wallet n,
    let run := PositionManager.claimFees LiquidityShare sdk positionAddress wallet n in
    (In (PositionManager.DlmmClaimFees positionAddress
           (PositionManager.publicKey LiquidityShare sdk wallet))
        (Async.requests (snd (fst run)))
     <-> exists position,
          PositionManager.getPosition LiquidityShare sdk n positionAddress
          = Resolved position
          /\ ~ (PositionManager.feesX position == 0
                /\ PositionManager.feesY position == 0)%Q)
    /\ (forall position,
          PositionManager.getPosition LiquidityShare sdk n positionAddress
          = Resolved position ->
          (PositionManager.feesX position == 0)%Q ->
          (PositionManager.feesY position == 0)%Q ->
          fst (fst run) = Resolved None
          /\ Async.requests (snd (fst run))
             = [PositionManager.DlmmGetPosition positionAddress]).
Proof.
  intros LiquidityShare sdk positionAddress wallet n run. subst run.
  unfold PositionManager.claimFees. unfold_async.
  destruct (PositionManager.getPosition LiquidityShare sdk n positionAddress)
    as [position | e] eqn:Hposition; cbn.
  2: { split.
       - split.
         + intros [H | []]. discriminate H.
         + intros (position & H & _). discriminate H.
       - intros position H. discriminate H. }
  destruct (Qeq_bool (PositionManager.feesX position) 0) eqn:HX;
    destruct (Qeq_bool (PositionManager.feesY position) 0) eqn:HY; cbn.
  - apply Qeq_bool_iff in HX. apply Qeq_bool_iff in HY. split.
    + split.
      * intros [H | []]. discriminate H.
      * intros (p & Hp & Hfees). injection Hp as <-. tauto.
    + intros p Hp _ _. split; reflexivity.
  - assert (Hnot : ~ (PositionManager.feesY position == 0)%Q)
      by (intros H; apply Qeq_bool_iff in H; congruence).
    split.
    + split; [intros _; exists position; tauto |].
      intros _. repeat step_async; cbn; tauto.
    + intros p Hp _ HYp. injection Hp as <-. contradiction.
  - assert (Hnot : ~ (PositionManager.feesX position == 0)%Q)
      by (intros H; apply Qeq_bool_iff in H; congruence).
    split.
    + split; [intros _; exists position; tauto |].
      intros _. repeat step_async; cbn; tauto.
    + intros p Hp HXp _. injection Hp as <-. contradiction.
  - assert (Hnot : ~ (PositionManager.feesX position == 0)%Q)
      by (intros H; apply Qeq_bool_iff in H; congruence).
    split.
    + split; [intros _; exists position; tauto |].
      intros _. repeat step_async; cbn; tauto.
    + intros p Hp HXp _. injection Hp as <-. contradiction.
Qed.

(** Printing a list of lines performs no call and cannot fail. *)
Lemma print_each_run {C L} (lines : list L) (n : Z) :
  Async.print_each (C:=C) lines n = (Resolved tt, map Async.Print lines, n).
Proof.
  induction lines as [| line lines IH]; [reflexivity |].
  cbn [Async.print_each map]. unfold Async.bind, Async.print.
  rewrite IH. reflexivity.
Qed.

(** X11: [getUserPositions] never rejects.  It returns the positions that
    the SDK returned, and the empty array when the SDK call failed. *)
Theorem getUserPositions_never_rejects :
  forall LiquidityShare (sdk : PositionManager.Sdk LiquidityShare)
         userPublicKey pool n,
    Async.settlement
      (PositionManager.getUserPositions LiquidityShare sdk userPublicKey pool) n
    = Resolved
        match
          match pool with
          | Some pool =>
              PositionManager.dlmm_getUserPositions LiquidityShare sdk n
                userPublicKey pool
          | None =>
              PositionManager.getAllUserPositions LiquidityShare sdk n userPublicKey
          end
        with
        | Resolved positions => positions
        | Rejected _ => []
        end.
Proof.
  intros LiquidityShare sdk userPublicKey pool n.
  unfold PositionManager.getUserPositions. unfold_async.
  destruct pool as [pool |]; cbn;
    match goal with
    | |- context [match ?answer with Resolved _ => _ | Rejected _ => _ end] =>
        destruct answer as [[| position positions] | e]
    end; cbn; try reflexivity;
    rewrite print_each_run; reflexivity.
Qed.

(** *** [removeLiquidity] *)

Lemma liquidity_to_remove_bins position binIds percentage :
  map PositionManager.removal_binId
    (PositionManager.liquidity_to_remove position binIds percentage)
  = binIds.
Proof.
  unfold PositionManager.liquidity_to_remove. rewrite map_map. cbn.
  apply map_id.
Qed.

Lemma share_of_holding (held percentage : Q) :
  (0 <= held)%Q -> (0 <= percentage)%Q -> (percentage <= 100)%Q ->
  (0 <= held * (percentage / 100))%Q /\ (held * (percentage / 100) <= held)%Q.
Proof.
  intros Hheld Hlow Hhigh.
  assert (Hshare : (0 <= percentage / 100)%Q /\ (percentage / 100 <= 1)%Q).
  { split.
    - apply Qle_shift_div_l; [reflexivity | lra].
    - apply Qle_shift_div_r; [reflexivity | lra]. }
  destruct Hshare as [H0 H1]. split.
  - apply Qmult_le_0_compat; assumption.
  - rewrite <- (Qmult_1_r held) at 2.
    rewrite (Qmult_comm held), (Qmult_comm held 1).
    apply Qmult_le_compat_r; assumption.
Qed.

(** The removal request of a run of [removeLiquidity]. *)
Lemma removeLiquidity_request LiquidityShare (sdk : PositionManager.Sdk LiquidityShare)
  positionAddress binIds percentage wallet n a removals pk :
  In (PositionManager.DlmmRemoveLiquidity a removals pk)
     (Async.requests
        (Async.effects_of
           (PositionManager.removeLiquidity LiquidityShare sdk positionAddress
              binIds percentage wallet) n)) ->
  exists position,
    PositionManager.getPosition LiquidityShare sdk n positionAddress = Resolved position
    /\ removals = PositionManager.liquidity_to_remove position binIds percentage
    /\ a = positionAddress
    /\ pk = PositionManager.publicKey LiquidityShare sdk wallet.
Proof.
  unfold PositionManager.removeLiquidity. unfold_async.
  destruct (PositionManager.getPosition LiquidityShare sdk n positionAddress)
    as [position | e] eqn:Hposition; cbn.
  2: { intros [H | []]. discriminate H. }
  repeat step_async;
    intros H;
    repeat (destruct H as [H | H]; try discriminate H); try contradiction;
    injection H as <- <- <-; exists position; auto.
Qed.

(** Looks for a request in the computed list of requests of a run. *)
Ltac find_request := vm_compute; repeat (first [left; reflexivity | right]).

(** X12: the removal that [removeLiquidity] asks of the SDK has one entry
    for each requested bin, in the order of the request, and an entry for a
    bin that the position does not hold removes nothing. *)
Theorem removeLiquidity_asks_one_entry_per_bin :
  forall LiquidityShare (sdk : PositionManager.Sdk LiquidityShare)
         positionAddress binIds percentage wallet n a removals pk,
    In (PositionManager.DlmmRemoveLiquidity a removals pk)
       (Async.requests
          (Async.effects_of
             (PositionManager.removeLiquidity LiquidityShare sdk positionAddress
                binIds percentage wallet) n)) ->
    map PositionManager.removal_binId removals = binIds
    /\ exists position,
        PositionManager.getPosition LiquidityShare sdk n positionAddress
        = Resolved position
        /\ forall r,
            In r removals ->
            PositionManager.bin_lookup (PositionManager.binLiquidity position)
              (PositionManager.removal_binId r) = None ->
            (PositionManager.removal_liquidityX r == 0)%Q
            /\ (PositionManager.removal_liquidityY r == 0)%Q.
Proof.
  intros LiquidityShare sdk positionAddress binIds percentage wallet n a removals pk Hin.
  apply removeLiquidity_request in Hin.
  destruct Hin as (position & Hposition & -> & _ & _).
  split; [apply liquidity_to_remove_bins |].
  exists position. split; [exact Hposition |].
  intros r Hr Hnone.
  unfold PositionManager.liquidity_to_remove in Hr.
  apply in_map_iff in Hr. destruct Hr as (id & <- & _).
  cbn in *. rewrite Hnone. split; ring.
Qed.

Lemma removeLiquidity_asks_one_entry_per_bin_witness :
  let removals := PositionManager.liquidity_to_remove example_position [99; 101] 50 in
  map PositionManager.removal_binId removals = [99; 101]
  /\ exists position,
      PositionManager.getPosition unit (example_sdk 100) 0 "position"
      = Resolved position
      /\ forall r,
          In r removals ->
          PositionManager.bin_lookup (PositionManager.binLiquidity position)
            (PositionManager.removal_binId r) = None ->
          (PositionManager.removal_liquidityX r == 0)%Q
          /\ (PositionManager.removal_liquidityY r == 0)%Q.
Proof.
  intros removals.
  apply (removeLiquidity_asks_one_entry_per_bin unit (example_sdk 100) "position"
           [99; 101] 50 "wallet" 0 "position" removals "wallet").
  find_request.
Defined.

(** X13: for a percentage between 0 and 100, what [removeLiquidity] asks
    to remove from a bin lies between nothing and what the position holds
    in that bin. *)
Theorem removeLiquidity_stays_within_the_holdings :
  forall LiquidityShare (sdk : PositionManager.Sdk LiquidityShare)
         positionAddress binIds (percentage : Q) wallet n a removals pk,
    (0 <= percentage)%Q ->
    (percentage <= 100)%Q ->
    In (PositionManager.DlmmRemoveLiquidity a removals pk)
       (Async.requests
          (Async.effects_of
             (PositionManager.removeLiquidity LiquidityShare sdk positionAddress
                binIds percentage wallet) n)) ->
    exists position,
      PositionManager.getPosition LiquidityShare sdk n positionAddress
      = Resolved position
      /\ forall r held,
          In r removals ->
          PositionManager.bin_lookup (PositionManager.binLiquidity position)
            (PositionManager.removal_binId r) = Some held ->
          (0 <= PositionManager.liquidityX held)%Q ->
          (0 <= PositionManager.liquidityY held)%Q ->
          (0 <= PositionManager.removal_liquidityX r)%Q
          /\ (PositionManager.removal_liquidityX r <= PositionManager.liquidityX held)%Q
          /\ (0 <= PositionManager.removal_liquidityY r)%Q
          /\ (PositionManager.removal_liquidityY r <= PositionManager.liquidityY held)%Q.
Proof.
  intros LiquidityShare sdk positionAddress binIds percentage wallet n a removals pk
         Hlow Hhigh Hin.
  apply removeLiquidity_request in Hin.
  destruct Hin as (position & Hposition & -> & _ & _).
  exists position. split; [exact Hposition |].
  intros r held Hr Hheld HX HY.
  unfold PositionManager.liquidity_to_remove in Hr.
  apply in_map_iff in Hr. destruct Hr as (id & <- & _).
  cbn in *. rewrite Hheld.
  destruct (share_of_holding (PositionManager.liquidityX held) percentage HX Hlow Hhigh).
  destruct (share_of_holding (PositionManager.liquidityY held) percentage HY Hlow Hhigh).
  auto.
Qed.

Lemma removeLiquidity_stays_within_the_holdings_witness :
  let removals := PositionManager.liquidity_to_remove example_position [99; 101] 50 in
  exists position,
    PositionManager.getPosition unit (example_sdk 100) 0 "position"
    = Resolved position
    /\ forall r held,
        In r removals ->
        PositionManager.bin_lookup (PositionManager.binLiquidity position)
          (PositionManager.removal_binId r) = Some held ->
        (0 <= PositionManager.liquidityX held)%Q ->
        (0 <= PositionManager.liquidityY held)%Q ->
        (0 <= PositionManager.removal_liquidityX r)%Q
        /\ (PositionManager.removal_liquidityX r <= PositionManager.liquidityX held)%Q
        /\ (0 <= PositionManager.removal_liquidityY r)%Q
        /\ (PositionManager.removal_liquidityY r <= PositionManager.liquidityY held)%Q.
Proof.
  intros removals.
  apply (removeLiquidity_stays_within_the_holdings unit (example_sdk 100) "position"
           [99; 101] 50 "wallet" 0 "position" removals "wallet").
  - unfold Qle. cbn. lia.
  - unfold Qle. cbn. lia.
  - find_request.
Defined.

(** *** [monitorPosition] *)

(** X14: for a position whose range was computed by
    [calculatePositionParams] around some bin, [monitorPosition] reports as
    distance how far the active bin of the pool has moved from that bin, and
    advises rebalancing exactly when it has moved by more than 20 bins; as
    long as the active bin is inside the range of the position it does not
    advise rebalancing. *)
Theorem monitorPosition_measures_the_drift :
  forall LiquidityShare (sdk : PositionManager.Sdk LiquidityShare)
         positionAddress n position pool createdAt binStep strategy,
    PositionManager.getPosition LiquidityShare sdk n positionAddress
    = Resolved position ->
    PositionManager.getPool LiquidityShare sdk (n + 1)
      (PositionManager.poolAddress position) = Resolved pool ->
    PositionManager.lowerBin position
    = Dlmm.lowerBin (Dlmm.calculatePositionParams createdAt binStep strategy) ->
    PositionManager.upperBin position
    = Dlmm.upperBin (Dlmm.calculatePositionParams createdAt binStep strategy) ->
    exists report,
      Async.settlement
        (PositionManager.monitorPosition LiquidityShare sdk positionAddress) n
      = Resolved report
      /\ PositionManager.distanceFromActive report
         = Z.abs (PositionManager.activeBin pool - createdAt)
      /\ (PositionManager.shouldRebalance report = true
          <-> 20 < Z.abs (PositionManager.activeBin pool - createdAt))
      /\ (PositionManager.lowerBin position <= PositionManager.activeBin pool
          <= PositionManager.upperBin position ->
          PositionManager.shouldRebalance report = false).
Proof.
  intros LiquidityShare sdk positionAddress n position pool createdAt binStep strategy
         Hposition Hpool Hlower Hupper.
  exists (PositionManager.health_check position pool).
  assert (Hcenter : PositionManager.center_bin position = createdAt).
  { unfold PositionManager.center_bin. rewrite Hlower, Hupper.
    unfold Dlmm.calculatePositionParams.
    cbn [Dlmm.lowerBin Dlmm.upperBin].
    replace (createdAt
             - Dlmm.ranges match strategy with Some s => s | None => Dlmm.medium end
             + (createdAt
                + Dlmm.ranges match strategy with Some s => s | None => Dlmm.medium end))
      with (createdAt * 2) by lia.
    apply Z.div_mul. lia. }
  split; [| split; [| split]].
  - unfold PositionManager.monitorPosition. unfold_async.
    rewrite Hposition. cbn. rewrite Hpool. cbn.
    destruct (negb (PositionManager.inRange position)); cbn;
      destruct (20 <? Z.abs (PositionManager.activeBin pool
                             - PositionManager.center_bin position)); cbn;
      destruct (Troubleshooting.Qgt_bool (PositionManager.feesValue position)
                  (PositionManager.totalValue position * 0.01)); reflexivity.
  - cbn. rewrite Hcenter. reflexivity.
  - cbn. rewrite Hcenter. apply Z.ltb_lt.
  - intros Hinside. cbn. rewrite Hcenter. apply Z.ltb_ge.
    rewrite Hlower, Hupper in Hinside.
    unfold Dlmm.calculatePositionParams in Hinside.
    cbn [Dlmm.lowerBin Dlmm.upperBin] in Hinside.
    destruct strategy as [[| |] |]; cbn [Dlmm.ranges] in Hinside; lia.
Qed.

Lemma monitorPosition_measures_the_drift_witness :
  exists report,
    Async.settlement
      (PositionManager.monitorPosition unit (example_sdk 125) "position") 0
    = Resolved report
    /\ PositionManager.distanceFromActive report
       = Z.abs (PositionManager.activeBin (example_pool 125) - 100)
    /\ (PositionManager.shouldRebalance report = true
        <-> 20 < Z.abs (PositionManager.activeBin (example_pool 125) - 100))
    /\ (PositionManager.lowerBin example_position
        <= PositionManager.activeBin (example_pool 125)
        <= PositionManager.upperBin example_position ->
        PositionManager.shouldRebalance report = false).
Proof.
  apply (monitorPosition_measures_the_drift unit (example_sdk 125) "position" 0
           example_position (example_pool 125) 100 25 (Some Dlmm.medium));
    reflexivity.
Defined.

(** *** [DLMMStrategies.autoRebalance] *)

(** X15: when the active bin is within the threshold of the centre of the
    position, [autoRebalance] reads the position and its pool and does
    nothing else: no liquidity is removed and no position is created. *)
Theorem autoRebalance_leaves_a_centred_position_alone :
  forall LiquidityShare (sdk : PositionManager.Sdk LiquidityShare)
         positionAddress wallet rebalanceThreshold n position pool,
    PositionManager.getPosition LiquidityShare sdk n positionAddress
    = Resolved position ->
    PositionManager.getPool LiquidityShare sdk (n + 1)
      (PositionManager.poolAddress position) = Resolved pool ->
    Z.abs (PositionManager.activeBin pool - PositionManager.center_bin position)
    <= rebalanceThreshold ->
    PositionManager.autoRebalance LiquidityShare sdk positionAddress wallet
      rebalanceThreshold n
    = (Resolved tt,
       [Async.Call (PositionManager.DlmmGetPosition positionAddress) None;
        Async.Call (PositionManager.DlmmGetPool (PositionManager.poolAddress position))
          None;
        Async.Print PositionManager.LogWithinAcceptableRange],
       n + 1 + 1).
Proof.
  intros LiquidityShare sdk positionAddress wallet rebalanceThreshold n position pool
         Hposition Hpool Hnear.
  unfold PositionManager.autoRebalance. unfold_async.
  rewrite Hposition. cbn. rewrite Hpool. cbn.
  destruct (Z.ltb_spec rebalanceThreshold
              (Z.abs (PositionManager.activeBin pool
                      - PositionManager.center_bin position))); [lia |].
  reflexivity.
Qed.

Lemma autoRebalance_leaves_a_centred_position_alone_witness :
  PositionManager.autoRebalance unit (example_sdk 105) "position" "wallet" 10 0
  = (Resolved tt,
     [Async.Call (PositionManager.DlmmGetPosition "position") None;
      Async.Call (PositionManager.DlmmGetPool "pool") None;
      Async.Print PositionManager.LogWithinAcceptableRange],
     0 + 1 + 1).
Proof.
  apply (autoRebalance_leaves_a_centred_position_alone unit (example_sdk 105)
           "position" "wallet" 10 0 example_position (example_pool 105)).
  - reflexivity.
  - reflexivity.
  - vm_compute. discriminate.
Defined.

Ltac number_calls :=
  repeat rewrite <- Z.add_assoc in *;
  change (1 + 1) with 2 in *;
  change (1 + 2) with 3 in *;
  change (1 + 3) with 4 in *;
  change (1 + 4) with 5 in *;
  change (1 + 5) with 6 in *;
  change (1 + 6) with 7 in *.

(** What has happened when [autoRebalance] asks the SDK to create a
    position. *)
Lemma autoRebalance_create_request
  LiquidityShare (sdk : PositionManager.Sdk LiquidityShare)
  positionAddress wallet rebalanceThreshold n pa lower upper distribution pk :
  In (PositionManager.DlmmCreatePosition pa lower upper distribution pk)
     (Async.requests
        (Async.effects_of
           (PositionManager.autoRebalance LiquidityShare sdk positionAddress wallet
              rebalanceThreshold) n)) ->
  exists position pool held transaction signature,
    PositionManager.getPosition LiquidityShare sdk n positionAddress = Resolved position
    /\ PositionManager.getPool LiquidityShare sdk (n + 1)
         (PositionManager.poolAddress position) = Resolved pool
    /\ rebalanceThreshold
       < Z.abs (PositionManager.activeBin pool - PositionManager.center_bin position)
    /\ PositionManager.getPosition LiquidityShare sdk (n + 2) positionAddress
       = Resolved held
    /\ PositionManager.dlmm_removeLiquidity LiquidityShare sdk (n + 3) positionAddress
         (PositionManager.liquidity_to_remove held
            (PositionManager.bin_keys (PositionManager.binLiquidity position)) 100)
         (PositionManager.publicKey LiquidityShare sdk wallet)
       = Resolved transaction
    /\ PositionManager.sendAndConfirmTransaction LiquidityShare sdk (n + 4)
         (PositionManager.sign LiquidityShare sdk transaction [wallet]) [wallet]
         "confirmed"
       = Resolved signature
    /\ pa = PositionManager.poolAddress position
    /\ lower = PositionManager.activeBin pool - 10
    /\ upper = PositionManager.activeBin pool + 10
    /\ pk = PositionManager.publicKey LiquidityShare sdk wallet.
Proof.
  unfold PositionManager.autoRebalance, PositionManager.removeLiquidity,
    PositionManager.createPosition.
  unfold_async.
  destruct (PositionManager.getPosition LiquidityShare sdk n positionAddress)
    as [position | e] eqn:Hposition; cbn.
  2: { intros [H | []]. discriminate H. }
  destruct (PositionManager.getPool LiquidityShare sdk (n + 1)
              (PositionManager.poolAddress position)) as [pool | e] eqn:Hpool; cbn.
  2: { intros [H | [H | []]]; discriminate H. }
  destruct (Z.ltb_spec rebalanceThreshold
              (Z.abs (PositionManager.activeBin pool
                      - PositionManager.center_bin position))) as [Hfar | Hnear]; cbn.
  2: { intros [H | [H | []]]; discriminate H. }
  repeat step_async;
    intros H;
    repeat (destruct H as [H | H]; try discriminate H); try contradiction;
    injection H as <- <- <- <- <-;
    number_calls;
    match goal with
    | Hheld : PositionManager.getPosition _ _ (n + 2) _ = Resolved ?held,
      Hremove : PositionManager.dlmm_removeLiquidity _ _ _ _ _ _ = Resolved ?tx,
      Hsend : PositionManager.sendAndConfirmTransaction _ _ (n + 4) _ _ _
              = Resolved ?sig |- _ =>
        exists position, pool, held, tx, sig;
        repeat split; assumption || reflexivity
    end.
Qed.

(** X16: [autoRebalance] asks for a new position only when the active bin
    is further from the centre of the position than the threshold, and then
    for the pool of the old position and the range of 10 bins on each side
    of the active bin it has read, whose centre is that active bin: with a
    threshold that is not negative, the new range would not be rebalanced
    again while the active bin stays where it is. *)
Theorem autoRebalance_recentres_on_the_active_bin :
  forall LiquidityShare (sdk : PositionManager.Sdk LiquidityShare)
         positionAddress wallet rebalanceThreshold n pa lower upper distribution pk,
    In (PositionManager.DlmmCreatePosition pa lower upper distribution pk)
       (Async.requests
          (Async.effects_of
             (PositionManager.autoRebalance LiquidityShare sdk positionAddress
                wallet rebalanceThreshold) n)) ->
    exists position pool,
      PositionManager.getPosition LiquidityShare sdk n positionAddress
      = Resolved position
      /\ PositionManager.getPool LiquidityShare sdk (n + 1)
           (PositionManager.poolAddress position) = Resolved pool
      /\ rebalanceThreshold
         < Z.abs (PositionManager.activeBin pool - PositionManager.center_bin position)
      /\ pa = PositionManager.poolAddress position
      /\ lower = PositionManager.activeBin pool - 10
      /\ upper = PositionManager.activeBin pool + 10
      /\ (lower + upper) / 2 = PositionManager.activeBin pool
      /\ (0 <= rebalanceThreshold ->
          (rebalanceThreshold
           <? Z.abs (PositionManager.activeBin pool - (lower + upper) / 2)) = false).
Proof.
  intros LiquidityShare sdk positionAddress wallet rebalanceThreshold n
         pa lower upper distribution pk Hin.
  apply autoRebalance_create_request in Hin.
  destruct Hin as (position & pool & held & transaction & signature
                   & Hposition & Hpool & Hfar & _ & _ & _ & Hpa & Hlower & Hupper & _).
  exists position, pool.
  assert (Hcentre : (lower + upper) / 2 = PositionManager.activeBin pool).
  { subst lower upper.
    replace (PositionManager.activeBin pool - 10 + (PositionManager.activeBin pool + 10))
      with (PositionManager.activeBin pool * 2) by lia.
    apply Z.div_mul. lia. }
  repeat split; try assumption.
  intros Hthreshold. rewrite Hcentre. apply Z.ltb_ge. lia.
Qed.

Lemma autoRebalance_recentres_on_the_active_bin_witness :
  exists position pool,
    PositionManager.getPosition unit (example_sdk 130) 0 "position"
    = Resolved position
    /\ PositionManager.getPool unit (example_sdk 130) (0 + 1)
         (PositionManager.poolAddress position) = Resolved pool
    /\ 10 < Z.abs (PositionManager.activeBin pool - PositionManager.center_bin position)
    /\ "pool" = PositionManager.poolAddress position
    /\ 120 = PositionManager.activeBin pool - 10
    /\ 140 = PositionManager.activeBin pool + 10
    /\ (120 + 140) / 2 = PositionManager.activeBin pool
    /\ (0 <= 10 ->
        (10 <? Z.abs (PositionManager.activeBin pool - (120 + 140) / 2)) = false).
Proof.
  apply (autoRebalance_recentres_on_the_active_bin unit (example_sdk 130) "position"
           "wallet" 10 0 "pool" 120 140 [tt] "wallet").
  find_request.
Defined.

(** X17: [autoRebalance] asks for a new position only after the removal of
    the old liquidity was confirmed, and that removal was of 100% of every
    bin listed in the position it had read. *)
Theorem autoRebalance_creates_only_after_the_removal :
  forall LiquidityShare (sdk : PositionManager.Sdk LiquidityShare)
         positionAddress wallet rebalanceThreshold n pa lower upper distribution pk,
    In (PositionManager.DlmmCreatePosition pa lower upper distribution pk)
       (Async.requests
          (Async.effects_of
             (PositionManager.autoRebalance LiquidityShare sdk positionAddress
                wallet rebalanceThreshold) n)) ->
    exists position held transaction signature,
      PositionManager.getPosition LiquidityShare sdk n positionAddress
      = Resolved position
      /\ PositionManager.getPosition LiquidityShare sdk (n + 2) positionAddress
         = Resolved held
      /\ PositionManager.dlmm_removeLiquidity LiquidityShare sdk (n + 3)
           positionAddress
           (PositionManager.liquidity_to_remove held
              (PositionManager.bin_keys (PositionManager.binLiquidity position)) 100)
           (PositionManager.publicKey LiquidityShare sdk wallet)
         = Resolved transaction
      /\ PositionManager.sendAndConfirmTransaction LiquidityShare sdk (n + 4)
           (PositionManager.sign LiquidityShare sdk transaction [wallet]) [wallet]
           "confirmed"
         = Resolved signature
      /\ map PositionManager.removal_binId
           (PositionManager.liquidity_to_remove held
              (PositionManager.bin_keys (PositionManager.binLiquidity position)) 100)
         = map fst (PositionManager.binLiquidity position)
      /\ forall r b,
          In r (PositionManager.liquidity_to_remove held
                  (PositionManager.bin_keys (PositionManager.binLiquidity position))
                  100) ->
          PositionManager.bin_lookup (PositionManager.binLiquidity held)
            (PositionManager.removal_binId r) = Some b ->
          (PositionManager.removal_liquidityX r == PositionManager.liquidityX b)%Q
          /\ (PositionManager.removal_liquidityY r == PositionManager.liquidityY b)%Q.
Proof.
  intros LiquidityShare sdk positionAddress wallet rebalanceThreshold n
         pa lower upper distribution pk Hin.
  apply autoRebalance_create_request in Hin.
  destruct Hin as (position & pool & held & transaction & signature
                   & Hposition & _ & _ & Hheld & Hremove & Hsend & _).
  exists position, held, transaction, signature.
  repeat (split; [assumption |]).
  split; [apply liquidity_to_remove_bins |].
  intros r b Hr Hb.
  unfold PositionManager.liquidity_to_remove in Hr.
  apply in_map_iff in Hr. destruct Hr as (id & <- & _).
  cbn in *. rewrite Hb. split; field.
Qed.

Lemma autoRebalance_creates_only_after_the_removal_witness :
  exists position held transaction signature,
    PositionManager.getPosition unit (example_sdk 130) 0 "position"
    = Resolved position
    /\ PositionManager.getPosition unit (example_sdk 130) (0 + 2) "position"
       = Resolved held
    /\ PositionManager.dlmm_removeLiquidity unit (example_sdk 130) (0 + 3)
         "position"
         (PositionManager.liquidity_to_remove held
            (PositionManager.bin_keys (PositionManager.binLiquidity position)) 100)
         (PositionManager.publicKey unit (example_sdk 130) "wallet")
       = Resolved transaction
    /\ PositionManager.sendAndConfirmTransaction unit (example_sdk 130) (0 + 4)
         (PositionManager.sign unit (example_sdk 130) transaction ["wallet"])
         ["wallet"] "confirmed"
       = Resolved signature
    /\ map PositionManager.removal_binId
         (PositionManager.liquidity_to_remove held
            (PositionManager.bin_keys (PositionManager.binLiquidity position)) 100)
       = map fst (PositionManager.binLiquidity position)
    /\ forall r b,
        In r (PositionManager.liquidity_to_remove held
                (PositionManager.bin_keys (PositionManager.binLiquidity position))
                100) ->
        PositionManager.bin_lookup (PositionManager.binLiquidity held)
          (PositionManager.removal_binId r) = Some b ->
        (PositionManager.removal_liquidityX r == PositionManager.liquidityX b)%Q
        /\ (PositionManager.removal_liquidityY r == PositionManager.liquidityY b)%Q.
Proof.
  apply (autoRebalance_creates_only_after_the_removal unit (example_sdk 130)
           "position" "wallet" 10 0 "pool" 120 140 [tt] "wallet").
  find_request.
Defined.


(** *** [DLMMStrategies.optimizeForYield] *)

Lemma insert_by_yield_permutation a sorted :
  Permutation (PositionManager.insert_by_yield a sorted) (a :: sorted).
Proof.
  induction sorted as [| b sorted IH]; cbn; [reflexivity |].
  destruct (Troubleshooting.Qgt_bool (PositionManager.expectedYield b)
              (PositionManager.expectedYield a)); [| reflexivity].
  rewrite IH. apply perm_swap.
Qed.

Lemma sort_by_yield_permutation l :
  Permutation (PositionManager.sort_by_yield l) l.
Proof.
  induction l as [| a l IH]; cbn; [reflexivity |].
  rewrite insert_by_yield_permutation. constructor. exact IH.
Qed.

Lemma insert_by_yield_sorted a sorted :
  StronglySorted PositionManager.yields_at_least sorted ->
  StronglySorted PositionManager.yields_at_least (PositionManager.insert_by_yield a sorted).
Proof.
  induction 1 as [| b sorted Hsorted IH Hb]; cbn.
  - repeat constructor.
  - destruct (Troubleshooting.Qgt_bool (PositionManager.expectedYield b)
                (PositionManager.expectedYield a)) eqn:Hcmp.
    + apply Qgt_bool_true in Hcmp. constructor; [exact IH |].
      rewrite insert_by_yield_permutation.
      constructor; [apply Qlt_le_weak; exact Hcmp | exact Hb].
    + apply Qgt_bool_false in Hcmp.
      constructor; [constructor; assumption |].
      constructor; [exact Hcmp |].
      eapply Forall_impl; [| exact Hb].
      intros c Hc. unfold PositionManager.yields_at_least in *. eapply Qle_trans; eassumption.
Qed.

Lemma sort_by_yield_sorted l :
  StronglySorted PositionManager.yields_at_least (PositionManager.sort_by_yield l).
Proof.
  induction l as [| a l IH]; cbn; [constructor |].
  apply insert_by_yield_sorted. exact IH.
Qed.

Lemma firstn_In {A} k (l : list A) x : In x (firstn k l) -> In x l.
Proof.
  intros Hx. rewrite <- (firstn_skipn k l). apply in_or_app. left. exact Hx.
Qed.

Lemma skipn_In {A} k (l : list A) x : In x (skipn k l) -> In x l.
Proof.
  intros Hx. rewrite <- (firstn_skipn k l). apply in_or_app. right. exact Hx.
Qed.

Lemma StronglySorted_firstn {A} (R : A -> A -> Prop) k l :
  StronglySorted R l -> StronglySorted R (firstn k l).
Proof.
  intros Hsorted. revert k.
  induction Hsorted as [| a l Hsorted IH Ha]; intros [| k]; cbn; try constructor.
  - apply IH.
  - rewrite Forall_forall in *. intros x Hx. apply Ha.
    eapply firstn_In. exact Hx.
Qed.

(** In a sorted list, what is cut off does not have to come before what
    is kept. *)
Lemma StronglySorted_cut {A} (R : A -> A -> Prop) k l :
  StronglySorted R l ->
  forall x y, In x (firstn k l) -> In y (skipn k l) -> R x y.
Proof.
  intros Hsorted. revert k.
  induction Hsorted as [| a l Hsorted IH Ha]; intros [| k] x y Hx Hy; cbn in *;
    try contradiction.
  destruct Hx as [<- | Hx].
  - rewrite Forall_forall in Ha. apply Ha. eapply skipn_In. exact Hy.
  - eapply IH; eassumption.
Qed.

(** Every entry of the [feeAnalysis] array describes a traded bin of the
    data. *)
Lemma fee_analysis_entries pool bins a :
  In a (PositionManager.fee_analysis pool bins) ->
  exists bin,
    In bin bins
    /\ (0 < PositionManager.volume24h bin)%Q
    /\ a = PositionManager.analyse pool bin.
Proof.
  unfold PositionManager.fee_analysis. intros Ha.
  apply (Permutation_in _ (sort_by_yield_permutation _)) in Ha.
  apply in_map_iff in Ha. destruct Ha as (bin & <- & Hbin).
  apply filter_In in Hbin. destruct Hbin as (Hbin & Htraded).
  exists bin. repeat split; [exact Hbin |].
  apply Qgt_bool_true. exact Htraded.
Qed.

(** Every traded bin of the data has its entry in the [feeAnalysis] array. *)
Lemma fee_analysis_complete pool bins bin :
  In bin bins ->
  (0 < PositionManager.volume24h bin)%Q ->
  In (PositionManager.analyse pool bin) (PositionManager.fee_analysis pool bins).
Proof.
  intros Hbin Hvolume. unfold PositionManager.fee_analysis.
  apply (Permutation_in _ (Permutation_sym (sort_by_yield_permutation _))).
  apply in_map. apply filter_In. split; [exact Hbin |].
  unfold PositionManager.traded, Troubleshooting.Qgt_bool.
  apply Qgt_alt in Hvolume. rewrite Hvolume. reflexivity.
Qed.

Lemma bin_of_analyse pool bin :
  PositionManager.bin_of (PositionManager.analyse pool bin) = bin.
Proof. destruct bin. reflexivity. Qed.

(** What [optimizeForYield] returns. *)
Lemma optimizeForYield_result LiquidityShare (sdk : PositionManager.Sdk LiquidityShare)
  pool n ids :
  Async.settlement (PositionManager.optimizeForYield LiquidityShare sdk pool) n
  = Resolved ids ->
  exists info bins,
    PositionManager.getPool LiquidityShare sdk n pool = Resolved info
    /\ PositionManager.getBinArrays LiquidityShare sdk (n + 1) pool = Resolved bins
    /\ ids = map PositionManager.analysis_binId
               (firstn 20 (PositionManager.fee_analysis info bins)).
Proof.
  unfold PositionManager.optimizeForYield. unfold_async.
  destruct (PositionManager.getPool LiquidityShare sdk n pool) as [info | e]; cbn;
    [| discriminate].
  destruct (PositionManager.getBinArrays LiquidityShare sdk (n + 1) pool)
    as [bins | e]; cbn; [| discriminate].
  rewrite print_each_run. cbn. intros H. injection H as <-.
  exists info, bins. repeat split.
Qed.

(** X18: [optimizeForYield] returns at most 20 bin ids, each of them the id
    of a bin of the pool's bin data with a positive 24-hour volume; when at
    most 20 bins have a positive volume, it returns the ids of all of
    them. *)
Theorem optimizeForYield_returns_at_most_20_traded_bins :
  forall LiquidityShare (sdk : PositionManager.Sdk LiquidityShare) pool n ids,
    Async.settlement (PositionManager.optimizeForYield LiquidityShare sdk pool) n
    = Resolved ids ->
    exists bins,
      PositionManager.getBinArrays LiquidityShare sdk (n + 1) pool = Resolved bins
      /\ (List.length ids <= 20)%nat
      /\ (forall id,
            In id ids ->
            exists bin,
              In bin bins
              /\ PositionManager.binId bin = id
              /\ (0 < PositionManager.volume24h bin)%Q)
      /\ ((List.length (filter PositionManager.traded bins) <= 20)%nat ->
          forall bin,
            In bin bins ->
            (0 < PositionManager.volume24h bin)%Q ->
            In (PositionManager.binId bin) ids).
Proof.
  intros LiquidityShare sdk pool n ids Hrun.
  apply optimizeForYield_result in Hrun.
  destruct Hrun as (info & bins & _ & Hbins & ->).
  exists bins. split; [exact Hbins |]. split; [| split].
  - rewrite length_map. apply firstn_le_length.
  - intros id Hid. apply in_map_iff in Hid. destruct Hid as (a & <- & Ha).
    apply firstn_In in Ha. apply fee_analysis_entries in Ha.
    destruct Ha as (bin & Hbin & Hvolume & ->).
    exists bin. repeat split; assumption.
  - intros Hfew bin Hbin Hvolume.
    rewrite firstn_all2.
    + apply in_map_iff. exists (PositionManager.analyse info bin).
      split; [reflexivity |]. apply fee_analysis_complete; assumption.
    + unfold PositionManager.fee_analysis.
      rewrite (Permutation_length (sort_by_yield_permutation _)), length_map.
      exact Hfew.
Qed.

Lemma optimizeForYield_returns_at_most_20_traded_bins_witness :
  exists bins,
    PositionManager.getBinArrays unit (example_sdk 100) (0 + 1) "pool" = Resolved bins
    /\ (List.length [101; 99] <= 20)%nat
    /\ (forall id,
          In id [101; 99] ->
          exists bin,
            In bin bins
            /\ PositionManager.binId bin = id
            /\ (0 < PositionManager.volume24h bin)%Q)
    /\ ((List.length (filter PositionManager.traded bins) <= 20)%nat ->
        forall bin,
          In bin bins ->
          (0 < PositionManager.volume24h bin)%Q ->
          In (PositionManager.binId bin) [101; 99]).
Proof.
  apply (optimizeForYield_returns_at_most_20_traded_bins unit (example_sdk 100)
           "pool" 0 [101; 99]).
  vm_compute. reflexivity.
Defined.

(** X19: the bins that [optimizeForYield] returns are in order of
    decreasing expected yield, fee rate times 24-hour volume, and no traded
    bin that is left out yields more than a bin that is returned. *)
Theorem optimizeForYield_returns_the_best_yields :
  forall LiquidityShare (sdk : PositionManager.Sdk LiquidityShare) pool n ids,
    Async.settlement (PositionManager.optimizeForYield LiquidityShare sdk pool) n
    = Resolved ids ->
    exists bins chosen,
      PositionManager.getBinArrays LiquidityShare sdk (n + 1) pool = Resolved bins
      /\ ids = map PositionManager.binId chosen
      /\ incl chosen bins
      /\ StronglySorted
           (fun a b => (PositionManager.bin_yield b <= PositionManager.bin_yield a)%Q)
           chosen
      /\ forall bin,
          In bin bins ->
          (0 < PositionManager.volume24h bin)%Q ->
          In bin chosen
          \/ Forall (fun c => (PositionManager.bin_yield bin
                               <= PositionManager.bin_yield c)%Q) chosen.
Proof.
  intros LiquidityShare sdk pool n ids Hrun.
  apply optimizeForYield_result in Hrun.
  destruct Hrun as (info & bins & _ & Hbins & ->).
  set (analysis := PositionManager.fee_analysis info bins).
  assert (Hentries : forall a, In a analysis ->
            exists bin, In bin bins /\ (0 < PositionManager.volume24h bin)%Q
                        /\ a = PositionManager.analyse info bin)
    by (intros a; apply fee_analysis_entries).
  assert (Hsorted : StronglySorted PositionManager.yields_at_least analysis)
    by apply sort_by_yield_sorted.
  exists bins, (map PositionManager.bin_of (firstn 20 analysis)).
  split; [exact Hbins |]. split; [| split; [| split]].
  - rewrite map_map. reflexivity.
  - intros bin Hbin. apply in_map_iff in Hbin. destruct Hbin as (a & <- & Ha).
    apply firstn_In in Ha. destruct (Hentries a Ha) as (bin & Hbin & _ & ->).
    rewrite bin_of_analyse. exact Hbin.
  - pose proof (StronglySorted_firstn _ 20 _ Hsorted) as Hkept.
    assert (Hkept_entries : forall a, In a (firstn 20 analysis) -> In a analysis)
      by (intros a; apply firstn_In).
    induction Hkept as [| a kept Hkept IH Ha]; cbn; constructor.
    + apply IH. intros b Hb. apply Hkept_entries. right. exact Hb.
    + rewrite Forall_forall in *. intros c Hc.
      apply in_map_iff in Hc. destruct Hc as (b & <- & Hb).
      specialize (Ha b Hb). unfold PositionManager.yields_at_least in Ha.
      destruct (Hentries a (Hkept_entries a (or_introl eq_refl))) as (bin & _ & _ & ->).
      destruct (Hentries b (Hkept_entries b (or_intror Hb))) as (bin' & _ & _ & ->).
      rewrite !bin_of_analyse. exact Ha.
  - intros bin Hbin Hvolume.
    pose proof (fee_analysis_complete info bins bin Hbin Hvolume) as Hin.
    fold analysis in Hin.
    rewrite <- (firstn_skipn 20 analysis) in Hin.
    apply in_app_or in Hin. destruct Hin as [Hkept | Hcut].
    + left. apply in_map_iff. exists (PositionManager.analyse info bin).
      split; [apply bin_of_analyse | exact Hkept].
    + right. rewrite Forall_forall. intros c Hc.
      apply in_map_iff in Hc. destruct Hc as (a & <- & Ha).
      pose proof (StronglySorted_cut _ 20 _ Hsorted a _ Ha Hcut) as Hle.
      unfold PositionManager.yields_at_least in Hle.
      destruct (Hentries a (firstn_In _ _ _ Ha)) as (bin' & _ & _ & ->).
      rewrite bin_of_analyse. exact Hle.
Qed.

Lemma optimizeForYield_returns_the_best_yields_witness :
  exists bins chosen,
    PositionManager.getBinArrays unit (example_sdk 100) (0 + 1) "pool" = Resolved bins
    /\ [101; 99] = map PositionManager.binId chosen
    /\ incl chosen bins
    /\ StronglySorted
         (fun a b => (PositionManager.bin_yield b <= PositionManager.bin_yield a)%Q)
         chosen
    /\ forall bin,
        In bin bins ->
        (0 < PositionManager.volume24h bin)%Q ->
        In bin chosen
        \/ Forall (fun c => (PositionManager.bin_yield bin
                             <= PositionManager.bin_yield c)%Q) chosen.
Proof.
  apply (optimizeForYield_returns_the_best_yields unit (example_sdk 100)
           "pool" 0 [101; 99]).
  vm_compute. reflexivity.
Defined.

(** ** Troubleshooting guide: [splitSwap] *)

Section SplitSwapFacts.
Variable executeSwap : Z -> Q -> outcome TxSignature.
Variable totalAmount : Q.
Variable parts : Z.

Local Abbreviation loop := (Guide.split_loop executeSwap totalAmount parts).
Local Abbreviation each := (Guide.amountPerSwap totalAmount parts).


Lemma split_loop_swap_failed i n e :
  i < parts ->
  executeSwap n each = Rejected e ->
  loop i n = (Rejected e, [Async.Call (Guide.GuideExecuteSwap each) (Some e)], n + 1).
Proof.
  intros Hlt Hswap. rewrite Guide.split_loop_equation_1.
  destruct (Z_lt_ge_dec i parts) as [Hlt' | Hge]; [| lia].
  cbn [Guide.split_loop_unfold_clause_1].
  unfold Async.bind at 1. unfold Async.call at 1.
  rewrite Hswap. reflexivity.
Qed.

Lemma split_loop_swap_done i n signature :
  i < parts ->
  executeSwap n each = Resolved signature ->
  loop i n =
    (fst (fst (loop (i + 1) (n + 1))),
     [Async.Call (Guide.GuideExecuteSwap each) None; Async.Sleep 5000]
     ++ snd (fst (loop (i + 1) (n + 1))),
     snd (loop (i + 1) (n + 1))).
Proof.
  intros Hlt Hswap.
  set (rest := loop (i + 1) (n + 1)).
  rewrite Guide.split_loop_equation_1.
  destruct (Z_lt_ge_dec i parts) as [Hlt' | Hge]; [| lia].
  cbn [Guide.split_loop_unfold_clause_1].
  unfold Async.bind, Async.call, Async.sleep.
  rewrite Hswap. cbn [rejection]. fold rest.
  destruct rest as [[r effects] n']. reflexivity.
Qed.


(** The loop when swap number [k] of those that are left is the first to
    fail. *)
Lemma split_loop_first_failure i n k e :
  0 <= k < parts - i ->
  (forall j, 0 <= j < k -> is_rejected (executeSwap (n + j) each) = false) ->
  executeSwap (n + k) each = Rejected e ->
  fst (fst (loop i n)) = Rejected e
  /\ Guide.swap_amounts (Async.requests (snd (fst (loop i n))))
     = repeat each (Z.to_nat (k + 1))
  /\ Async.sleeps (snd (fst (loop i n))) = repeat 5000 (Z.to_nat k).
Proof.
  remember (Z.to_nat k) as before eqn:Hbefore.
  revert i n k Hbefore.
  induction before as [| before IH]; intros i n k Hbefore Hk Hdone Hfail.
  - assert (k = 0) by lia. subst k. rewrite Z.add_0_r in Hfail.
    rewrite (split_loop_swap_failed i n e) by (lia || assumption).
    cbn. auto.
  - pose proof (Hdone 0 ltac:(lia)) as Hfirst. rewrite Z.add_0_r in Hfirst.
    destruct (executeSwap n each) as [signature |] eqn:Hswap; [| discriminate].
    rewrite (split_loop_swap_done i n signature) by (lia || assumption).
    cbn [fst snd app Async.requests Async.sleeps Guide.swap_amounts].
    destruct (IH (i + 1) (n + 1) (k - 1)) as (Hr & Ha & Hs).
    + lia.
    + lia.
    + intros j Hj. replace (n + 1 + j) with (n + (j + 1)) by lia.
      apply Hdone. lia.
    + replace (n + 1 + (k - 1)) with (n + k) by lia. exact Hfail.
    + rewrite Hr, Ha, Hs.
      replace (Z.to_nat (k + 1)) with (S (Z.to_nat (k - 1 + 1))) by lia.
      replace (Z.to_nat k) with (S (Z.to_nat (k - 1))) by lia.
      auto.
Qed.
End SplitSwapFacts.




(** X21: [splitSwap] stops at the first swap that fails and rejects with
    its error: after [k] swaps that went through and one that failed, the
    remaining parts are not swapped, and no delay follows the failure. *)
Theorem splitSwap_stops_at_the_first_failed_swap :
  forall executeSwap (totalAmount : Q) (parts n k : Z) e,
    0 <= k < parts ->
    (forall j, 0 <= j < k ->
       is_rejected (executeSwap (n + j) (Guide.amountPerSwap totalAmount parts))
       = false) ->
    executeSwap (n + k) (Guide.amountPerSwap totalAmount parts) = Rejected e ->
    let run := Guide.splitSwap executeSwap totalAmount parts n in
    fst (fst run) = Rejected e
    /\ Guide.swap_amounts (Async.requests (snd (fst run)))
       = repeat (totalAmount / inject_Z parts)%Q (Z.to_nat (k + 1))
    /\ Async.sleeps (snd (fst run)) = repeat 5000 (Z.to_nat k).
Proof.
  intros executeSwap totalAmount parts n k e Hk Hdone Hfail run. subst run.
  unfold Guide.splitSwap.
  apply split_loop_first_failure; [lia | assumption | assumption].
Qed.

Lemma splitSwap_stops_at_the_first_failed_swap_witness :
  let executeSwap :=
    fun (made : Z) (_ : Q) =>
      if made <? 1 then Resolved "signature"
      else Rejected (mkError "Insufficient funds for transaction") in
  let run := Guide.splitSwap executeSwap 100 4 0 in
  fst (fst run) = Rejected (mkError "Insufficient funds for transaction")
  /\ Guide.swap_amounts (Async.requests (snd (fst run)))
     = repeat (100 / inject_Z 4)%Q (Z.to_nat (1 + 1))
  /\ Async.sleeps (snd (fst run)) = repeat 5000 (Z.to_nat 1).
Proof.
  intros executeSwap.
  apply (splitSwap_stops_at_the_first_failed_swap executeSwap 100 4 0 1
           (mkError "Insufficient funds for transaction")).
  - lia.
  - intros j Hj. assert (j = 0) as -> by lia. reflexivity.
  - reflexivity.
Defined.

(** ** Troubleshooting guide: [shouldRebalance] and [monitorPosition] *)

(** The test of [shouldRebalance] on integers: the active bin is more than
    15 bins from the centre when twice the active bin is more than 30 from
    the sum of the bounds. *)
Lemma shouldRebalance_integers position pool :
  Guide.shouldRebalance position pool = true
  <-> 30 < Z.abs (2 * PositionManager.activeBin pool
                  - (PositionManager.lowerBin position
                     + PositionManager.upperBin position)).
Proof.
  unfold Guide.shouldRebalance.
  set (a := PositionManager.activeBin pool).
  set (s := PositionManager.lowerBin position + PositionManager.upperBin position).
  assert (Hdistance :
            (Qabs (inject_Z a - inject_Z s / 2) == inject_Z (Z.abs (2 * a - s)) / 2)%Q).
  { assert (Hhalf : (inject_Z a - inject_Z s / 2 == inject_Z (2 * a - s) / 2)%Q).
    { unfold Z.sub. rewrite inject_Z_plus, inject_Z_mult, inject_Z_opp. field. }
    rewrite Hhalf. unfold Qdiv. rewrite Qabs_Qmult.
    rewrite (Qabs_pos (/ 2)) by (vm_compute; discriminate).
    apply Qmult_comp; [| reflexivity].
    unfold Qabs, inject_Z. reflexivity. }
  fold a s.
  set (d := Z.abs (2 * a - s)) in *. clearbody d.
  split.
  - intros Htrue. apply Qgt_bool_true in Htrue. rewrite Hdistance in Htrue.
    unfold Qlt, Qdiv, Qmult, Qinv, inject_Z in Htrue. cbn in Htrue. lia.
  - intros Hfar.
    destruct (Troubleshooting.Qgt_bool (Qabs (inject_Z a - inject_Z s / 2)) 15)
      eqn:Hcmp; [reflexivity |].
    apply Qgt_bool_false in Hcmp. rewrite Hdistance in Hcmp.
    unfold Qle, Qdiv, Qmult, Qinv, inject_Z in Hcmp. cbn in Hcmp. lia.
Qed.

(** X22: [shouldRebalance] of the guide answers yes exactly when twice the
    active bin differs by more than 30 from the sum of the bounds of the
    position, that is when the active bin is more than 15 bins from the
    unrounded centre.  Whenever [monitorPosition] of the position manager,
    whose limit is 20 bins from the rounded centre, advises rebalancing,
    [shouldRebalance] answers yes as well. *)
Theorem shouldRebalance_of_the_guide :
  forall position pool,
    (Guide.shouldRebalance position pool = true
     <-> 30 < Z.abs (2 * PositionManager.activeBin pool
                     - (PositionManager.lowerBin position
                        + PositionManager.upperBin position)))
    /\ (PositionManager.shouldRebalance (PositionManager.health_check position pool)
        = true ->
        Guide.shouldRebalance position pool = true).
Proof.
  intros position pool. split; [apply shouldRebalance_integers |].
  intros Hmanager. apply shouldRebalance_integers.
  cbn in Hmanager. apply Z.ltb_lt in Hmanager.
  unfold PositionManager.center_bin in Hmanager.
  pose proof (Z.div_mod (PositionManager.lowerBin position
                         + PositionManager.upperBin position) 2 ltac:(lia)).
  pose proof (Z.mod_pos_bound (PositionManager.lowerBin position
                               + PositionManager.upperBin position) 2 ltac:(lia)).
  lia.
Qed.

(** X23: [monitorPosition] of the guide asks for a rebalance exactly when
    both reads succeeded, the position is out of range and [shouldRebalance]
    answers yes; a position that is in range is never rebalanced, however
    far the active bin is from its centre. *)
Theorem monitorPosition_of_the_guide_rebalances :
  forall getPosition getPool rebalancePosition wallet positionAddress n,
    In (Guide.GuideRebalancePosition positionAddress wallet)
       (Async.requests
          (Async.effects_of
             (Guide.monitorPosition getPosition getPool rebalancePosition wallet
                positionAddress) n))
    <-> exists position pool,
         getPosition n positionAddress = Resolved position
         /\ getPool (n + 1) (PositionManager.poolAddress position) = Resolved pool
         /\ PositionManager.inRange position = false
         /\ Guide.shouldRebalance position pool = true.
Proof.
  intros getPosition getPool rebalancePosition wallet positionAddress n.
  unfold Guide.monitorPosition. unfold_async.
  destruct (getPosition n positionAddress) as [position | e] eqn:Hposition; cbn.
  2: { split.
       - intros [H | []]. discriminate H.
       - intros (p & q & H & _). discriminate H. }
  destruct (getPool (n + 1) (PositionManager.poolAddress position))
    as [pool | e] eqn:Hpool; cbn.
  2: { split.
       - intros [H | [H | []]]; discriminate H.
       - intros (p & q & Hp & Hq & _). injection Hp as <-. congruence. }
  destruct (PositionManager.inRange position) eqn:Hrange; cbn.
  { split.
    - intros [H | [H | []]]; discriminate H.
    - intros (p & q & Hp & Hq & Hout & _). injection Hp as <-. congruence. }
  destruct (Guide.shouldRebalance position pool) eqn:Hshould; cbn.
  - split.
    + intros _. exists position, pool. auto.
    + intros _. destruct (rebalancePosition (n + 1 + 1) positionAddress wallet);
        cbn; auto.
  - split.
    + intros [H | [H | []]]; discriminate H.
    + intros (p & q & Hp & Hq & _ & Hyes). injection Hp as <-.
      rewrite Hpool in Hq. injection Hq as <-. congruence.
Qed.

(** ** Troubleshooting guide: [getCachedQuote] *)

Lemma cache_get_set cache key value :
  Guide.cache_get (Guide.cache_set cache key value) key = Some value.
Proof.
  induction cache as [| [k v] cache IH]; cbn.
  - rewrite String.eqb_refl. reflexivity.
  - destruct (String.eqb k key) eqn:Hk; cbn; rewrite Hk; [reflexivity | exact IH].
Qed.

Lemma cache_get_set_other cache key value other :
  other <> key ->
  Guide.cache_get (Guide.cache_set cache key value) other = Guide.cache_get cache other.
Proof.
  intros Hother.
  induction cache as [| [k v] cache IH]; cbn.
  - destruct (String.eqb_spec key other); [congruence | reflexivity].
  - destruct (String.eqb_spec k key) as [-> | Hk]; cbn.
    + destruct (String.eqb_spec key other); [congruence | reflexivity].
    + destruct (String.eqb k other); [reflexivity | exact IH].
Qed.

Lemma cache_set_keys cache key value :
  map fst (Guide.cache_set cache key value)
  = match Guide.cache_get cache key with
    | Some _ => map fst cache
    | None => map fst cache ++ [key]
    end.
Proof.
  induction cache as [| [k v] cache IH]; cbn; [reflexivity |].
  destruct (String.eqb_spec k key) as [-> | Hk]; cbn; [reflexivity |].
  rewrite IH. destruct (Guide.cache_get cache key); reflexivity.
Qed.

Lemma cache_get_none_not_in cache key :
  Guide.cache_get cache key = None -> ~ In key (map fst cache).
Proof.
  induction cache as [| [k v] cache IH]; cbn; [tauto |].
  destruct (String.eqb_spec k key) as [-> | Hk]; [discriminate |].
  intros Hnone [Heq | Hin]; [congruence | exact (IH Hnone Hin)].
Qed.

Lemma getCachedQuote_fresh_entry
  number_to_string now getSwapQuote params quoteCache n cached :
  Guide.cache_get quoteCache (Guide.cache_key number_to_string params)
  = Some cached ->
  now n - Guide.timestamp cached < 30000 ->
  Guide.getCachedQuote number_to_string now getSwapQuote params quoteCache n
  = (Resolved (Guide.quote cached), quoteCache,
     [Async.Call Guide.DateNow None], n + 1).
Proof.
  intros Hentry Hfresh.
  unfold Guide.getCachedQuote. rewrite Hentry.
  destruct (Z.ltb_spec (now n - Guide.timestamp cached) 30000); [reflexivity | lia].
Qed.

(** X24: a request whose key has an entry less than 30000 ms old is
    answered from the cache: [getCachedQuote] reads the clock once, does not
    call the SDK and leaves the cache as it is. *)
Theorem getCachedQuote_answers_from_a_fresh_entry :
  forall number_to_string now getSwapQuote params quoteCache n cached,
    Guide.cache_get quoteCache (Guide.cache_key number_to_string params)
    = Some cached ->
    now n - Guide.timestamp cached < 30000 ->
    Guide.getCachedQuote number_to_string now getSwapQuote params quoteCache n
    = (Resolved (Guide.quote cached), quoteCache,
       [Async.Call Guide.DateNow None], n + 1).
Proof.
  intros number_to_string now getSwapQuote params quoteCache n cached Hentry Hfresh.
  apply getCachedQuote_fresh_entry; assumption.
Qed.

Lemma getCachedQuote_answers_from_a_fresh_entry_witness :
  let quoteCache :=
    [(Guide.cache_key decimal (example_params None),
      Guide.mkCached example_quote (example_clock 0))] in
  Guide.getCachedQuote decimal example_clock
    (fun _ _ => Rejected (mkError "429 Too Many Requests"))
    (example_params (Some 50)) quoteCache 20
  = (Resolved example_quote, quoteCache, [Async.Call Guide.DateNow None], 20 + 1).
Proof.
  intros quoteCache.
  apply (getCachedQuote_answers_from_a_fresh_entry decimal example_clock
           (fun _ _ => Rejected (mkError "429 Too Many Requests"))
           (example_params (Some 50)) quoteCache 20
           (Guide.mkCached example_quote (example_clock 0))).
  - vm_compute. reflexivity.
  - vm_compute. reflexivity.
Defined.

(** X25: the key of the cache is made of the two mints and the amount
    only.  Once a quote was fetched for a request, every request for the
    same mints and amount made less than 30000 ms after it was stored gets
    that same quote without a call to the SDK, whatever slippage it asks
    for. *)
Theorem getCachedQuote_shares_entries_across_slippages :
  forall number_to_string now getSwapQuote params quoteCache n fresh params' m,
    fst (fst (fst (Guide.getCachedQuote number_to_string now getSwapQuote
                     params quoteCache n)))
    = Resolved fresh ->
    In (Guide.SdkGetSwapQuote params)
       (Async.requests
          (snd (fst (Guide.getCachedQuote number_to_string now getSwapQuote
                       params quoteCache n)))) ->
    Guide.inputMint params' = Guide.inputMint params ->
    Guide.outputMint params' = Guide.outputMint params ->
    Guide.amount params' = Guide.amount params ->
    now m
    - now (snd (Guide.getCachedQuote number_to_string now getSwapQuote
                  params quoteCache n) - 1)
    < 30000 ->
    let stored :=
      snd (fst (fst (Guide.getCachedQuote number_to_string now getSwapQuote
                       params quoteCache n))) in
    Guide.getCachedQuote number_to_string now getSwapQuote params' stored m
    = (Resolved fresh, stored, [Async.Call Guide.DateNow None], m + 1).
Proof.
  intros number_to_string now getSwapQuote params quoteCache n fresh params' m
         Hquote Hfetched Hinput Houtput Hamount Hrecent stored.
  assert (Hkey : Guide.cache_key number_to_string params'
                 = Guide.cache_key number_to_string params)
    by (unfold Guide.cache_key; rewrite Hinput, Houtput, Hamount; reflexivity).
  assert (Hstored :
            exists k,
              Guide.getCachedQuote number_to_string now getSwapQuote params quoteCache n
              = (Resolved fresh,
                 Guide.cache_set quoteCache (Guide.cache_key number_to_string params)
                   {| Guide.quote := fresh; Guide.timestamp := now (k + 1) |},
                 snd (fst (Guide.getCachedQuote number_to_string now getSwapQuote
                             params quoteCache n)),
                 k + 2)).
  { revert Hquote Hfetched. unfold Guide.getCachedQuote, Guide.fetch_and_store.
    destruct (Guide.cache_get quoteCache (Guide.cache_key number_to_string params))
      as [cached |].
    - destruct (now n - Guide.timestamp cached <? 30000); cbn.
      + intros _ [H | []]. discriminate H.
      + destruct (getSwapQuote (n + 1) params) as [q | e]; cbn; [| discriminate].
        intros H _. injection H as ->. exists (n + 1). reflexivity.
    - destruct (getSwapQuote n params) as [q | e]; cbn; [| discriminate].
      intros H _. injection H as ->. exists n. reflexivity. }
  destruct Hstored as (k & Hrun).
  subst stored. rewrite Hrun in *. cbn [fst snd] in *.
  replace (k + 2 - 1) with (k + 1) in Hrecent by lia.
  apply getCachedQuote_fresh_entry with
    (cached := {| Guide.quote := fresh; Guide.timestamp := now (k + 1) |}).
  - rewrite Hkey. apply cache_get_set.
  - exact Hrecent.
Qed.

Lemma getCachedQuote_shares_entries_across_slippages_witness :
  let getSwapQuote :=
    fun (_ : Z) (_ : Guide.QuoteParams) => Resolved example_quote in
  let stored :=
    snd (fst (fst (Guide.getCachedQuote decimal example_clock getSwapQuote
                     (example_params (Some 50)) [] 0))) in
  Guide.getCachedQuote decimal example_clock getSwapQuote
    (example_params (Some 300)) stored 2
  = (Resolved example_quote, stored, [Async.Call Guide.DateNow None], 2 + 1).
Proof.
  intros getSwapQuote.
  apply (getCachedQuote_shares_entries_across_slippages decimal example_clock
           getSwapQuote (example_params (Some 50)) [] 0 example_quote
           (example_params (Some 300)) 2).
  - reflexivity.
  - find_request.
  - reflexivity.
  - reflexivity.
  - reflexivity.
  - vm_compute. reflexivity.
Defined.



(** X27: a call of [getCachedQuote] touches the entry of its own key only,
    and a cache with one entry per key still has one entry per key after
    it. *)
Theorem getCachedQuote_keeps_one_entry_per_key :
  forall number_to_string now getSwapQuote params quoteCache n,
    let stored :=
      snd (fst (fst (Guide.getCachedQuote number_to_string now getSwapQuote
                       params quoteCache n))) in
    (forall other,
        other <> Guide.cache_key number_to_string params ->
        Guide.cache_get stored other = Guide.cache_get quoteCache other)
    /\ (NoDup (map fst quoteCache) -> NoDup (map fst stored)).
Proof.
  intros number_to_string now getSwapQuote params quoteCache n stored. subst stored.
  unfold Guide.getCachedQuote, Guide.fetch_and_store.
  destruct (Guide.cache_get quoteCache (Guide.cache_key number_to_string params))
      as [cached |] eqn:Hentry.
  - destruct (now n - Guide.timestamp cached <? 30000); cbn; [auto |].
    destruct (getSwapQuote (n + 1) params) as [q | e]; cbn; [| auto].
    split.
    + intros other Hother. apply cache_get_set_other. exact Hother.
    + rewrite cache_set_keys, Hentry. auto.
  - destruct (getSwapQuote n params) as [q | e]; cbn; [| auto].
    split.
    + intros other Hother. apply cache_get_set_other. exact Hother.
    + rewrite cache_set_keys, Hentry. intros Hnodup.
      apply NoDup_app; [exact Hnodup | repeat constructor; cbn; tauto |].
      intros key Hin [<- | []].
      exact (cache_get_none_not_in _ _ Hentry Hin).
Qed.

(** ** Position manager: [createPosition] *)

Lemma ends_with_cons {A} (a x : A) (l : list A) :
  (exists front, l = front ++ [x]) -> exists front, a :: l = front ++ [x].
Proof. intros (front & ->). exists (a :: front). reflexivity. Qed.

Ltac ends_with := first [exists []; reflexivity | apply ends_with_cons; ends_with].

(** X28: [createPosition] reads the pool, asks the SDK for the distribution
    of the liquidity around the active bin of that pool, asks for the
    transaction that creates the position with that distribution, and sends
    it.  It stops at the first of these four calls that fails, prints the
    failure as its last line and rethrows the error unchanged; when all four
    resolve it returns the signature of the confirmation. *)
Theorem createPosition_stops_at_the_first_failure :
  forall LiquidityShare (sdk : PositionManager.Sdk LiquidityShare) params wallet n,
    let run := PositionManager.createPosition LiquidityShare sdk params wallet n in
    match fst (fst run) with
    | Rejected e =>
        (exists resolved : nat,
            (resolved < 4)%nat
            /\ Async.answers (snd (fst run)) = repeat None resolved ++ [Some e])
        /\ exists lines,
            Async.printed (snd (fst run))
            = lines ++ [PositionManager.ErrFailedToCreatePosition e]
    | Resolved signature =>
        exists pool distribution transaction,
          PositionManager.getPool LiquidityShare sdk n
            (PositionManager.params_poolAddress params) = Resolved pool
          /\ PositionManager.calculateLiquidityDistribution LiquidityShare sdk (n + 1)
               (PositionManager.params_lowerBin params)
               (PositionManager.params_upperBin params)
               (PositionManager.amountX params) (PositionManager.amountY params)
               (PositionManager.distributionType params)
               (PositionManager.activeBin pool)
             = Resolved distribution
          /\ PositionManager.dlmm_createPosition LiquidityShare sdk (n + 2)
               (PositionManager.params_poolAddress params)
               (PositionManager.params_lowerBin params)
               (PositionManager.params_upperBin params)
               distribution (PositionManager.publicKey LiquidityShare sdk wallet)
             = Resolved transaction
          /\ PositionManager.sendAndConfirmTransaction LiquidityShare sdk (n + 3)
               (PositionManager.sign LiquidityShare sdk transaction [wallet])
               [wallet] "confirmed"
             = Resolved signature
          /\ Async.requests (snd (fst run))
             = [PositionManager.DlmmGetPool (PositionManager.params_poolAddress params);
                PositionManager.DlmmCalculateLiquidityDistribution
                  (PositionManager.params_lowerBin params)
                  (PositionManager.params_upperBin params)
                  (PositionManager.amountX params) (PositionManager.amountY params)
                  (PositionManager.distributionType params)
                  (PositionManager.activeBin pool);
                PositionManager.DlmmCreatePosition
                  (PositionManager.params_poolAddress params)
                  (PositionManager.params_lowerBin params)
                  (PositionManager.params_upperBin params)
                  distribution (PositionManager.publicKey LiquidityShare sdk wallet);
                PositionManager.SendAndConfirmTransaction
                  (PositionManager.sign LiquidityShare sdk transaction [wallet])
                  [wallet] "confirmed"]
    end.
Proof.
  intros LiquidityShare sdk params wallet n run. subst run.
  unfold PositionManager.createPosition. unfold_async.
  replace (n + 3) with (n + 1 + 1 + 1) by lia.
  replace (n + 2) with (n + 1 + 1) by lia.
  destruct (PositionManager.getPool LiquidityShare sdk n
              (PositionManager.params_poolAddress params))
    as [pool | e] eqn:Hpool; cbn.
  2: { split; [exists 0%nat; split; [lia | reflexivity] |].
       ends_with. }
  destruct (PositionManager.calculateLiquidityDistribution LiquidityShare sdk (n + 1)
              (PositionManager.params_lowerBin params)
              (PositionManager.params_upperBin params)
              (PositionManager.amountX params) (PositionManager.amountY params)
              (PositionManager.distributionType params)
              (PositionManager.activeBin pool))
    as [distribution | e] eqn:Hdistribution; cbn.
  2: { split; [exists 1%nat; split; [lia | reflexivity] |].
       ends_with. }
  destruct (PositionManager.dlmm_createPosition LiquidityShare sdk (n + 1 + 1)
              (PositionManager.params_poolAddress params)
              (PositionManager.params_lowerBin params)
              (PositionManager.params_upperBin params)
              distribution (PositionManager.publicKey LiquidityShare sdk wallet))
    as [transaction | e] eqn:Htransaction; cbn.
  2: { split; [exists 2%nat; split; [lia | reflexivity] |].
       ends_with. }
  destruct (PositionManager.sendAndConfirmTransaction LiquidityShare sdk (n + 1 + 1 + 1)
              (PositionManager.sign LiquidityShare sdk transaction [wallet])
              [wallet] "confirmed")
    as [signature | e] eqn:Hsignature; cbn.
  2: { split; [exists 3%nat; split; [lia | reflexivity] |].
       ends_with. }
  exists pool, distribution, transaction.
  repeat split; first [assumption | reflexivity].
Qed.
